(** * webreqlog: usage counters, request selection and request summary

    A shallow embedding of [webreqlog.py]: the class [Counter] (time-bucketed
    usage metrics), the selection loop of [WebReqLog.loadRequests], the
    rollup loop of [WebReqLog.printRequestSummary], and the text functions
    around them ([html_escape], the query string of [wwwApp], [link],
    [str2date] and [date2str], the time range of an export), followed by the
    properties established about them.

    Conventions.  Python [dict]s with string keys are [gmap string _]; Python
    numbers are [number] (an unbounded [int] or a binary64 [float]); a Python
    exception is the [Raise] branch of [result]; a [seiscomp.core.Time] is a
    number of seconds since 1970-01-01T00:00:00Z and [Time.toString] follows
    [strftime] on the UTC calendar. *)

From Stdlib Require Import ZArith Lia Bool String Ascii List SpecFloat.
From Stdlib Require Import DecimalString DecimalZ.
From stdpp Require Import gmap strings list fin_maps sorting.
From Equations Require Import Equations.

#[local] Open Scope Z_scope.

(** ** Python values *)

Inductive exn : Set :=
| IndexError | KeyError | ValueError | NameError | Exception.

Inductive result (A : Type) : Type :=
| Ok (a : A)
| Raise (e : exn).
Arguments Ok {A} a.
Arguments Raise {A} e.

#[global] Instance result_ret : MRet result := fun A a => Ok a.
#[global] Instance result_bind : MBind result := fun A B k m =>
  match m with
  | Ok a => k a
  | Raise e => Raise e
  end.

(** Binary64 arithmetic, as specified by [SpecFloat] (round to nearest even). *)
Module PyFloat.
Definition prec : Z := 53.
Definition emax : Z := 1024.
Definition add : spec_float -> spec_float -> spec_float := SFadd prec emax.
Definition div : spec_float -> spec_float -> spec_float := SFdiv prec emax.
Definition compare : spec_float -> spec_float -> option comparison := SFcompare.

(** [float(n)] for an [int] n. *)
Definition of_int (n : Z) : spec_float := binary_normalize prec emax n 0 false.

(** [a / b] for two [int]s with [b <> 0]: the correctly rounded quotient
    ([0 / b] is the zero of [b]'s sign). *)
Definition int_truediv (a b : Z) : spec_float :=
  match a with
  | Z0 => S754_zero (b <? 0)
  | _ =>
    let '(q, e, l) := SFdiv_core_binary prec emax (Z.abs a) 0 (Z.abs b) 0 in
    binary_round_aux prec emax (xorb (a <? 0) (b <? 0)) q e l
  end.
End PyFloat.

Inductive number : Set :=
| Int (z : Z)
| Float (f : spec_float).

Definition to_float (x : number) : spec_float :=
  match x with
  | Int z => PyFloat.of_int z
  | Float f => f
  end.

(** [x + y] *)
Definition num_add (x y : number) : number :=
  match x, y with
  | Int a, Int b => Int (a + b)
  | _, _ => Float (PyFloat.add (to_float x) (to_float y))
  end.

(** [x / y] with [y] not zero *)
Definition num_truediv (x y : number) : number :=
  match x, y with
  | Int a, Int b => Float (PyFloat.int_truediv a b)
  | _, _ => Float (PyFloat.div (to_float x) (to_float y))
  end.

(** [x > y] *)
Definition num_gt (x y : number) : bool :=
  match x, y with
  | Int a, Int b => a >? b
  | _, _ =>
    match PyFloat.compare (to_float x) (to_float y) with
    | Some Gt => true
    | _ => false
    end
  end.

(** Truth value of what [session.args.get(key, False)] returns: the default
    [False] is [None], a given string is true unless empty. *)
Definition truthy (v : option string) : bool :=
  match v with
  | Some s => negb (String.eqb s "")
  | None => false
  end.

(** [l[i]], negative indices counting from the end. *)
Definition getitem {A : Type} (l : list A) (i : Z) : result A :=
  let n := Z.of_nat (length l) in
  let j := if i <? 0 then i + n else i in
  if (0 <=? j) && (j <? n)
  then match l !! Z.to_nat j with Some a => Ok a | None => Raise IndexError end
  else Raise IndexError.

(** [range(a, b)] *)
Definition range (a b : Z) : list Z := seqZ a (b - a).

(** [d.setdefault(k, v)]: the value now stored under [k], and the dict. *)
Definition setdefault {V : Type} (k : string) (v : V) (d : gmap string V)
  : V * gmap string V :=
  match d !! k with
  | Some x => (x, d)
  | None => (v, <[k := v]> d)
  end.

(** Decimal rendering of an [int], as [str(n)] and ["%d" % n] give it. *)
Definition dec (n : Z) : string := NilZero.string_of_int (Z.to_int n).

(** ["%02d" % n] *)
Definition fmt_02d (n : Z) : string :=
  if (0 <=? n) && (n <? 10) then String "0" (dec n) else dec n.

(** [int(s)] for a decimal literal. *)
Definition int_ (s : string) : result Z :=
  match NilZero.int_of_string s with
  | Some d => Ok (Z.of_int d)
  | None => Raise ValueError
  end.

(** [s.replace("%20", " ")] *)
Fixpoint replace_pct20 (s : string) : string :=
  match s with
  | String "%" (String "2" (String "0" rest)) => String " " (replace_pct20 rest)
  | String c rest => String c (replace_pct20 rest)
  | EmptyString => EmptyString
  end.

(** [s.replace(c, "")] for a one-character [c] *)
Fixpoint remove_char (c : ascii) (s : string) : string :=
  match s with
  | String a rest =>
    if Ascii.eqb a c then remove_char c rest else String a (remove_char c rest)
  | EmptyString => EmptyString
  end.

(** [s.split(c)] for a one-character separator [c] *)
Fixpoint split (c : ascii) (s : string) : list string :=
  match s with
  | EmptyString => [EmptyString]
  | String a rest =>
    if Ascii.eqb a c then EmptyString :: split c rest
    else match split c rest with
         | w :: ws => String a w :: ws
         | [] => [String a EmptyString]
         end
  end.

(** [s.upper()] on ASCII letters *)
Definition upper_char (a : ascii) : ascii :=
  let n := N_of_ascii a in
  if (97 <=? n)%N && (n <=? 122)%N then ascii_of_N (n - 32) else a.

Fixpoint upper (s : string) : string :=
  match s with
  | String a rest => String (upper_char a) (upper rest)
  | EmptyString => EmptyString
  end.

(** [s[n:]] for [n >= 0] *)
Fixpoint drop_prefix (n : nat) (s : string) : string :=
  match n, s with
  | S n', String _ rest => drop_prefix n' rest
  | _, _ => s
  end.

(** ** seiscomp.core.Time *)

Module Time.
(** Seconds since the epoch; [TimeSpan] is a number of seconds too. *)
Definition t : Set := Z.

Definition days (x : t) : Z := x / 86400.

(** Proleptic Gregorian date [(year, month, day)] of a day number. *)
Definition civil_from_days (z : Z) : Z * Z * Z :=
  let z := z + 719468 in
  let era := z / 146097 in
  let doe := z mod 146097 in
  let yoe := (doe - doe / 1460 + doe / 36524 - doe / 146096) / 365 in
  let doy := doe - (365 * yoe + yoe / 4 - yoe / 100) in
  let mp := (5 * doy + 2) / 153 in
  let d := doy - (153 * mp + 2) / 5 + 1 in
  let m := if mp <? 10 then mp + 3 else mp - 9 in
  let y := yoe + era * 400 + (if m <=? 2 then 1 else 0) in
  (y, m, d).

Definition year (x : t) : Z := (civil_from_days (days x)).1.1.
Definition month (x : t) : Z := (civil_from_days (days x)).1.2.
Definition mday (x : t) : Z := (civil_from_days (days x)).2.
Definition hour (x : t) : Z := (x mod 86400) / 3600.
Definition minute (x : t) : Z := (x mod 3600) / 60.
Definition second (x : t) : Z := x mod 60.
(** Day of the week, Sunday being 0; 1970-01-01 was a Thursday. *)
Definition wday (x : t) : Z := (days x + 4) mod 7.

(** One conversion specification of [strftime]. *)
Definition directive (c : ascii) (x : t) : string :=
  match c with
  | "Y"%char => dec (year x)
  | "m"%char => fmt_02d (month x)
  | "d"%char => fmt_02d (mday x)
  | "H"%char => fmt_02d (hour x)
  | "M"%char => fmt_02d (minute x)
  | "S"%char => fmt_02d (second x)
  | "w"%char => dec (wday x)
  | _ => String "%" (String c EmptyString)
  end.

Fixpoint toString (fmt : string) (x : t) : string :=
  match fmt with
  | String "%" (String c rest) => directive c x +:+ toString rest x
  | String a rest => String a (toString rest x)
  | EmptyString => EmptyString
  end.
End Time.

(** ** seiscomp.datamodel: the request log records *)

Module ArclinkStatusLine.
Record t : Set := mk {
  volumeID : string;
  status : string;
  size : Z;
  message : string
}.
End ArclinkStatusLine.

Module WaveformStreamID.
Record t : Set := mk {
  networkCode : string;
  stationCode : string;
  locationCode : string;
  channelCode : string
}.
End WaveformStreamID.

Module ArclinkRequestLine.
Record t : Set := mk {
  start : Time.t;
  end_ : Time.t;
  streamID : WaveformStreamID.t;
  restricted : bool;
  status : ArclinkStatusLine.t
}.
End ArclinkRequestLine.

Module ArclinkRequestSummary.
Record t : Set := mk {
  okLineCount : Z;
  totalLineCount : Z;
  averageTimeWindow : number
}.

Definition setOkLineCount (s : t) (n : Z) : t :=
  mk n (totalLineCount s) (averageTimeWindow s).

Definition setTotalLineCount (s : t) (n : Z) : t :=
  mk (okLineCount s) n (averageTimeWindow s).

Definition setAverageTimeWindow (s : t) (x : number) : t :=
  mk (okLineCount s) (totalLineCount s) x.
End ArclinkRequestSummary.

Module ArclinkRequest.
(** [summary] is [None] while the request is unfinished: [summary()] then
    raises.  [statusLines] and [requestLines] hold the child objects
    attached so far; the database query attaches the stored ones on demand. *)
Record t : Set := mk {
  requestID : string;
  userID : string;
  userIP : string;
  clientID : string;
  clientIP : string;
  type : string;
  created : Time.t;
  status : string;
  summary : option ArclinkRequestSummary.t;
  statusLines : list ArclinkStatusLine.t;
  requestLines : list ArclinkRequestLine.t
}.

(** [ArclinkRequest(request)]: the attributes are copied, the child objects
    are not. *)
Definition copy (r : t) : t :=
  mk (requestID r) (userID r) (userIP r) (clientID r) (clientIP r) (type r)
     (created r) (status r) (summary r) [] [].

Definition add_statusLine (r : t) (l : ArclinkStatusLine.t) : t :=
  mk (requestID r) (userID r) (userIP r) (clientID r) (clientIP r) (type r)
     (created r) (status r) (summary r) (statusLines r ++ [l]) (requestLines r).

Definition add_requestLine (r : t) (l : ArclinkRequestLine.t) : t :=
  mk (requestID r) (userID r) (userIP r) (clientID r) (clientIP r) (type r)
     (created r) (status r) (summary r) (statusLines r) (requestLines r ++ [l]).

Definition setSummary (r : t) (s : ArclinkRequestSummary.t) : t :=
  mk (requestID r) (userID r) (userIP r) (clientID r) (clientIP r) (type r)
     (created r) (status r) (Some s) (statusLines r) (requestLines r).

(** [request.summary()] *)
Definition get_summary (r : t) : result ArclinkRequestSummary.t :=
  match summary r with
  | Some s => Ok s
  | None => Raise ValueError
  end.
End ArclinkRequest.

(** The database query object ([self.query()]): the two loaders return the
    request with its stored child lines attached. *)
Record DatabaseQuery : Type := {
  loadArclinkStatusLines : ArclinkRequest.t -> ArclinkRequest.t;
  loadArclinkRequestLines : ArclinkRequest.t -> ArclinkRequest.t
}.

(** ** class Counter *)

(** A bucket: [(requests, lines, errors, size)]. *)
Definition metrics : Set := Z * Z * Z * number.

Definition zero_metrics : metrics := (0, 0, 0, Int 0).

Record Counter : Type := mkCounter {
  hourly : gmap string metrics;
  daily : gmap string metrics;
  monthly : gmap string metrics;
  weekdaily : gmap string metrics;
  lines : Z;
  requests : Z;
  errors : Z;
  weekdays : list string
}.

Definition weekdays_list : list string :=
  ["$0Sunday"; "$1Monday"; "$2Tuesday"; "$3Wednesday"; "$4Thursday";
   "$5Friday"; "$6Saturday"].

(** [self.weekdays[int(t.toString("%w"))]] *)
Definition weekday_key (weekdays : list string) (t : Time.t) : result string :=
  i ← int_ (Time.toString "%w" t);
  getitem weekdays i.

(** Body of the [while t < end] loop of [__init__]. *)
Definition preset_day (t : Time.t) (c : Counter) : result Counter :=
  let day := Time.toString "%Y-%m-%d" t in
  let daily' := (setdefault day zero_metrics (daily c)).2 in
  let month := Time.toString "%Y-%m" t in
  let monthly' := (setdefault month zero_metrics (monthly c)).2 in
  wd ← weekday_key (weekdays c) t;
  let weekdaily' := (setdefault wd zero_metrics (weekdaily c)).2 in
  Ok (mkCounter (hourly c) daily' monthly' weekdaily'
                (lines c) (requests c) (errors c) (weekdays c)).

Equations? preset_days (t end_ : Time.t) (c : Counter) : result Counter
  by wf (Z.to_nat ((end_ - t + 86399) / 86400)) lt :=
  preset_days t end_ c with decide (t < end_) => {
    | left _ with preset_day t c => {
      | Ok c' := preset_days (t + 86400) end_ c';
      | Raise e := Raise e };
    | right _ := Ok c }.
Proof. Z.div_mod_to_equations. lia. Qed.

(** Body of the [for h in range(0,24)] loop of [__init__]. *)
Definition preset_hour (c : Counter) (h : Z) : Counter :=
  mkCounter (setdefault (fmt_02d h) zero_metrics (hourly c)).2
            (daily c) (monthly c) (weekdaily c)
            (lines c) (requests c) (errors c) (weekdays c).

(** [Counter.__init__(self, start=None, end=None)]; [if start and end]
    holds when both are given, a [Time] object being a true value. *)
Definition Counter_init (start end_ : option Time.t) : result Counter :=
  let self := mkCounter ∅ ∅ ∅ ∅ 0 0 0 weekdays_list in
  match start, end_ with
  | Some start, Some end_ =>
    self ← preset_days start end_ self;
    Ok (foldl preset_hour self (range 0 24))
  | _, _ => Ok self
  end.

(** [(requests, lines, errors, size) = d.setdefault(k, (0,0,0,0));
     d[k] = (requests+1, lines+l, errors+e, size+volSize)] *)
Definition add_to_bucket (k : string) (l e : Z) (volSize : number)
    (d : gmap string metrics) : gmap string metrics :=
  let '((requests, lines, errors, size), d) := setdefault k zero_metrics d in
  <[k := (requests + 1, lines + l, errors + e, num_add size volSize)]> d.

(** The [volSize] computed by [__call__]: the sizes summed, then [/= 1e6]. *)
Definition volSize_of (request : ArclinkRequest.t) : number :=
  let volSize :=
    foldl (fun volSize sline => num_add volSize (Int (ArclinkStatusLine.size sline)))
          (Int 0) (ArclinkRequest.statusLines request) in
  num_truediv volSize (Float (PyFloat.of_int 1000000)).

(** [Counter.__call__(self, request)] *)
Definition Counter_call (self : Counter) (request : ArclinkRequest.t)
  : result Counter :=
  let date := ArclinkRequest.created request in
  s ← ArclinkRequest.get_summary request;
  let l := ArclinkRequestSummary.totalLineCount s in
  let e := ArclinkRequestSummary.totalLineCount s
           - ArclinkRequestSummary.okLineCount s in
  let volSize := volSize_of request in
  let hour := Time.toString "%H" date in
  let hourly' := add_to_bucket hour l e volSize (hourly self) in
  let day := Time.toString "%Y-%m-%d" date in
  let daily' := add_to_bucket day l e volSize (daily self) in
  let month := Time.toString "%Y-%m" date in
  let monthly' := add_to_bucket month l e volSize (monthly self) in
  wd ← weekday_key (weekdays self) date;
  let weekdaily' := add_to_bucket wd l e volSize (weekdaily self) in
  Ok (mkCounter hourly' daily' monthly' weekdaily'
                (lines self) (requests self) (errors self) (weekdays self)).

(** [sorted(d.items())]: dict keys are distinct, so the order of the pairs
    is the order of their keys. *)
Definition sorted_items {V : Type} (d : gmap string V) : list (string * V) :=
  merge_sort (fun x y => String.le x.1 y.1) (map_to_list d).

(** The "Total" row of the chart table of [wwwChart]:
    [tr = tl = te = ts = 0], then [tr += r; tl += l; te += e; ts += s] over
    [sorted(d.items())]. *)
Definition table_total (d : gmap string metrics) : metrics :=
  foldl (fun '(tr, tl, te, ts) '(k, (r, l, e, s)) =>
           (tr + r, tl + l, te + e, num_add ts s))
        zero_metrics (sorted_items d).

(** The first column of the "weekdaily" table shows [k[2:]]. *)
Definition weekday_display (k : string) : string := drop_prefix 2 k.

(** ** seiscomp.core.Time: construction and parsing *)

(** Day number of a proleptic Gregorian date; a month outside 1..12 moves
    the year and a day outside the month moves on, as [timegm] does. *)
Definition days_from_civil (y m d : Z) : Z :=
  let y := y + (m - 1) / 12 in
  let m := (m - 1) mod 12 + 1 in
  let y := if m <=? 2 then y - 1 else y in
  let era := y / 400 in
  let yoe := y mod 400 in
  let mp := if m <=? 2 then m + 9 else m - 3 in
  let doy := (153 * mp + 2) / 5 + d - 1 in
  let doe := yoe * 365 + yoe / 4 - yoe / 100 + doy in
  era * 146097 + doe - 719468.

(** [seiscomp.core.Time(year, month, day, hour, min, sec)] *)
Definition Time_of_fields (year month day hour min sec : Z) : Time.t :=
  days_from_civil year month day * 86400 + hour * 3600 + min * 60 + sec.

(** [isspace] of the C locale. *)
Definition c_isspace (c : ascii) : bool :=
  let n := N_of_ascii c in
  (n =? 32)%N || ((9 <=? n)%N && (n <=? 13)%N).

Definition is_digit (c : ascii) : bool :=
  let n := N_of_ascii c in (48 <=? n)%N && (n <=? 57)%N.

Definition digit_value (c : ascii) : Z := Z.of_N (N_of_ascii c) - 48.

Fixpoint skip_spaces (s : string) : string :=
  match s with
  | String c rest => if c_isspace c then skip_spaces rest else s
  | EmptyString => s
  end.

(** The loop of [strptime]'s [get_number] after the first digit is read:
    at most [n] more digits, as long as ten times the value does not exceed
    [to]. *)
Fixpoint more_digits (n : nat) (to val : Z) (s : string) : Z * string :=
  match n, s with
  | S n', String c rest =>
    if (val * 10 <=? to) && is_digit c
    then more_digits n' to (val * 10 + digit_value c) rest
    else (val, s)
  | _, _ => (val, s)
  end.

(** [get_number(from, to, n)]: the value and the rest of the input. *)
Definition get_number (from to : Z) (n : nat) (s : string) : option (Z * string) :=
  match skip_spaces s with
  | String c rest =>
    if is_digit c
    then let '(val, rest) := more_digits (n - 1) to (digit_value c) rest in
         if (from <=? val) && (val <=? to) then Some (val, rest) else None
    else None
  | EmptyString => None
  end.

(** The fields of [struct tm] that the formats of [str2date] set:
    (year, month, day, hour, minute, second). *)
Definition tm : Set := Z * Z * Z * Z * Z * Z.

(** [strptime(s, fmt, &t)] for the conversions "%Y", "%m", "%d", "%H", "%M"
    and "%S": the fields, [None] when the input does not fit.  A white space
    of the format skips the white space of the input; any other character
    has to be the next one of the input. *)
Fixpoint strptime (fmt : string) (s : string) (t : tm) : option tm :=
  let '(year, month, day, hour, min, sec) := t in
  match fmt with
  | EmptyString => Some t
  | String "%" (String d fmt') =>
    let field (from to : Z) (n : nat) (set : Z -> tm) :=
      match get_number from to n s with
      | Some (val, rest) => strptime fmt' rest (set val)
      | None => None
      end in
    match d with
    | "Y"%char => field 0 9999 4%nat (fun v => (v, month, day, hour, min, sec))
    | "m"%char => field 1 12 2%nat (fun v => (year, v, day, hour, min, sec))
    | "d"%char => field 1 31 2%nat (fun v => (year, month, v, hour, min, sec))
    | "H"%char => field 0 23 2%nat (fun v => (year, month, day, v, min, sec))
    | "M"%char => field 0 59 2%nat (fun v => (year, month, day, hour, v, sec))
    | "S"%char => field 0 61 2%nat (fun v => (year, month, day, hour, min, v))
    | _ => None
    end
  | String c fmt' =>
    if c_isspace c then strptime fmt' (skip_spaces s) t
    else match s with
         | String c' rest => if Ascii.eqb c' c then strptime fmt' rest t else None
         | EmptyString => None
         end
  end.

(** [seiscomp.core.Time.FromString(str, fmt)]: [strptime] on a zeroed
    [struct tm] (year 1900, month 1, day 0), then [timegm]; when the text
    does not fit, the time stays as constructed, the epoch. *)
Definition Time_FromString (str fmt : string) : Time.t :=
  match strptime fmt str (1900, 1, 0, 0, 0, 0) with
  | Some (year, month, day, hour, min, sec) =>
    Time_of_fields year month day hour min sec
  | None => 0
  end.

(** The newline character. *)
Definition newline : ascii := "010"%char.

(** ** date2str and str2date *)

(** [date2str(date, mode)]; the result is [None] for any other mode, as
    the function then falls off its end. *)
Definition date2str (date : Time.t) (mode : string) : option string :=
  if String.eqb mode "date time" then Some (Time.toString "%Y-%m-%d %H:%M:%S" date)
  else if String.eqb mode "date_time"
  then Some (Time.toString "%Y-%m-%d_%H:%M:%S" date)
  else if String.eqb mode "date" then Some (Time.toString "%Y-%m-%d" date)
  else if String.eqb mode "time" then Some (Time.toString "%H:%M:%S" date)
  else None.

(** The pieces the three patterns of [dateTimeRe] are made of: a run of
    [min] to [max] digits, one white space, one given character. *)
Inductive re_item : Set :=
| Digits (min max : nat)
| Whitespace
| Char (c : ascii).

(** What Python's white space class matches among the characters 0 to 255. *)
Definition py_isspace (c : ascii) : bool :=
  let n := N_of_ascii c in
  ((9 <=? n)%N && (n <=? 13)%N) || ((28 <=? n)%N && (n <=? 32)%N)
  || (n =? 133)%N || (n =? 160)%N.

(** A greedy run of [min] to [max] digits followed by what [k] accepts. *)
Fixpoint re_digits (max min : nat) (k : string -> bool) (s : string) : bool :=
  match max with
  | O => (min =? 0)%nat && k s
  | S max' =>
    match s with
    | String c rest =>
      (is_digit c && re_digits max' (pred min) k rest) || ((min =? 0)%nat && k s)
    | EmptyString => (min =? 0)%nat && k s
    end
  end.

(** The pattern between its two anchors: the text from its start, the end
    anchor holding at the end of the text or before a newline that closes
    it. *)
Fixpoint re_match (p : list re_item) (s : string) : bool :=
  match p with
  | [] => String.eqb s "" || String.eqb s (String newline "")
  | Digits min max :: p' => re_digits max min (re_match p') s
  | Whitespace :: p' =>
    match s with
    | String c rest => py_isspace c && re_match p' rest
    | EmptyString => false
    end
  | Char a :: p' =>
    match s with
    | String c rest => Ascii.eqb c a && re_match p' rest
    | EmptyString => false
    end
  end.

(** The three patterns of [dateTimeRe]. *)
Definition date_re : list re_item :=
  [Digits 4 4; Char "-"; Digits 1 2; Char "-"; Digits 1 2].

Definition time_re : list re_item :=
  [Digits 1 2; Char ":"; Digits 1 2; Char ":"; Digits 1 2].

Definition datetime_re : list re_item := date_re ++ Whitespace :: time_re.

(** The text of the named group of a match: the whole text, without the
    newline that may close it. *)
Fixpoint re_group (s : string) : string :=
  match s with
  | String c EmptyString => if Ascii.eqb c newline then EmptyString else s
  | String c rest => String c (re_group rest)
  | EmptyString => EmptyString
  end.

(** [str2date(line)], [now] being [(now.year, now.month, now.day)] of
    [datetime.now()].  [None] is [raise Exception]; a value under [Some] is
    what the matched branch gives. *)
Definition str2date (now : Z * Z * Z) (line : string) : option (result Time.t) :=
  let text := replace_pct20 line in
  if re_match datetime_re text
  then Some (Ok (Time_FromString (re_group text) "%Y-%m-%d %H:%M:%S"))
  else if re_match date_re text
  then Some (Ok (Time_FromString (re_group text) "%Y-%m-%d"))
  else if re_match time_re text
  then
    let t := split ":" (re_group text) in
    Some (t0 ← getitem t 0; h ← int_ t0;
          t1 ← getitem t 1; m ← int_ t1;
          t2 ← getitem t 2; s ← int_ t2;
          Ok (Time_of_fields now.1.1 now.1.2 now.2 h m s))
  else None.

(** ** WebReqLog.loadRequests: the selection *)

(** The filter variables of [loadRequests] once the session arguments are
    read: [restricted] is [None], [Some false] (was "0") or [Some true]
    (was "1"); the others are [None] for the default [False]. *)
Record selection_vars : Set := {
  restricted : option bool;
  onlyErrors : option string;
  lines_ : option string;
  volume : option string;
  message : option string;
  userIP : option string;
  clientIP : option string;
  streamID : string;
  net : string;
  sta : string;
  loc : string;
  cha : string
}.

(** [v and v != s] *)
Definition and_ne (v : option string) (s : string) : bool :=
  match v with
  | Some x => truthy v && negb (String.eqb x s)
  | None => false
  end.

(** [message and message.replace("%20", " ") != s] *)
Definition message_ne (message : option string) (s : string) : bool :=
  match message with
  | Some x => truthy message && negb (String.eqb (replace_pct20 x) s)
  | None => false
  end.

(** [onlyErrors and status == 'OK'] *)
Definition only_errors_ok (onlyErrors : option string) (status : string) : bool :=
  truthy onlyErrors && String.eqb status "OK".

(** [reqErrors], with its [try]/[except]. *)
Definition reqErrors_of (request : ArclinkRequest.t) : Z :=
  match ArclinkRequest.get_summary request with
  | Ok s => ArclinkRequestSummary.totalLineCount s
            - ArclinkRequestSummary.okLineCount s
  | Raise _ => 0
  end.

(** A status line reaches [Xrequest.add]: none of the three [continue]s of
    the status-line loop is taken. *)
Definition status_line_kept (v : selection_vars) (sline : ArclinkStatusLine.t)
  : bool :=
  let vol := ArclinkStatusLine.volumeID sline in
  if and_ne (volume v) vol then false
  else if message_ne (message v) (ArclinkStatusLine.message sline) then false
  else
    let status := ArclinkStatusLine.status sline in
    if only_errors_ok (onlyErrors v) status then false
    else true.

(** The name [DataModel] is bound nowhere in webreqlog.py: line 25 imports
    [seiscomp.datamodel], and no statement assigns [DataModel].  Its three
    uses, [DataModel.ArclinkStatusLine(sline)] (line 1464),
    [DataModel.ArclinkRequestLine(line)] (line 1487) and
    [DataModel.ArclinkRequestSummary()] (line 1496), raise [NameError] when
    the name is looked up, before any class is called. *)
Definition DataModel {A : Type} : result A := Raise NameError.

(** The status-line loop: [(Xrequest, foundVolume)].  A status line that
    none of the three [continue]s skips reaches
    [Xrequest.add(DataModel.ArclinkStatusLine(sline))]. *)
Definition status_loop (v : selection_vars) (slines : list ArclinkStatusLine.t)
    (Xrequest : ArclinkRequest.t) : result (ArclinkRequest.t * bool) :=
  foldl (fun acc sline =>
           '(Xrequest, foundVolume) ← acc;
           if status_line_kept v sline
           then
             copied ← DataModel;
             Ok (ArclinkRequest.add_statusLine Xrequest copied, true)
           else Ok (Xrequest, foundVolume))
        (Ok (Xrequest, false)) slines.

(** A request line reaches [Xrequest.add]. *)
Definition request_line_kept (v : selection_vars) (line : ArclinkRequestLine.t)
  : bool :=
  let vol := ArclinkStatusLine.volumeID (ArclinkRequestLine.status line) in
  if and_ne (volume v) vol then false
  else if message_ne (message v)
            (ArclinkStatusLine.message (ArclinkRequestLine.status line))
  then false
  else
    let status := ArclinkStatusLine.status (ArclinkRequestLine.status line) in
    if only_errors_ok (onlyErrors v) status then false
    else
      let sid := ArclinkRequestLine.streamID line in
      if (0 <? String.length (streamID v))%nat
         && ((negb (String.eqb (net v) "")
              && negb (String.eqb (net v) (WaveformStreamID.networkCode sid)))
             || (negb (String.eqb (sta v) "")
                 && negb (String.eqb (sta v) (WaveformStreamID.stationCode sid)))
             || (negb (String.eqb (loc v) "")
                 && negb (String.eqb (loc v) (WaveformStreamID.locationCode sid)))
             || (negb (String.eqb (cha v) "")
                 && negb (String.eqb (cha v) (WaveformStreamID.channelCode sid))))
      then false
      else
        match restricted v with
        | Some r => Bool.eqb r (ArclinkRequestLine.restricted line)
        | None => true
        end.

(** The variables the request-line loop updates. *)
Record line_vars : Set := mk_line_vars {
  lv_Xrequest : ArclinkRequest.t;
  lv_foundLine : bool;
  lv_lineCount : Z;
  lv_errorCount : Z;
  lv_tw : Z
}.

(** Body of the request-line loop: a line that no [continue] skips reaches
    [Xrequest.add(DataModel.ArclinkRequestLine(line))]. *)
Definition line_step (v : selection_vars) (a : line_vars)
    (line : ArclinkRequestLine.t) : result line_vars :=
  if request_line_kept v line then
    let status := ArclinkStatusLine.status (ArclinkRequestLine.status line) in
    copied ← DataModel;
    let start := ArclinkRequestLine.start line in
    let end_ := ArclinkRequestLine.end_ line in
    Ok (mk_line_vars
          (ArclinkRequest.add_requestLine (lv_Xrequest a) copied)
          true
          (lv_lineCount a + 1)
          (if negb (String.eqb status "OK") then lv_errorCount a + 1
           else lv_errorCount a)
          (if start <=? end_ then lv_tw a + (end_ - start) else lv_tw a))
  else Ok a.

Definition line_loop (v : selection_vars) (rlines : list ArclinkRequestLine.t)
    (Xrequest : ArclinkRequest.t) : result line_vars :=
  foldl (fun a line => a ← a; line_step v a line)
        (Ok (mk_line_vars Xrequest false 0 0 0)) rlines.

(** [averageTimeWindow] as lines 1499-1502 compute it from [tw.seconds()]
    and [lineCount]. *)
Definition averageTimeWindow_of (tw lineCount : Z) : number :=
  let averageTimeWindow := Int tw in
  let averageTimeWindow :=
    if lineCount >? 0 then num_truediv (Int tw) (Int lineCount)
    else averageTimeWindow in
  if num_gt averageTimeWindow (Int (2 ^ 32)) then Int (-1)
  else averageTimeWindow.

(** Lines 1496-1503: [summary = DataModel.ArclinkRequestSummary()], then its
    three setters. *)
Definition derived_summary (a : line_vars) : result ArclinkRequestSummary.t :=
  summary ← DataModel;
  let summary :=
    ArclinkRequestSummary.setOkLineCount summary
      (lv_lineCount a - lv_errorCount a) in
  let summary := ArclinkRequestSummary.setTotalLineCount summary (lv_lineCount a) in
  let summary :=
    ArclinkRequestSummary.setAverageTimeWindow summary
      (averageTimeWindow_of (lv_tw a) (lv_lineCount a)) in
  Ok summary.

(** The values of the loop variables when the final [if] of the body is
    reached. *)
Record decision : Set := mk_decision {
  d_Xrequest : ArclinkRequest.t;
  d_foundUserIP : bool;
  d_foundClientIP : bool;
  d_foundRequest : bool;
  d_foundVolume : bool;
  d_foundLine : bool
}.

(** [found = False; if ip != False: if ip == actual: found = True else: continue]:
    [None] is the [continue], otherwise the value of [found]. *)
Definition ip_check (ip : option string) (actual : string) : option bool :=
  match ip with
  | Some ip => if String.eqb ip actual then Some true else None
  | None => Some false
  end.

(** One iteration of [for request in requests], up to the final [if]:
    [Ok None] when a [continue] is taken, [Raise] when the iteration ends in
    an exception. *)
Definition select_body (q : DatabaseQuery) (v : selection_vars)
    (request : ArclinkRequest.t) : result (option decision) :=
  let reqErrors := reqErrors_of request in
  match ip_check (userIP v) (ArclinkRequest.userIP request) with
  | None => Ok None
  | Some foundUserIP =>
  match ip_check (clientIP v) (ArclinkRequest.clientIP request) with
  | None => Ok None
  | Some foundClientIP =>
  let foundRequest :=
    truthy (onlyErrors v)
    && negb (String.eqb (ArclinkRequest.status request) "END") in
  let Xrequest := ArclinkRequest.copy request in
  let request := loadArclinkStatusLines q request in
  if truthy (volume v)
     && bool_decide (length (ArclinkRequest.statusLines request) = 0%nat)
  then Ok None else
  '(Xrequest, foundVolume) ←
    status_loop v (ArclinkRequest.statusLines request) Xrequest;
  '(Xrequest, foundLine) ←
    (if truthy (lines_ v) || bool_decide (is_Some (restricted v)) then
       let request := loadArclinkRequestLines q request in
       a ← line_loop v (ArclinkRequest.requestLines request) Xrequest;
       summary ← derived_summary a;
       Ok (ArclinkRequest.setSummary (lv_Xrequest a) summary, lv_foundLine a)
     else Ok (Xrequest, false));
  let foundRequest :=
    if negb (truthy (lines_ v)) && negb (truthy (volume v))
       && truthy (onlyErrors v) && (reqErrors >? 0)
    then true else foundRequest in
  let foundRequest :=
    if negb (truthy (message v)) && negb (truthy (lines_ v))
       && negb (truthy (onlyErrors v)) && negb (truthy (volume v))
       && (foundUserIP || foundClientIP)
    then true else foundRequest in
  Ok (Some (mk_decision Xrequest foundUserIP foundClientIP
                        foundRequest foundVolume foundLine))
  end end.

(** The whole iteration: the projection that is passed to [cb] or appended to
    [selection], if any. *)
Definition select_request (q : DatabaseQuery) (v : selection_vars)
    (request : ArclinkRequest.t) : result (option ArclinkRequest.t) :=
  d ← select_body q v request;
  match d with
  | Some d =>
    if d_foundRequest d || d_foundLine d || d_foundVolume d
    then Ok (Some (d_Xrequest d)) else Ok None
  | None => Ok None
  end.

(** [restricted] as lines 1378-1381 leave it: ["0"], ["1"] or [None]. *)
Definition restricted_arg (args : gmap string string) : option string :=
  match args !! "restricted" with
  | Some r =>
    if String.eqb r "no" then Some "0"
    else if String.eqb r "yes" then Some "1"
    else None
  | None => None
  end.

(** [if ip == "unknown": ip = ""] *)
Definition unknown_ip (ip : option string) : option string :=
  match ip with
  | Some s => if String.eqb s "unknown" then Some "" else Some s
  | None => None
  end.

(** The filter variables as the selection loop sees them (lines 1424-1434). *)
Definition read_selection (args : gmap string string) : selection_vars :=
  let restricted := restricted_arg args in
  let streamID :=
    remove_char "?" (remove_char "*" (default "" (args !! "streamID"))) in
  let '(net, sta, loc, cha) :=
    match split "." streamID with
    | [net; sta; loc; cha] => (net, sta, loc, cha)
    | _ => ("", "", "", "")
    end in
  let restricted :=
    match restricted with
    | Some r =>
      if String.eqb r "0" then Some false
      else if String.eqb r "1" then Some true
      else None
    | None => None
    end in
  {| restricted := restricted;
     onlyErrors := args !! "onlyErrors";
     lines_ := args !! "lines";
     volume := args !! "volume";
     message := args !! "message";
     userIP := unknown_ip (args !! "userIP");
     clientIP := unknown_ip (args !! "clientIP");
     streamID := streamID; net := net; sta := sta; loc := loc; cha := cha |}.

(** [str2date(line)] as a call: [raise Exception] is the failure
    [Exception]. *)
Definition call_str2date (now : Z * Z * Z) (line : string) : result Time.t :=
  match str2date now line with
  | Some t => t
  | None => Raise Exception
  end.

(** [loadRequests(self, session, cb=None)].  [args] is [session.args],
    [now] the date of [datetime.now()] and [query] the objects with which
    the database answers the coarse query of lines 1398-1403.  The callback
    updates a state [S] (the [Counter] in [wwwChart]); the value is what the
    function returns ([None] in callback mode) and the final state. *)
Definition loadRequests {S : Type} (now : Z * Z * Z) (q : DatabaseQuery)
    (query : list ArclinkRequest.t) (args : gmap string string)
    (cb : option (S -> ArclinkRequest.t -> result S)) (st : S)
  : result (option (list ArclinkRequest.t) * S) :=
  startTime ← call_str2date now (default "2020-04-01" (args !! "startTime"));
  endTime ← call_str2date now (default "2020-04-02" (args !! "endTime"));
  let requests :=
    filter (fun request => is_Some (ArclinkRequest.summary request)) query in
  if negb (truthy (restricted_arg args) || truthy (args !! "onlyErrors")
           || truthy (args !! "lines") || truthy (args !! "volume")
           || truthy (args !! "message") || truthy (args !! "userIP")
           || truthy (args !! "clientIP") || bool_decide (is_Some cb))
  then Ok (Some requests, st)
  else
    let v := read_selection args in
    '(selection, st) ←
      foldl (fun acc request =>
               '(selection, st) ← acc;
               Xrequest ← select_request q v request;
               match Xrequest with
               | Some Xrequest =>
                 match cb with
                 | Some cb => st ← cb st Xrequest; Ok (selection, st)
                 | None => Ok (selection ++ [Xrequest], st)
                 end
               | None => Ok (selection, st)
               end)
            (Ok ([], st)) requests;
    match cb with
    | Some _ => Ok (None, st)
    | None => Ok (Some selection, st)
    end.

(** ** WebReqLog.printRequestSummary: the rollups *)

Module Summary.
(** The dictionaries and running values of [printRequestSummary], under
    the names the function gives them; [netcounts] and [volume_error] are
    reset for every request. *)
Record t : Type := mk {
  users : gmap string (Z * Z * Z * Z);
  rtypes : gmap string (Z * Z * Z);
  streams : gmap string (Z * Z * Z * Z * Z);
  errors : gmap string Z;
  messages : gmap string Z;
  total : Z;
  volumes : gmap string (Z * Z * Z);
  userIPs : gmap string (Z * Z * Z);
  clientIPs : gmap string (Z * Z * Z);
  nets : gmap string (Z * Z * Z * Z * Z);
  timeMin : Time.t;
  timeMax : Time.t;
  netcounts : gmap string (Z * Z * Z * Z);
  volume_error : gmap string bool
}.
End Summary.

(** [d[k]] *)
Definition dict_getitem {V : Type} (d : gmap string V) (k : string) : result V :=
  match d !! k with
  | Some x => Ok x
  | None => Raise KeyError
  end.

(** [d.setdefault(k, 0); d[k] += n] *)
Definition count_up (k : string) (n : Z) (d : gmap string Z) : gmap string Z :=
  let '(x, d) := setdefault k 0 d in <[k := x + n]> d.

(** Body of the status-line loop of [printRequestSummary]. *)
Definition summary_status_line (user : string) (a : Summary.t)
    (sline : ArclinkStatusLine.t) : Summary.t :=
  let err := if String.eqb (ArclinkStatusLine.status sline) "OK" then 0 else 1 in
  let volume := ArclinkStatusLine.volumeID sline in
  let '(volume_error, size) :=
    if String.eqb (ArclinkStatusLine.status sline) "ERROR"
    then (<[volume := true]> (Summary.volume_error a), 0)
    else (<[volume := false]> (Summary.volume_error a),
          ArclinkStatusLine.size sline) in
  let '((count, error, s), volumes) :=
    setdefault volume (0, 0, 0) (Summary.volumes a) in
  let volumes := <[volume := (count + 1, error + err, s + size)]> volumes in
  let '((count, lines, error, s), users) :=
    setdefault user (0, 0, 0, 0) (Summary.users a) in
  let users := <[user := (count, lines, error, s + size)]> users in
  let message := ArclinkStatusLine.message sline in
  let messages := count_up message 1 (Summary.messages a) in
  Summary.mk users (Summary.rtypes a) (Summary.streams a) (Summary.errors a)
    messages (Summary.total a) volumes (Summary.userIPs a)
    (Summary.clientIPs a) (Summary.nets a) (Summary.timeMin a)
    (Summary.timeMax a) (Summary.netcounts a) volume_error.

(** The bytes a request line adds to its station and network entries
    (lines 1006-1027), given the request's [volume_error]. *)
Definition line_size (volume_error : gmap string bool)
    (line : ArclinkRequestLine.t) : result Z :=
  let st := ArclinkRequestLine.status line in
  if String.eqb (ArclinkStatusLine.status st) "ERROR" then Ok 0
  else if String.eqb (ArclinkStatusLine.status st) "NODATA" then Ok 0
  else
    match dict_getitem volume_error (ArclinkStatusLine.volumeID st) with
    | Ok true => Ok 0
    | Ok false => Ok (ArclinkStatusLine.size st)
    | Raise KeyError => Ok (ArclinkStatusLine.size st)
    | Raise e => Raise e
    end.

(** [netcode[0] in 'XYZ'] *)
Definition first_in_XYZ (netcode : string) : result bool :=
  match netcode with
  | String c _ =>
    Ok (Ascii.eqb c "X" || Ascii.eqb c "Y" || Ascii.eqb c "Z")
  | EmptyString => Raise IndexError
  end.

(** The key of a request line in [netcounts] and [nets] (lines 1035-1037). *)
Definition net_key (line : ArclinkRequestLine.t) : result string :=
  let netcode := WaveformStreamID.networkCode (ArclinkRequestLine.streamID line) in
  b ← first_in_XYZ netcode;
  if b : bool
  then Ok (netcode +:+ "/" +:+ Time.toString "%Y" (ArclinkRequestLine.start line))
  else Ok netcode.

(** Body of the request-line loop of [printRequestSummary]. *)
Definition summary_request_line (a : Summary.t) (line : ArclinkRequestLine.t)
  : result Summary.t :=
  let sid := ArclinkRequestLine.streamID line in
  let st := ArclinkRequestLine.status line in
  let stream :=
    WaveformStreamID.networkCode sid +:+ "." +:+ WaveformStreamID.stationCode sid in
  let message := ArclinkStatusLine.message st in
  let timeWindow := ArclinkRequestLine.end_ line - ArclinkRequestLine.start line in
  let timeWindow := if timeWindow <? 0 then 0 else timeWindow in
  let error := if String.eqb (ArclinkStatusLine.status st) "ERROR" then 1 else 0 in
  let nodata :=
    if String.eqb (ArclinkStatusLine.status st) "ERROR" then 0
    else if String.eqb (ArclinkStatusLine.status st) "NODATA" then 1 else 0 in
  size ← line_size (Summary.volume_error a) line;
  let '((lines, nodataCount, errorCount, s, tw), streams) :=
    setdefault stream (0, 0, 0, 0, 0) (Summary.streams a) in
  let streams :=
    <[stream := (lines + 1, nodataCount + nodata, errorCount + error,
                 s + size, tw + timeWindow)]> streams in
  let messages := count_up message 1 (Summary.messages a) in
  netcode ← net_key line;
  let '((lines, nodataCount, errorCount, s), netcounts) :=
    setdefault netcode (0, 0, 0, 0) (Summary.netcounts a) in
  let netcounts :=
    <[netcode := (lines + 1, nodataCount + nodata, errorCount + error,
                  s + size)]> netcounts in
  Ok (Summary.mk (Summary.users a) (Summary.rtypes a) streams (Summary.errors a)
        messages (Summary.total a) (Summary.volumes a) (Summary.userIPs a)
        (Summary.clientIPs a) (Summary.nets a) (Summary.timeMin a)
        (Summary.timeMax a) netcounts (Summary.volume_error a)).

(** [for netcode, (...) in netcounts.items(): nets[netcode] = ...] *)
Definition merge_netcounts (netcounts : gmap string (Z * Z * Z * Z))
    (nets : gmap string (Z * Z * Z * Z * Z)) : gmap string (Z * Z * Z * Z * Z) :=
  map_fold (fun netcode '(lineCount, nodataCount, errorCount, size) nets =>
              let '((count, lines, nodata, error, s), nets) :=
                setdefault netcode (0, 0, 0, 0, 0) nets in
              <[netcode := (count + 1, lines + lineCount, nodata + nodataCount,
                            error + errorCount, s + size)]> nets)
           nets netcounts.

(** [(count, lines, error) = d.setdefault(k, (0,0,0));
     d[k] = (count+1, lines+lineCount, error+errorCount)] *)
Definition count_request (k : string) (lineCount errorCount : Z)
    (d : gmap string (Z * Z * Z)) : gmap string (Z * Z * Z) :=
  let '((count, lines, error), d) := setdefault k (0, 0, 0) d in
  <[k := (count + 1, lines + lineCount, error + errorCount)]> d.

(** [if len(ip) == 0: ip = "unknown"] *)
Definition ip_category (ip : string) : string :=
  if (String.length ip =? 0)%nat then "unknown" else ip.

(** Body of [for request in requests] in [printRequestSummary]. *)
Definition summary_request (export : list string) (q : DatabaseQuery)
    (a : Summary.t) (request : ArclinkRequest.t) : result Summary.t :=
  let user := ArclinkRequest.userID request in
  let a := Summary.mk (Summary.users a) (Summary.rtypes a) (Summary.streams a)
             (Summary.errors a) (Summary.messages a) (Summary.total a)
             (Summary.volumes a) (Summary.userIPs a) (Summary.clientIPs a)
             (Summary.nets a) (Summary.timeMin a) (Summary.timeMax a) ∅ ∅ in
  let request :=
    if bool_decide (length (ArclinkRequest.statusLines request) = 0%nat)
    then loadArclinkStatusLines q request else request in
  let a := foldl (summary_status_line user) a (ArclinkRequest.statusLines request) in
  let request :=
    if negb (bool_decide (export = []))
       && String.eqb (upper (ArclinkRequest.type request)) "WAVEFORM"
       && bool_decide (length (ArclinkRequest.requestLines request) = 0%nat)
    then loadArclinkRequestLines q request else request in
  a ← foldl (fun a line => a ← a; summary_request_line a line) (Ok a)
        (ArclinkRequest.requestLines request);
  let nets := merge_netcounts (Summary.netcounts a) (Summary.nets a) in
  s ← ArclinkRequest.get_summary request;
  let lineCount := ArclinkRequestSummary.totalLineCount s in
  let errorCount := ArclinkRequestSummary.totalLineCount s
                    - ArclinkRequestSummary.okLineCount s in
  let '((count, lines, error, size), users) :=
    setdefault user (0, 0, 0, 0) (Summary.users a) in
  let users := <[user := (count + 1, lines + lineCount, error + errorCount, size)]> users in
  let userIPs :=
    count_request (ip_category (ArclinkRequest.userIP request))
                  lineCount errorCount (Summary.userIPs a) in
  let clientIPs :=
    count_request (ip_category (ArclinkRequest.clientIP request))
                  lineCount errorCount (Summary.clientIPs a) in
  let rtypes :=
    count_request (ArclinkRequest.type request) lineCount errorCount
                  (Summary.rtypes a) in
  let errors :=
    if errorCount >? 0
    then count_up (ArclinkRequest.requestID request) errorCount (Summary.errors a)
    else Summary.errors a in
  let total := Summary.total a + lineCount in
  let timeMin :=
    if ArclinkRequest.created request <? Summary.timeMin a
    then ArclinkRequest.created request else Summary.timeMin a in
  let timeMax :=
    if ArclinkRequest.created request >? Summary.timeMax a
    then ArclinkRequest.created request else Summary.timeMax a in
  Ok (Summary.mk users rtypes (Summary.streams a) errors (Summary.messages a)
        total (Summary.volumes a) userIPs clientIPs nets timeMin timeMax
        (Summary.netcounts a) (Summary.volume_error a)).

(** The aggregation loop of [printRequestSummary(self, out, session, requests)]
    (lines 951-1074); [startTime] and [endTime] are the parsed session
    arguments. *)
Definition printRequestSummary (export : list string) (q : DatabaseQuery)
    (startTime endTime : Time.t) (requests : list ArclinkRequest.t)
  : result Summary.t :=
  foldl (fun a request => a ← a; summary_request export q a request)
        (Ok (Summary.mk ∅ ∅ ∅ ∅ ∅ 0 ∅ ∅ ∅ ∅ endTime startTime ∅ ∅))
        requests.

(** ** Notions used to state the properties of [Counter] *)

(** The instants the [while t < end] loop of [__init__] visits when it runs
    [n] times from [t]: one day apart. *)
Fixpoint day_times (t : Time.t) (n : nat) : list Time.t :=
  match n with
  | O => []
  | S n => t :: day_times (t + 86400) n
  end.

(** The weekday key of an instant: the value of
    [weekday_key weekdays_list t], which never raises. *)
Definition weekday_of (t : Time.t) : string :=
  default "" (weekdays_list !! Z.to_nat (Time.wday t)).

(** The mapping that holds zero metrics under each of the keys [ks]. *)
Definition zero_buckets (ks : list string) : gmap string metrics :=
  list_to_map ((fun k => (k, zero_metrics)) <$> ks).

(** Every bucket of the mapping holds the zero metrics. *)
Definition all_zero (d : gmap string metrics) : Prop :=
  forall k v, d !! k = Some v -> v = zero_metrics.

(** A counter as [__init__] leaves it: the weekday list installed, every
    bucket at zero, every weekday bucket under one of the seven keys. *)
Definition fresh_counter (c : Counter) : Prop :=
  weekdays c = weekdays_list
  /\ all_zero (hourly c) /\ all_zero (daily c)
  /\ all_zero (monthly c) /\ all_zero (weekdaily c)
  /\ (forall k, is_Some (weekdaily c !! k) -> k ∈ weekdays_list).

(** What one [__call__] makes of a bucket [(requests, lines, errors, size)]. *)
Definition bump (l e : Z) (volSize : number) (m : metrics) : metrics :=
  let '(requests, lines, errors, size) := m in
  (requests + 1, lines + l, errors + e, num_add size volSize).

(** The integer part of a bucket or of a table total:
    [(requests, lines, errors)]. *)
Definition counts (m : metrics) : Z * Z * Z := m.1.

Definition add3 (a b : Z * Z * Z) : Z * Z * Z :=
  (a.1.1 + b.1.1, a.1.2 + b.1.2, a.2 + b.2).

(** The integer metrics summed over the buckets of a mapping, listed in any
    order. *)
Definition sum_counts (l : list (string * metrics)) : Z * Z * Z :=
  foldr (fun kv acc => add3 (counts kv.2) acc) (0, 0, 0) l.

(** The weekday names, Sunday first, as [strftime]'s "%A" gives them. *)
Definition weekday_names : list string :=
  ["Sunday"; "Monday"; "Tuesday"; "Wednesday"; "Thursday"; "Friday"; "Saturday"].

(** The ordinal-prefixed key of the weekday number [i] named [name]. *)
Definition ordinal_key (i : nat) (name : string) : string :=
  String "$" (dec (Z.of_nat i) +:+ name).

(** A sequence of [__call__]s, one per request, in order. *)
Definition accumulate (c : result Counter) (rs : list ArclinkRequest.t)
  : result Counter :=
  foldl (fun c request => c ← c; Counter_call c request) c rs.

(** ** The acceptance rule as the specification words it (section 4.3,
    step 7), for comparison with [select_request] *)

(** [matchedByStatus = onlyErrors && status != "END"] (step 4). *)
Definition matchedByStatus (v : selection_vars) (request : ArclinkRequest.t)
  : Prop :=
  truthy (onlyErrors v) = true /\ ArclinkRequest.status request <> "END".

(** A request is accepted iff [matchedByStatus] is true when no
    line/volume/message narrowing was requested and [reqErrors > 0], OR the IP
    filters matched with no other narrowing requested, OR [matchedByVolume],
    OR [matchedByLine]; a volume filter with no status line rejects. *)
Definition spec_accepts (q : DatabaseQuery) (v : selection_vars)
    (request : ArclinkRequest.t) : Prop :=
  let loaded := loadArclinkStatusLines q request in
  ~ (truthy (volume v) = true /\ ArclinkRequest.statusLines loaded = []) /\
  ((matchedByStatus v request
    /\ truthy (lines_ v) = false /\ truthy (volume v) = false
    /\ truthy (message v) = false /\ reqErrors_of request > 0)
   \/ ((userIP v = Some (ArclinkRequest.userIP request)
        \/ clientIP v = Some (ArclinkRequest.clientIP request))
       /\ truthy (message v) = false /\ truthy (lines_ v) = false
       /\ truthy (onlyErrors v) = false /\ truthy (volume v) = false)
   \/ (exists sline, sline ∈ ArclinkRequest.statusLines loaded
                     /\ status_line_kept v sline = true)
   \/ ((truthy (lines_ v) = true \/ is_Some (restricted v))
       /\ exists line,
            line ∈ ArclinkRequest.requestLines (loadArclinkRequestLines q loaded)
            /\ request_line_kept v line = true)).

(** The database of the examples: every request already carries its lines. *)
Definition loaded_query : DatabaseQuery :=
  {| loadArclinkStatusLines := id; loadArclinkRequestLines := id |}.

(** ** Concrete records used in the examples below *)

(** 2021-01-01T00:00:00Z, a Friday. *)
Definition t2021 : Time.t := 1609459200.

Definition example_request (requestID status : string) (created : Time.t)
    (okLineCount totalLineCount : Z)
    (statusLines : list ArclinkStatusLine.t)
    (requestLines : list ArclinkRequestLine.t) : ArclinkRequest.t :=
  ArclinkRequest.mk requestID "user@example.org" "" "client" "" "WAVEFORM"
    created status
    (Some (ArclinkRequestSummary.mk okLineCount totalLineCount (Int 0)))
    statusLines requestLines.

Definition example_line (net sta : string) (start end_ : Time.t)
    (status : ArclinkStatusLine.t) : ArclinkRequestLine.t :=
  ArclinkRequestLine.mk start end_ (WaveformStreamID.mk net sta "" "BHZ")
    false status.

(** The selection of [?onlyErrors=yes]. *)
Definition only_errors_selection : selection_vars :=
  read_selection {[ "onlyErrors" := "yes" ]}.

(** A request that was denied before any line was processed: its status is
    not "END", its summary counts no lines at all. *)
Definition denied_request : ArclinkRequest.t :=
  example_request "3" "DENIED" t2021 0 0 [] [].

(** The selection of [?lines=yes]. *)
Definition lines_selection : selection_vars :=
  read_selection {[ "lines" := "yes" ]}.

(** One request line asking for 2^32 seconds of data (some 136 years). *)
Definition long_window_request : ArclinkRequest.t :=
  example_request "4" "END" t2021 1 1 []
    [example_line "IU" "ANMO" 0 (2 ^ 32) (ArclinkStatusLine.mk "vol1" "OK" 512 "")].

(** The hourly mapping after the [for h in range(0,24)] loop of a new
    counter: "00" to "23", each at zero metrics. *)
Definition hours_preset : gmap string metrics :=
  list_to_map ((fun h => (fmt_02d h, zero_metrics)) <$> range 0 24).

(** Three requests of 100000, 200000 and 300000 bytes, made at 01:00 on
    2021-01-01, 2021-01-02 and 2021-01-02. *)
Definition request_a : ArclinkRequest.t :=
  example_request "1" "END" (t2021 + 3600) 2 3
    [ArclinkStatusLine.mk "vol1" "OK" 100000 ""] [].

Definition request_b : ArclinkRequest.t :=
  example_request "2" "END" (t2021 + 86400 + 3600) 1 1
    [ArclinkStatusLine.mk "vol2" "OK" 200000 ""] [].

Definition request_c : ArclinkRequest.t :=
  example_request "3" "END" (t2021 + 86400 + 3600) 1 1
    [ArclinkStatusLine.mk "vol3" "OK" 300000 ""] [].

Definition three_requests : list ArclinkRequest.t :=
  [request_a; request_b; request_c].

(** A request made from a known address. *)
Definition addressed_request : ArclinkRequest.t :=
  ArclinkRequest.mk "6" "user@example.org" "192.0.2.1" "client" "198.51.100.7"
    "WAVEFORM" t2021 "END"
    (Some (ArclinkRequestSummary.mk 1 1 (Int 0))) [] [].

(** The selection of [?userIP=unknown&clientIP=unknown]. *)
Definition unknown_ip_args : gmap string string :=
  {[ "userIP" := "unknown"; "clientIP" := "unknown" ]}.

(** The rollups before the first request. *)
Definition empty_summary : Summary.t :=
  Summary.mk ∅ ∅ ∅ ∅ ∅ 0 ∅ ∅ ∅ ∅ (t2021 + 86400) t2021 ∅ ∅.

(** A delivered line of 50 bytes on volume "vol1", and the failed status
    line of that volume, which records 100 bytes. *)
Definition delivered_line : ArclinkRequestLine.t :=
  example_line "GE" "APE" t2021 (t2021 + 3600)
    (ArclinkStatusLine.mk "vol1" "OK" 50 "").

Definition failed_volume : ArclinkStatusLine.t :=
  ArclinkStatusLine.mk "vol1" "ERROR" 100 "disk full".

(** A line on the temporary network "XX" starting in 2021. *)
Definition temporary_line : ArclinkRequestLine.t :=
  example_line "XX" "STA1" (t2021 + 86400) (t2021 + 90000)
    (ArclinkStatusLine.mk "vol2" "OK" 10 "").

(** The two records of the scenario of section 8: request 1 asks for
    network "IU" and has no error, request 2 asks for the temporary network
    "XX" in 2021 and both of its lines failed. *)
Definition scenario_requests : list ArclinkRequest.t :=
  [ example_request "1" "END" t2021 1 1 []
      [example_line "IU" "ANMO" t2021 (t2021 + 3600)
         (ArclinkStatusLine.mk "vol1" "OK" 512 "")];
    example_request "2" "END" t2021 0 2 []
      [example_line "XX" "STA1" (t2021 + 86400) (t2021 + 90000)
         (ArclinkStatusLine.mk "vol2" "ERROR" 0 "no data");
       example_line "XX" "STA2" (t2021 + 86400) (t2021 + 90000)
         (ArclinkStatusLine.mk "vol2" "ERROR" 0 "no data")] ].

(** A request without status lines whose single request line failed
    ("ERROR") although 4096 bytes were recorded for it, on a volume that no
    status line mentions. *)
Definition failed_line_request : ArclinkRequest.t :=
  example_request "5" "END" t2021 0 1 []
    [example_line "GE" "APE" t2021 (t2021 + 3600)
       (ArclinkStatusLine.mk "vol9" "ERROR" 4096 "")].

(** The bytes recorded so far for a volume and for a station. *)
Definition volume_bytes (a : Summary.t) (volume : string) : Z :=
  (default (0, 0, 0) (Summary.volumes a !! volume)).2.

Definition station_bytes (a : Summary.t) (stream : string) : Z :=
  (default (0, 0, 0, 0, 0) (Summary.streams a !! stream)).1.2.

(** The key of a request line in [streams]. *)
Definition stream_of (line : ArclinkRequestLine.t) : string :=
  WaveformStreamID.networkCode (ArclinkRequestLine.streamID line)
  +:+ "." +:+ WaveformStreamID.stationCode (ArclinkRequestLine.streamID line).

(** The status line that decides the [volume_error] flag of a volume: the
    last one of the request that carries the volume. *)
Definition last_status_line (slines : list ArclinkStatusLine.t) (volume : string)
  : option ArclinkStatusLine.t :=
  last (filter (fun sl => ArclinkStatusLine.volumeID sl = volume) slines).

(** The bytes a request line adds to its station entry, as the status lines
    [slines] of its own request decide: none when the line's status is
    "ERROR" or "NODATA", none when the last status line that carries the
    line's volume is in error, the size the line records otherwise. *)
Definition line_bytes (slines : list ArclinkStatusLine.t)
    (line : ArclinkRequestLine.t) : Z :=
  let st := ArclinkRequestLine.status line in
  if String.eqb (ArclinkStatusLine.status st) "ERROR" then 0
  else if String.eqb (ArclinkStatusLine.status st) "NODATA" then 0
  else match last_status_line slines (ArclinkStatusLine.volumeID st) with
       | Some sl =>
         if String.eqb (ArclinkStatusLine.status sl) "ERROR" then 0
         else ArclinkStatusLine.size st
       | None => ArclinkStatusLine.size st
       end.

(** Two requests one after the other: the only volume of the first failed;
    the second has no status line and one delivered line of 50 bytes on a
    volume of the same name. *)
Definition failed_volume_request : ArclinkRequest.t :=
  example_request "8" "END" t2021 0 0 [failed_volume] [].

Definition delivered_request : ArclinkRequest.t :=
  example_request "9" "END" t2021 1 1 [] [delivered_line].

(** ** Notions used to state the properties of [loadRequests] *)

(** The requests [loadRequests] keeps from the coarse query (lines
    1405-1416): those whose [summary()] does not raise. *)
Definition finished (query : list ArclinkRequest.t) : list ArclinkRequest.t :=
  filter (fun request => is_Some (ArclinkRequest.summary request)) query.

(** One of the seven criteria of line 1418 is set. *)
Definition any_criterion (args : gmap string string) : bool :=
  truthy (restricted_arg args) || truthy (args !! "onlyErrors")
  || truthy (args !! "lines") || truthy (args !! "volume")
  || truthy (args !! "message") || truthy (args !! "userIP")
  || truthy (args !! "clientIP").

(** The request lines are examined (line 1468):
    [if lines or restricted is not None]. *)
Definition lines_examined (v : selection_vars) : bool :=
  truthy (lines_ v) || bool_decide (is_Some (restricted v)).

(** A criterion of the IP checks holds for the address of a request: none
    is given, or the one given is the address. *)
Definition ip_ok (ip : option string) (actual : string) : bool :=
  match ip with
  | Some x => String.eqb x actual
  | None => true
  end.

(** The request passes the two IP checks and the test of line 1456: none of
    the [continue]s before the status-line loop is taken. *)
Definition passes_gates (q : DatabaseQuery) (v : selection_vars)
    (request : ArclinkRequest.t) : bool :=
  ip_ok (userIP v) (ArclinkRequest.userIP request)
  && ip_ok (clientIP v) (ArclinkRequest.clientIP request)
  && negb (truthy (volume v)
           && bool_decide
                (ArclinkRequest.statusLines (loadArclinkStatusLines q request) = [])).

(** The iteration comes to a use of [DataModel]: one of the status lines is
    kept (line 1464), or the request lines are examined (lines 1487, 1496). *)
Definition reaches_DataModel (q : DatabaseQuery) (v : selection_vars)
    (request : ArclinkRequest.t) : bool :=
  existsb (status_line_kept v)
          (ArclinkRequest.statusLines (loadArclinkStatusLines q request))
  || lines_examined v.

(** [foundRequest] as lines 1449, 1506 and 1507 leave it for a request that
    passed the IP checks. *)
Definition found_request (v : selection_vars) (request : ArclinkRequest.t) : bool :=
  (truthy (onlyErrors v)
   && negb (String.eqb (ArclinkRequest.status request) "END"))
  || (negb (truthy (lines_ v)) && negb (truthy (volume v))
      && truthy (onlyErrors v) && (reqErrors_of request >? 0))
  || (negb (truthy (message v)) && negb (truthy (lines_ v))
      && negb (truthy (onlyErrors v)) && negb (truthy (volume v))
      && (bool_decide (is_Some (userIP v)) || bool_decide (is_Some (clientIP v)))).

(** The iteration of a request ends in [NameError]. *)
Definition aborts (q : DatabaseQuery) (v : selection_vars)
    (request : ArclinkRequest.t) : bool :=
  passes_gates q v request && reaches_DataModel q v request.

(** The iteration of a request ends with the request accepted. *)
Definition accepted (q : DatabaseQuery) (v : selection_vars)
    (request : ArclinkRequest.t) : bool :=
  passes_gates q v request && negb (reaches_DataModel q v request)
  && found_request v request.

(** The requests the selection loop goes through before the first one whose
    iteration ends in [NameError]. *)
Fixpoint before_abort (q : DatabaseQuery) (v : selection_vars)
    (requests : list ArclinkRequest.t) : list ArclinkRequest.t :=
  match requests with
  | request :: requests =>
    if aborts q v request then [] else request :: before_abort q v requests
  | [] => []
  end.

(** The calls of the callback, one after the other, until one raises. *)
Definition call_all {S : Type} (cb : S -> ArclinkRequest.t -> result S)
    (st : S) (rs : list ArclinkRequest.t) : result S :=
  foldl (fun st r => st ← st; cb st r) (Ok st) rs.

(** The two session arguments of lines 1370 and 1371, as [str2date] reads
    them. *)
Definition parsed_times (now : Z * Z * Z) (args : gmap string string)
  : result (Time.t * Time.t) :=
  startTime ← call_str2date now (default "2020-04-01" (args !! "startTime"));
  endTime ← call_str2date now (default "2020-04-02" (args !! "endTime"));
  Ok (startTime, endTime).

(** A request with one delivered and one failed volume, and one request
    line on each. *)
Definition mixed_request : ArclinkRequest.t :=
  example_request "7" "END" t2021 1 2
    [ArclinkStatusLine.mk "vol1" "OK" 512 "";
     ArclinkStatusLine.mk "vol2" "ERROR" 0 "no data"]
    [example_line "GE" "APE" t2021 (t2021 + 3600)
       (ArclinkStatusLine.mk "vol1" "OK" 512 "");
     example_line "GE" "KBS" t2021 (t2021 + 7200)
       (ArclinkStatusLine.mk "vol2" "ERROR" 0 "no data")].

(** The three criteria a status line has to meet, spelled out: the volume
    when one is given, the message (with "%20" read as a space) when one is
    given, and a status other than "OK" under [onlyErrors]. *)
Definition meets_status_criteria (v : selection_vars) (sline : ArclinkStatusLine.t)
  : Prop :=
  (forall vol, volume v = Some vol -> vol <> "" ->
               ArclinkStatusLine.volumeID sline = vol)
  /\ (forall m, message v = Some m -> m <> "" ->
                ArclinkStatusLine.message sline = replace_pct20 m)
  /\ (truthy (onlyErrors v) = true -> ArclinkStatusLine.status sline <> "OK").

(** ** Notions used to state what the buckets of a [Counter] hold *)

(** The line count [__call__] reads from a request ([reqErrors_of] is the
    error count); 0 stands for a request without summary, which [__call__]
    rejects. *)
Definition lineCount_of (request : ArclinkRequest.t) : Z :=
  match ArclinkRequest.summary request with
  | Some s => ArclinkRequestSummary.totalLineCount s
  | None => 0
  end.

(** What one request adds to the integer metrics of its bucket. *)
Definition request_counts (request : ArclinkRequest.t) : Z * Z * Z :=
  (1, lineCount_of request, reqErrors_of request).

Definition sum3 (l : list (Z * Z * Z)) : Z * Z * Z := foldr add3 (0, 0, 0) l.

(** The keys of a request in the four mappings. *)
Definition hour_key (request : ArclinkRequest.t) : string :=
  Time.toString "%H" (ArclinkRequest.created request).

Definition day_key (request : ArclinkRequest.t) : string :=
  Time.toString "%Y-%m-%d" (ArclinkRequest.created request).

Definition month_key (request : ArclinkRequest.t) : string :=
  Time.toString "%Y-%m" (ArclinkRequest.created request).

Definition wday_key (request : ArclinkRequest.t) : string :=
  weekday_of (ArclinkRequest.created request).

(** The requests of [rs] whose key is [k], in the order of [rs]. *)
Definition with_key (key : ArclinkRequest.t -> string) (k : string)
    (rs : list ArclinkRequest.t) : list ArclinkRequest.t :=
  filter (fun request => key request = k) rs.

(** A bucket holds what the requests [rs] add to the bucket [before]: the
    integer metrics summed, the volume added in the order of [rs]. *)
Definition bucket_holds (before : option metrics) (rs : list ArclinkRequest.t)
    (after : option metrics) : Prop :=
  (is_Some after <-> is_Some before \/ rs <> [])
  /\ counts (default zero_metrics after)
     = add3 (counts (default zero_metrics before)) (sum3 (request_counts <$> rs))
  /\ (default zero_metrics after).2
     = foldl num_add (default zero_metrics before).2 (volSize_of <$> rs).

(** A table holds, under every key, what the requests of [rs] with that key
    add to the table [before]. *)
Definition table_holds (before after : gmap string metrics)
    (key : ArclinkRequest.t -> string) (rs : list ArclinkRequest.t) : Prop :=
  forall k, bucket_holds (before !! k) (with_key key k rs) (after !! k).

(** Two counters show the same integer metrics in every bucket of every
    table. *)
Definition same_counts (c c' : Counter) : Prop :=
  forall k,
    counts <$> hourly c !! k = counts <$> hourly c' !! k
    /\ counts <$> daily c !! k = counts <$> daily c' !! k
    /\ counts <$> monthly c !! k = counts <$> monthly c' !! k
    /\ counts <$> weekdaily c !! k = counts <$> weekdaily c' !! k.

(** A bucket to which no volume was added: its size is the 0 it was made
    with, or the float 0.0. *)
Definition no_volume (m : metrics) : Prop :=
  m.2 = Int 0 \/ m.2 = Float (S754_zero false).

(** ** Notions used to state the properties of the rollups *)

(** A column of a rollup summed over its rows. *)
Definition map_total {V : Type} (f : V -> Z) (d : gmap string V) : Z :=
  foldr (fun kv acc => f kv.2 + acc) 0 (map_to_list d).

(** The request as [printRequestSummary] reads it.  For the status-line
    loop: the status lines are loaded when none is attached (lines 972-973).
    From there on: the request lines are loaded when none is attached, the
    type is WAVEFORM and the summary is made for an export (lines 996-997). *)
Definition status_loaded (q : DatabaseQuery) (request : ArclinkRequest.t)
  : ArclinkRequest.t :=
  if bool_decide (length (ArclinkRequest.statusLines request) = 0%nat)
  then loadArclinkStatusLines q request else request.

Definition loaded_for_summary (export : list string) (q : DatabaseQuery)
    (request : ArclinkRequest.t) : ArclinkRequest.t :=
  let request := status_loaded q request in
  if negb (bool_decide (export = []))
     && String.eqb (upper (ArclinkRequest.type request)) "WAVEFORM"
     && bool_decide (length (ArclinkRequest.requestLines request) = 0%nat)
  then loadArclinkRequestLines q request else request.

(** The bytes a status line adds to its volume and to the user: its size,
    unless its status is "ERROR". *)
Definition delivered_size (sline : ArclinkStatusLine.t) : Z :=
  if String.eqb (ArclinkStatusLine.status sline) "ERROR" then 0
  else ArclinkStatusLine.size sline.

Definition sumZ (l : list Z) : Z := foldr Z.add 0 l.

(** The columns of the rollups: [users] maps to
    (requests, lines, errors, bytes); [rtypes], [userIPs] and [clientIPs] to
    (requests, lines, errors); [volumes] to (count, errors, bytes);
    [streams] to (lines, nodata, errors, bytes, seconds); [nets] to
    (requests, lines, nodata, errors, bytes). *)
Definition u_requests (u : Z * Z * Z * Z) : Z := u.1.1.1.
Definition u_lines (u : Z * Z * Z * Z) : Z := u.1.1.2.
Definition u_errors (u : Z * Z * Z * Z) : Z := u.1.2.
Definition u_bytes (u : Z * Z * Z * Z) : Z := u.2.

Definition r_requests (r : Z * Z * Z) : Z := r.1.1.
Definition r_lines (r : Z * Z * Z) : Z := r.1.2.
Definition r_errors (r : Z * Z * Z) : Z := r.2.

Definition v_count (v : Z * Z * Z) : Z := v.1.1.
Definition v_errors (v : Z * Z * Z) : Z := v.1.2.
Definition v_bytes (v : Z * Z * Z) : Z := v.2.

Definition s_lines (s : Z * Z * Z * Z * Z) : Z := s.1.1.1.1.
Definition s_nodata (s : Z * Z * Z * Z * Z) : Z := s.1.1.1.2.
Definition s_errors (s : Z * Z * Z * Z * Z) : Z := s.1.1.2.
Definition s_bytes (s : Z * Z * Z * Z * Z) : Z := s.1.2.
Definition s_seconds (s : Z * Z * Z * Z * Z) : Z := s.2.

Definition n_requests (n : Z * Z * Z * Z * Z) : Z := n.1.1.1.1.
Definition n_lines (n : Z * Z * Z * Z * Z) : Z := n.1.1.1.2.
Definition n_nodata (n : Z * Z * Z * Z * Z) : Z := n.1.1.2.
Definition n_errors (n : Z * Z * Z * Z * Z) : Z := n.1.2.
Definition n_bytes (n : Z * Z * Z * Z * Z) : Z := n.2.

(** The status lines and the request lines the rollup loop goes through. *)
Definition summary_status_lines (q : DatabaseQuery)
    (requests : list ArclinkRequest.t) : list ArclinkStatusLine.t :=
  requests ≫= (fun request => ArclinkRequest.statusLines (status_loaded q request)).

Definition summary_request_lines (export : list string) (q : DatabaseQuery)
    (requests : list ArclinkRequest.t) : list ArclinkRequestLine.t :=
  requests ≫= (fun request =>
                 ArclinkRequest.requestLines (loaded_for_summary export q request)).

(** [netcounts] maps to (lines, nodata, errors, bytes). *)
Definition nc_lines (n : Z * Z * Z * Z) : Z := n.1.1.1.
Definition nc_nodata (n : Z * Z * Z * Z) : Z := n.1.1.2.
Definition nc_errors (n : Z * Z * Z * Z) : Z := n.1.2.
Definition nc_bytes (n : Z * Z * Z * Z) : Z := n.2.

(** The network code of a request line is not empty. *)
Definition has_network (line : ArclinkRequestLine.t) : Prop :=
  WaveformStreamID.networkCode (ArclinkRequestLine.streamID line) <> "".

(** Three requests for the examples of the rollups: one with a delivered and
    a failed volume, one with a delivered volume and no request line, one
    with a failed request line. *)
Definition rollup_requests : list ArclinkRequest.t :=
  [mixed_request; request_a; failed_line_request].

(** The error counts the requests with the ID [k] add to the error table:
    those that are positive. *)
Definition errors_of (k : string) (rs : list ArclinkRequest.t) : list Z :=
  reqErrors_of <$>
    filter (fun r => ArclinkRequest.requestID r = k /\ 0 < reqErrors_of r) rs.

(** A row of a per-request rollup: absent when no request has its key,
    otherwise the requests, their lines and their errors. *)
Definition rollup_row (rs : list ArclinkRequest.t) : option (Z * Z * Z) :=
  match rs with
  | [] => None
  | _ => Some (sum3 (request_counts <$> rs))
  end.

(** The address a request is counted under. *)
Definition userIP_key (request : ArclinkRequest.t) : string :=
  ip_category (ArclinkRequest.userIP request).

Definition clientIP_key (request : ArclinkRequest.t) : string :=
  ip_category (ArclinkRequest.clientIP request).

(** ** html_escape *)

(** The double quote character. *)
Definition dquote : ascii := "034"%char.

(** [html_escape_table], keyed by one-character strings. *)
Definition html_escape_table : gmap string string :=
  list_to_map
    [("&", "&amp;"); (String dquote "", "&quot;"); ("'", "&apos;");
     (">", "&gt;"); ("<", "&lt;")].

(** [html_escape(text)]:
    ["".join(html_escape_table.get(c,c) for c in text)] *)
Fixpoint html_escape (text : string) : string :=
  match text with
  | String c rest =>
    default (String c "") (html_escape_table !! String c "") +:+ html_escape rest
  | EmptyString => ""
  end.

(** The character [c] occurs in [s]. *)
Definition occurs (c : ascii) (s : string) : Prop := In c (list_ascii_of_string s).

(** One of the five characters [html_escape_table] has an entry for. *)
Definition markup_char (c : ascii) : bool :=
  Ascii.eqb c "&" || Ascii.eqb c dquote || Ascii.eqb c "'" || Ascii.eqb c ">"
  || Ascii.eqb c "<".

(** ** WebReqLog.wwwApp: the query string *)

(** [re.split(r"[\?|&]", s)]: the class holds the three characters "?", "|"
    and "&". *)
Definition is_separator (c : ascii) : bool :=
  Ascii.eqb c "?" || Ascii.eqb c "|" || Ascii.eqb c "&".

Fixpoint re_split (s : string) : list string :=
  match s with
  | EmptyString => [EmptyString]
  | String a rest =>
    if is_separator a then EmptyString :: re_split rest
    else match re_split rest with
         | w :: ws => String a w :: ws
         | [] => [String a EmptyString]
         end
  end.

(** The second group and the end anchor, from the current position: the
    group is the rest of the text, which holds no newline but possibly one
    that closes the text. *)
Fixpoint rest_of_line (s : string) : option string :=
  match s with
  | EmptyString => Some EmptyString
  | String c rest =>
    if Ascii.eqb c newline
    then match rest with EmptyString => Some EmptyString | _ => None end
    else option_map (String c) (rest_of_line rest)
  end.

(** The pattern with the characters [key] already taken by the first,
    lazy group: the group grows by one character, never a newline, until "="
    and the rest of the line follow. *)
Fixpoint search_pair (key : string) (s : string) : option (string * string) :=
  match s with
  | EmptyString => None
  | String c rest =>
    let longer :=
      if Ascii.eqb c newline then None
      else search_pair (key +:+ String c EmptyString) rest in
    if Ascii.eqb c "="
    then match rest_of_line rest with
         | Some value => Some (key, value)
         | None => longer
         end
    else longer
  end.

(** [re.search(pattern, e)] for the pattern of line 461, a lazy non-empty
    group, "=", a greedy group and the end anchor: the two groups. *)
Definition match_pair (e : string) : option (string * string) :=
  match e with
  | String c rest =>
    if Ascii.eqb c newline then None else search_pair (String c EmptyString) rest
  | EmptyString => None
  end.

(** [s.replace("+", " ")] *)
Fixpoint replace_plus (s : string) : string :=
  match s with
  | String c rest =>
    String (if Ascii.eqb c "+" then " "%char else c) (replace_plus rest)
  | EmptyString => EmptyString
  end.

(** [s.replace("%3A", ":")] *)
Fixpoint replace_pct3A (s : string) : string :=
  match s with
  | String "%" (String "3" (String "A" rest)) => String ":" (replace_pct3A rest)
  | String c rest => String c (replace_pct3A rest)
  | EmptyString => EmptyString
  end.

(** The dictionary [d] that [wwwApp] stores as [environ["myArgs"]]
    (lines 459-464). *)
Definition wwwApp_args (QUERY_STRING : string) : gmap string string :=
  foldl (fun d e =>
           match match_pair e with
           | Some (k, v) => <[k := replace_pct3A (replace_plus v)]> d
           | None => d
           end) ∅ (re_split QUERY_STRING).

(** ** WebReqLog.link: one pair of the query *)

(** [s.replace(" ", "%20")] *)
Fixpoint replace_space (s : string) : string :=
  match s with
  | String c rest =>
    if Ascii.eqb c " " then "%20" +:+ replace_space rest
    else String c (replace_space rest)
  | EmptyString => EmptyString
  end.




(** ** WebReqLog.exporter: the query string *)

(** [environ["QUERY_STRING"]] of line 391; [date2str] does not return
    [None] for the mode 'date'. *)
Definition exporter_query (startTime endTime : Time.t) : string :=
  "startTime=" +:+ default "" (date2str startTime "date")
  +:+ "&endTime=" +:+ default "" (date2str endTime "date").

(** ** WebReqLog.validateParameters: the time range of an export *)

(** [now - timedelta(days=1)] as [(year, month, day)]; [None] is the
    [OverflowError] of a date before 0001-01-01. *)
Definition yesterday (now : Z * Z * Z) : option (Z * Z * Z) :=
  let z := days_from_civil now.1.1 now.1.2 now.2 - 1 in
  if z <? days_from_civil 1 1 1 then None else Some (Time.civil_from_days z).

(** [(self.startTime, self.endTime)] after lines 263-270, [startOpt] and
    [endOpt] being what [optionString] gives for the two options, a text or
    an exception.  Any exception of the two assignments is caught, and both
    times are then set from [datetime.now()]; [None] is an exception raised
    in the handler. *)
Definition validateParameters_times (now : Z * Z * Z) (startOpt endOpt : result string)
  : option (Time.t * Time.t) :=
  let attempt : option (Time.t * Time.t) :=
    match startOpt with
    | Ok s =>
      match str2date now s with
      | Some (Ok startTime) =>
        match endOpt with
        | Ok e =>
          match str2date now e with
          | Some (Ok endTime) => Some (startTime, endTime)
          | _ => None
          end
        | Raise _ => None
        end
      | _ => None
      end
    | Raise _ => None
    end in
  match attempt with
  | Some times => Some times
  | None =>
    match yesterday now with
    | Some start =>
      Some (Time_of_fields start.1.1 start.1.2 start.2 0 0 0,
            Time_of_fields now.1.1 now.1.2 now.2 0 0 0)
    | None => None
    end
  end.

(** The character of a value 0 to 9, and the decimal digit it is the
    rendering of. *)
Definition digit_char (k : Z) : ascii := ascii_of_N (Z.to_N (48 + k)).

Definition digit_of (k : Z) (l : Decimal.uint) : Decimal.uint :=
  match k with
  | 0 => Decimal.D0 l
  | 1 => Decimal.D1 l
  | 2 => Decimal.D2 l
  | 3 => Decimal.D3 l
  | 4 => Decimal.D4 l
  | 5 => Decimal.D5 l
  | 6 => Decimal.D6 l
  | 7 => Decimal.D7 l
  | 8 => Decimal.D8 l
  | _ => Decimal.D9 l
  end.

(** The characters of what [date2str] writes. *)
Definition date_char (c : ascii) : bool :=
  is_digit c || Ascii.eqb c "-" || Ascii.eqb c ":" || Ascii.eqb c " "
  || Ascii.eqb c "_".

(** Midnight of the day of [t]. *)
Definition midnight (t : Time.t) : Time.t := t - t mod 86400.

(** * Properties *)

(** ** Selection: the IP criteria *)

Lemma ip_check_pass ip actual :
  ip_check ip actual <> None <-> (ip = None \/ ip = Some actual).
Proof.
  unfold ip_check. destruct ip as [ip|]; [|by split; auto].
  destruct (String.eqb_spec ip actual) as [->|Hne].
  - split; [by auto|done].
  - split; [done|]. intros [[=]|[= ->]]. by destruct Hne.
Qed.

Lemma ip_check_found ip actual :
  ip_check ip actual = Some true <-> ip = Some actual.
Proof.
  unfold ip_check. destruct ip as [ip|]; [|by split].
  destruct (String.eqb_spec ip actual) as [->|Hne].
  - by split.
  - split; [done|]. intros [= ->]. by destruct Hne.
Qed.

Lemma select_request_userIP_mismatch q v request :
  ip_check (userIP v) (ArclinkRequest.userIP request) = None ->
  select_request q v request = Ok None.
Proof. intros H. unfold select_request, select_body. by rewrite H. Qed.

Lemma select_request_clientIP_mismatch q v request :
  ip_check (clientIP v) (ArclinkRequest.clientIP request) = None ->
  select_request q v request = Ok None.
Proof.
  intros H. unfold select_request, select_body. rewrite H.
  by destruct (ip_check (userIP v) _).
Qed.

Lemma read_selection_userIP args :
  userIP (read_selection args) = unknown_ip (args !! "userIP").
Proof.
  unfold read_selection.
  by destruct (split "." _) as [|? [|? [|? [|? [|? ?]]]]].
Qed.

Lemma read_selection_clientIP args :
  clientIP (read_selection args) = unknown_ip (args !! "clientIP").
Proof.
  unfold read_selection.
  by destruct (split "." _) as [|? [|? [|? [|? [|? ?]]]]].
Qed.

Lemma ip_check_empty actual :
  ip_check (Some "") actual <> None <-> actual = "".
Proof.
  rewrite ip_check_pass. split; [by intros [[=]|[= ->]]|by intros ->; right].
Qed.

(** C10: when the userIP (respectively clientIP) argument is the literal
    "unknown", the selection runs (the argument is a true value), the
    criterion it compares with is the empty string, and a record passes that
    IP check exactly when its stored userIP (respectively clientIP) is empty;
    a record with a non-empty address is never selected.  This inverts the
    summary's [ip_category], which files the empty address under "unknown". *)
Theorem unknown_ip_selects_empty_address :
  forall (args : gmap string string) (q : DatabaseQuery)
         (request : ArclinkRequest.t),
    (args !! "userIP" = Some "unknown" ->
       truthy (args !! "userIP") = true
       /\ userIP (read_selection args) = Some ""
       /\ (ip_check (userIP (read_selection args))
                    (ArclinkRequest.userIP request) <> None
           <-> ArclinkRequest.userIP request = "")
       /\ (ArclinkRequest.userIP request <> "" ->
           select_request q (read_selection args) request = Ok None))
    /\ (args !! "clientIP" = Some "unknown" ->
       truthy (args !! "clientIP") = true
       /\ clientIP (read_selection args) = Some ""
       /\ (ip_check (clientIP (read_selection args))
                    (ArclinkRequest.clientIP request) <> None
           <-> ArclinkRequest.clientIP request = "")
       /\ (ArclinkRequest.clientIP request <> "" ->
           select_request q (read_selection args) request = Ok None))
    /\ ip_category "" = "unknown"
    /\ unknown_ip (Some (ip_category "")) = Some "".
Proof.
  intros args q request. split_and!; [| |done..].
  - intros Hu. rewrite read_selection_userIP, Hu. cbn.
    split_and!; [done..|apply ip_check_empty|].
    intros Hne. apply select_request_userIP_mismatch.
    rewrite read_selection_userIP, Hu. cbn.
    destruct (decide (ip_check (Some "") (ArclinkRequest.userIP request) = None))
      as [|Hn]; [done|]. by apply ip_check_empty in Hn.
  - intros Hu. rewrite read_selection_clientIP, Hu. cbn.
    split_and!; [done..|apply ip_check_empty|].
    intros Hne. apply select_request_clientIP_mismatch.
    rewrite read_selection_clientIP, Hu. cbn.
    destruct (decide (ip_check (Some "") (ArclinkRequest.clientIP request) = None))
      as [|Hn]; [done|]. by apply ip_check_empty in Hn.
Qed.

Lemma unknown_ip_selects_empty_address_witness :
  userIP (read_selection unknown_ip_args) = Some ""
  /\ clientIP (read_selection unknown_ip_args) = Some ""
  /\ select_request loaded_query (read_selection unknown_ip_args) addressed_request
     = Ok None
  /\ (exists X, select_request loaded_query (read_selection unknown_ip_args)
                               denied_request = Ok (Some X)).
Proof.
  destruct (unknown_ip_selects_empty_address unknown_ip_args loaded_query
              addressed_request) as (Hu & Hc & _).
  destruct (Hu eq_refl) as (_ & Hu1 & _ & Hu2).
  destruct (Hc eq_refl) as (_ & Hc1 & _).
  split_and!; [done|done|by apply Hu2|by eexists].
Defined.

(** ** Selection: the two line loops *)

Lemma existsb_elem_of {A : Type} (f : A -> bool) (l : list A) :
  existsb f l = true <-> exists x, x ∈ l /\ f x = true.
Proof.
  rewrite existsb_exists. split; intros (x & Hx & Hf); exists x; split;
    try done; by apply list_elem_of_In.
Qed.

Lemma fold_result_Raise {A B : Type} (f : A -> B -> result A) (e : exn) (l : list B) :
  foldl (fun acc x => a ← acc; f a x) (Raise e) l = Raise e.
Proof. by induction l. Qed.

(** The status-line loop raises [NameError] at the first status line it
    keeps; with none to keep it leaves [Xrequest] as it is. *)
Lemma status_loop_outcome v slines X :
  status_loop v slines X
  = if existsb (status_line_kept v) slines then Raise NameError
    else Ok (X, false).
Proof.
  unfold status_loop. induction slines as [|s slines IH]; [done|].
  cbn [foldl existsb]. cbn [mbind result_bind].
  destruct (status_line_kept v s); cbn [orb]; [|done].
  unfold DataModel. cbn [mbind result_bind].
  clear IH. by induction slines.
Qed.

(** So does the request-line loop. *)
Lemma line_loop_outcome v rlines X :
  line_loop v rlines X
  = if existsb (request_line_kept v) rlines then Raise NameError
    else Ok (mk_line_vars X false 0 0 0).
Proof.
  unfold line_loop. induction rlines as [|l rlines IH]; [done|].
  cbn [foldl existsb]. cbn [mbind result_bind]. unfold line_step at 2.
  destruct (request_line_kept v l); cbn [orb]; [|done].
  unfold DataModel. cbn [mbind result_bind].
  apply fold_result_Raise.
Qed.

Lemma derived_summary_raises (a : line_vars) : derived_summary a = Raise NameError.
Proof. done. Qed.

(** ** Selection: how an iteration ends *)

Lemma ip_check_ok ip actual :
  ip_check ip actual
  = if ip_ok ip actual then Some (bool_decide (is_Some ip)) else None.
Proof.
  unfold ip_check, ip_ok. destruct ip as [ip|].
  - destruct (String.eqb ip actual); [|done]. by rewrite bool_decide_true by eauto.
  - rewrite bool_decide_false; [done|]. by intros [? [=]].
Qed.

(** An iteration of the selection loop ends in one of three ways: the request
    is skipped; the iteration comes to a use of [DataModel] and raises
    [NameError]; or the bare copy of the request is accepted or not as
    [foundRequest] says. *)
Lemma select_request_outcome q v request :
  select_request q v request
  = if negb (passes_gates q v request) then Ok None
    else if reaches_DataModel q v request then Raise NameError
    else if found_request v request then Ok (Some (ArclinkRequest.copy request))
    else Ok None.
Proof.
  unfold select_request, select_body, passes_gates, reaches_DataModel,
    found_request, lines_examined.
  rewrite !ip_check_ok.
  destruct (ip_ok (userIP v) _); [|done].
  destruct (ip_ok (clientIP v) _); [|done]. cbn [andb].
  assert (Hl : bool_decide
                 (length (ArclinkRequest.statusLines (loadArclinkStatusLines q request))
                  = 0%nat)
               = bool_decide
                   (ArclinkRequest.statusLines (loadArclinkStatusLines q request) = [])).
  { apply bool_decide_ext. split; [apply nil_length_inv|by intros ->]. }
  rewrite Hl.
  destruct (truthy (volume v) && bool_decide _) eqn:Hgate; cbn [negb]; [done|].
  rewrite status_loop_outcome.
  destruct (existsb (status_line_kept v) _); cbn [orb]; [done|].
  cbn [mbind result_bind].
  destruct (truthy (lines_ v) || bool_decide (is_Some (restricted v))) eqn:Hex.
  - rewrite line_loop_outcome. by destruct (existsb (request_line_kept v) _).
  - cbn [mbind result_bind d_foundRequest d_foundLine d_foundVolume d_Xrequest].
    rewrite !orb_false_r.
    destruct (truthy (onlyErrors v)
              && negb (String.eqb (ArclinkRequest.status request) "END"));
      destruct (negb (truthy (lines_ v)) && negb (truthy (volume v))
                && truthy (onlyErrors v) && (reqErrors_of request >? 0));
      destruct (negb (truthy (message v)) && negb (truthy (lines_ v))
                && negb (truthy (onlyErrors v)) && negb (truthy (volume v))
                && (bool_decide (is_Some (userIP v))
                    || bool_decide (is_Some (clientIP v))));
      done.
Qed.

Lemma ip_ok_spec ip actual :
  ip_ok ip actual = true <-> ip = None \/ ip = Some actual.
Proof.
  unfold ip_ok. destruct ip as [ip|]; [|by split; auto].
  destruct (String.eqb_spec ip actual) as [->|Hne].
  - split; [by auto|done].
  - split; [done|]. intros [[=]|[= ->]]. by destruct Hne.
Qed.

Lemma passes_gates_spec q v request :
  passes_gates q v request = true <->
    (userIP v = None \/ userIP v = Some (ArclinkRequest.userIP request))
    /\ (clientIP v = None \/ clientIP v = Some (ArclinkRequest.clientIP request))
    /\ ~ (truthy (volume v) = true
          /\ ArclinkRequest.statusLines (loadArclinkStatusLines q request) = []).
Proof.
  unfold passes_gates.
  rewrite !andb_true_iff, negb_true_iff, andb_false_iff, !ip_ok_spec.
  rewrite bool_decide_eq_false.
  destruct (truthy (volume v)).
  - split.
    + intros ((H1 & H2) & [H3|H3]); [done|]. split_and!; [done..|].
      intros [_ H]. by destruct H3.
    + intros (H1 & H2 & H3). split_and!; [done..|]. right. intros H. by apply H3.
  - split.
    + intros ((H1 & H2) & _). split_and!; [done..|]. by intros [[=] _].
    + intros (H1 & H2 & _). split_and!; [done..|]. by left.
Qed.

Lemma reaches_DataModel_spec q v request :
  reaches_DataModel q v request = false <->
    (forall sline,
        sline ∈ ArclinkRequest.statusLines (loadArclinkStatusLines q request) ->
        status_line_kept v sline = false)
    /\ truthy (lines_ v) = false /\ restricted v = None.
Proof.
  unfold reaches_DataModel, lines_examined.
  rewrite !orb_false_iff, bool_decide_eq_false. split.
  - intros (He & Hl & Hr). split_and!; [|done|].
    + intros sline Hs. destruct (status_line_kept v sline) eqn:Hk; [|done].
      assert (Hex : existsb (status_line_kept v)
                (ArclinkRequest.statusLines (loadArclinkStatusLines q request)) = true)
        by (apply existsb_elem_of; eauto).
      by rewrite Hex in He.
    + destruct (restricted v); [|done]. by destruct Hr.
  - intros (Hs & Hl & Hr). split_and!; [|done|by rewrite Hr; intros [? [=]]].
    destruct (existsb _ _) eqn:Hex; [|done].
    apply existsb_elem_of in Hex as (sline & Hin & Hk). by rewrite (Hs _ Hin) in Hk.
Qed.

(** ** Selection: the acceptance decision *)

(** C1, as the code decides it where it reaches no use of the unbound name
    [DataModel], that is when no status line survives the
    volume/message/onlyErrors skips and the request lines are not examined
    (lines is not set and restricted is not given): a candidate request is
    accepted (its projection is passed to the callback or appended to the
    selection) if and only if it passes the userIP and clientIP checks, it is
    not the case that a volume filter is given while the request has no status
    line after loading, and one of the following holds: onlyErrors is set and
    the request status is not "END"; onlyErrors is set, neither lines nor
    volume is, and reqErrors > 0; an IP filter is given (and matched) while
    message, lines, onlyErrors and volume are not. *)
Theorem select_request_accepts :
  forall (q : DatabaseQuery) (v : selection_vars) (request : ArclinkRequest.t),
    let loaded := loadArclinkStatusLines q request in
    (forall sline, sline ∈ ArclinkRequest.statusLines loaded ->
                   status_line_kept v sline = false) ->
    truthy (lines_ v) = false ->
    restricted v = None ->
    (exists X, select_request q v request = Ok (Some X)) <->
      (userIP v = None \/ userIP v = Some (ArclinkRequest.userIP request))
      /\ (clientIP v = None \/ clientIP v = Some (ArclinkRequest.clientIP request))
      /\ ~ (truthy (volume v) = true /\ ArclinkRequest.statusLines loaded = [])
      /\ ((truthy (onlyErrors v) = true /\ ArclinkRequest.status request <> "END")
          \/ (truthy (onlyErrors v) = true /\ truthy (lines_ v) = false
              /\ truthy (volume v) = false /\ reqErrors_of request > 0)
          \/ ((is_Some (userIP v) \/ is_Some (clientIP v))
              /\ truthy (message v) = false /\ truthy (lines_ v) = false
              /\ truthy (onlyErrors v) = false /\ truthy (volume v) = false)).
Proof.
  intros q v request loaded Hs Hl Hr.
  assert (Hreach : reaches_DataModel q v request = false)
    by (by apply reaches_DataModel_spec).
  rewrite select_request_outcome, Hreach.
  pose proof (passes_gates_spec q v request) as Hg. fold loaded in Hg.
  assert (Hf : found_request v request = true <->
    ((truthy (onlyErrors v) = true /\ ArclinkRequest.status request <> "END")
     \/ (truthy (onlyErrors v) = true /\ truthy (lines_ v) = false
         /\ truthy (volume v) = false /\ reqErrors_of request > 0)
     \/ ((is_Some (userIP v) \/ is_Some (clientIP v))
         /\ truthy (message v) = false /\ truthy (lines_ v) = false
         /\ truthy (onlyErrors v) = false /\ truthy (volume v) = false))).
  { unfold found_request.
    rewrite !orb_true_iff, !andb_true_iff, !orb_true_iff, !negb_true_iff.
    rewrite !bool_decide_eq_true, String.eqb_neq.
    assert (Hre : (reqErrors_of request >? 0) = true <-> reqErrors_of request > 0)
      by lia.
    rewrite Hre. tauto. }
  destruct (passes_gates q v request); cbn [negb].
  - destruct (found_request v request).
    + split; [|by eauto]. intros _.
      destruct (proj1 Hg eq_refl) as (? & ? & ?). split_and!; [done..|].
      by apply Hf.
    + split; [by intros [? [=]]|]. intros (_ & _ & _ & H).
      by apply Hf in H.
  - split; [by intros [? [=]]|]. intros (H1 & H2 & H3 & _).
    by assert (false = true) by (apply Hg; by split_and!).
Qed.

Lemma select_request_accepts_witness :
  exists X,
    select_request loaded_query only_errors_selection denied_request = Ok (Some X).
Proof.
  apply (select_request_accepts loaded_query only_errors_selection denied_request).
  - intros sline Hs. by apply elem_of_nil in Hs.
  - done.
  - done.
  - split_and!; [by left|by left|by intros [H _]; vm_compute in H|].
    left. by split.
Defined.

(** C1, counterexample to the rule as worded: with only [onlyErrors] set, a
    request whose status is not "END" and whose summary counts no error
    ([reqErrors = 0]), with no status line, is accepted by the code, while
    none of the four alternatives of the worded rule holds for it. *)
Lemma spec_accepts_counterexample :
  (exists X,
      select_request loaded_query only_errors_selection denied_request
      = Ok (Some X))
  /\ reqErrors_of denied_request = 0
  /\ ~ spec_accepts loaded_query only_errors_selection denied_request.
Proof.
  split_and!; [by eexists|done|].
  intros (_ & [H|[H|[H|H]]]).
  - destruct H as (_ & _ & _ & _ & H). by vm_compute in H.
  - by destruct H as ([H|H] & _).
  - destruct H as (sline & H & _). by apply elem_of_nil in H.
  - destruct H as ([H|[? H]] & _); by vm_compute in H.
Qed.

(** ** The derived summary of a projection *)

(** C3, at an input where the code departs from the claim: [lines=yes] and
    a finished request with one request line.  The line is kept, and line
    1487 looks up the unbound name [DataModel]: the iteration, and with it
    [loadRequests], ends in [NameError].  No projection is built and no
    derived summary is stored; the summary of line 1496 is never made,
    whatever the loop has counted. *)
Lemma line_filtering_raises_NameError :
  select_request loaded_query lines_selection long_window_request
  = Raise NameError
  /\ loadRequests (2026, 11, 3) loaded_query [long_window_request]
       {[ "lines" := "yes" ]} None tt
     = Raise NameError
  /\ (forall a : line_vars, derived_summary a = Raise NameError).
Proof. split_and!; [by vm_compute..|done]. Qed.

(** ** Counter: construction *)

Lemma preset_days_done t end_ c : end_ <= t -> preset_days t end_ c = Ok c.
Proof.
  intros H. simp preset_days. destruct (decide (t < end_)); [lia|done].
Qed.

Lemma preset_hours_fresh daily monthly weekdaily l r e w :
  foldl preset_hour (mkCounter ∅ daily monthly weekdaily l r e w) (range 0 24)
  = mkCounter hours_preset daily monthly weekdaily l r e w.
Proof. vm_compute. reflexivity. Qed.

(** ** Strings and decimal rendering *)

Lemma string_app_cons (a : ascii) (s r : string) :
  String a s +:+ r = String a (s +:+ r).
Proof. reflexivity. Qed.

Lemma string_app_nil_l (r : string) : "" +:+ r = r.
Proof. reflexivity. Qed.

Lemma string_app_nil_r (s : string) : s +:+ "" = s.
Proof. induction s as [|a s IH]; [done|]. by rewrite string_app_cons, IH. Qed.

Lemma string_app_length (s r : string) :
  String.length (s +:+ r) = (String.length s + String.length r)%nat.
Proof.
  induction s as [|a s IH]; [done|]. rewrite string_app_cons. cbn. by rewrite IH.
Qed.

Lemma string_app_inj_suffix (s1 s2 r1 r2 : string) :
  String.length r1 = String.length r2 ->
  s1 +:+ r1 = s2 +:+ r2 -> s1 = s2 /\ r1 = r2.
Proof.
  intros Hlen. revert s2. induction s1 as [|a s1 IH]; intros [|b s2] H.
  - done.
  - apply (f_equal String.length) in H.
    rewrite string_app_nil_l, string_app_cons in H. cbn in H.
    rewrite string_app_length in H. lia.
  - apply (f_equal String.length) in H.
    rewrite string_app_nil_l, string_app_cons in H. cbn in H.
    rewrite string_app_length in H. lia.
  - rewrite !string_app_cons in H. injection H as -> H.
    by destruct (IH _ H) as [-> ->].
Qed.

Lemma to_int_proper (n : Z) :
  Z.to_int n <> Decimal.Pos Decimal.Nil /\ Z.to_int n <> Decimal.Neg Decimal.Nil.
Proof.
  destruct n as [|p|p]; cbn; split; try done; intros [= H];
    by apply DecimalPos.Unsigned.to_uint_nonnil in H.
Qed.

Lemma int_of_string_dec (n : Z) :
  NilZero.int_of_string (dec n) = Some (Z.to_int n).
Proof. destruct (to_int_proper n). by apply NilZero.isi. Qed.

Lemma int_dec (n : Z) : int_ (dec n) = Ok n.
Proof. unfold int_. by rewrite int_of_string_dec, DecimalZ.of_to. Qed.

Lemma dec_inj (n1 n2 : Z) : dec n1 = dec n2 -> n1 = n2.
Proof.
  intros H. apply DecimalZ.to_int_inj.
  assert (Some (Z.to_int n1) = Some (Z.to_int n2)) as [= ->]; [|done].
  by rewrite <- !int_of_string_dec, H.
Qed.

Lemma fmt_02d_length (n : Z) :
  0 <= n < 100 -> String.length (fmt_02d n) = 2%nat.
Proof.
  intros Hn.
  assert (H : forallb (fun n => Nat.eqb (String.length (fmt_02d n)) 2) (seqZ 0 100) = true)
    by (vm_compute; reflexivity).
  rewrite forallb_forall in H. apply Nat.eqb_eq, H, list_elem_of_In, elem_of_seqZ. lia.
Qed.

Lemma fmt_02d_inj (n1 n2 : Z) :
  0 <= n1 < 100 -> 0 <= n2 < 100 -> fmt_02d n1 = fmt_02d n2 -> n1 = n2.
Proof.
  intros H1 H2 Heq.
  assert (Hnd : NoDup (fmt_02d <$> seqZ 0 100)).
  { apply (bool_decide_unpack _). by vm_compute. }
  assert (Hl : forall n, 0 <= n < 100 ->
             (fmt_02d <$> seqZ 0 100) !! Z.to_nat n = Some (fmt_02d n)).
  { intros n Hn. rewrite list_lookup_fmap, lookup_seqZ_lt by lia. cbn. f_equal. f_equal. lia. }
  pose proof (Hl n1 H1) as Hl1. rewrite Heq in Hl1.
  pose proof (NoDup_lookup _ _ _ _ Hnd Hl1 (Hl n2 H2)). lia.
Qed.

(** ** The calendar *)

Lemma year_of_era_range (doe : Z) :
  0 <= doe < 146097 ->
  0 <= (doe - doe / 1460 + doe / 36524 - doe / 146096) / 365 < 400.
Proof. intros H. Z.div_mod_to_equations. lia. Qed.

Lemma day_of_year_range (doe : Z) :
  0 <= doe < 146097 ->
  0 <= doe - (365 * ((doe - doe / 1460 + doe / 36524 - doe / 146096) / 365)
              + (doe - doe / 1460 + doe / 36524 - doe / 146096) / 365 / 4
              - (doe - doe / 1460 + doe / 36524 - doe / 146096) / 365 / 100) < 366.
Proof. intros H. Z.div_mod_to_equations. lia. Qed.

Lemma civil_from_days_range (z : Z) :
  1 <= (Time.civil_from_days z).1.2 <= 12 /\ 1 <= (Time.civil_from_days z).2 <= 31.
Proof.
  cbv beta zeta iota delta [Time.civil_from_days fst snd].
  assert (H : 0 <= (z + 719468) mod 146097 < 146097) by (apply Z.mod_pos_bound; lia).
  set (doe := (z + 719468) mod 146097) in *.
  pose proof (day_of_year_range doe H) as Hd.
  set (yoe := (doe - doe / 1460 + doe / 36524 - doe / 146096) / 365) in *.
  set (doy := doe - (365 * yoe + yoe / 4 - yoe / 100)) in *.
  clearbody doy. clear H. clearbody yoe.
  destruct (Z.ltb_spec ((5 * doy + 2) / 153) 10); Z.div_mod_to_equations; lia.
Qed.

Lemma civil_from_days_inj (z1 z2 : Z) :
  Time.civil_from_days z1 = Time.civil_from_days z2 -> z1 = z2.
Proof.
  cbv beta zeta delta [Time.civil_from_days].
  assert (H1 : 0 <= (z1 + 719468) mod 146097 < 146097) by (apply Z.mod_pos_bound; lia).
  assert (H2 : 0 <= (z2 + 719468) mod 146097 < 146097) by (apply Z.mod_pos_bound; lia).
  pose proof (Z.div_mod (z1 + 719468) 146097 ltac:(lia)) as E1.
  pose proof (Z.div_mod (z2 + 719468) 146097 ltac:(lia)) as E2.
  set (doe1 := (z1 + 719468) mod 146097) in *.
  set (doe2 := (z2 + 719468) mod 146097) in *.
  set (era1 := (z1 + 719468) / 146097) in *.
  set (era2 := (z2 + 719468) / 146097) in *.
  pose proof (year_of_era_range doe1 H1) as Hy1.
  pose proof (day_of_year_range doe1 H1) as Hd1.
  pose proof (year_of_era_range doe2 H2) as Hy2.
  pose proof (day_of_year_range doe2 H2) as Hd2.
  set (yoe1 := (doe1 - doe1 / 1460 + doe1 / 36524 - doe1 / 146096) / 365) in *.
  set (yoe2 := (doe2 - doe2 / 1460 + doe2 / 36524 - doe2 / 146096) / 365) in *.
  set (doy1 := doe1 - (365 * yoe1 + yoe1 / 4 - yoe1 / 100)) in *.
  set (doy2 := doe2 - (365 * yoe2 + yoe2 / 4 - yoe2 / 100)) in *.
  set (mp1 := (5 * doy1 + 2) / 153). set (mp2 := (5 * doy2 + 2) / 153).
  assert (Hmp1 : 0 <= mp1 < 12) by (subst mp1; Z.div_mod_to_equations; lia).
  assert (Hmp2 : 0 <= mp2 < 12) by (subst mp2; Z.div_mod_to_equations; lia).
  intros [= Hy Hm Hd].
  assert (Hmp : mp1 = mp2 /\ yoe1 + era1 * 400 = yoe2 + era2 * 400).
  { revert Hy Hm.
    destruct (Z.ltb_spec mp1 10), (Z.ltb_spec mp2 10);
      repeat match goal with
             | |- context [?a <=? ?b] => destruct (Z.leb_spec a b)
             end; lia. }
  destruct Hmp as [Hmp Hyy]. rewrite Hmp in Hd.
  assert (Hdoy : doy1 = doy2) by lia.
  assert (yoe1 = yoe2 /\ era1 = era2) as [Ey Ee] by lia.
  subst doy1 doy2. rewrite Ey, Ee in *. lia.
Qed.

Lemma wday_range (t : Time.t) : 0 <= Time.wday t < 7.
Proof. unfold Time.wday. apply Z.mod_pos_bound. lia. Qed.

Lemma hour_range (t : Time.t) : 0 <= Time.hour t < 24.
Proof. unfold Time.hour. Z.div_mod_to_equations. lia. Qed.

Lemma days_step (t : Time.t) (i : Z) : Time.days (t + 86400 * i) = Time.days t + i.
Proof. unfold Time.days. Z.div_mod_to_equations. lia. Qed.

(** ** The bucket keys *)

Lemma toString_day (t : Time.t) :
  Time.toString "%Y-%m-%d" t
  = dec (Time.year t)
    +:+ String "-" (fmt_02d (Time.month t) +:+ String "-" (fmt_02d (Time.mday t))).
Proof. cbn. by rewrite string_app_nil_r. Qed.

Lemma toString_weekday (t : Time.t) : Time.toString "%w" t = dec (Time.wday t).
Proof. cbn. by rewrite string_app_nil_r. Qed.

Lemma toString_hour (t : Time.t) : Time.toString "%H" t = fmt_02d (Time.hour t).
Proof. cbn. by rewrite string_app_nil_r. Qed.

Lemma toString_year (t : Time.t) : Time.toString "%Y" t = dec (Time.year t).
Proof. cbn. by rewrite string_app_nil_r. Qed.

(** Two instants have the same daily key only if they fall on the same day. *)
Lemma toString_day_inj (t1 t2 : Time.t) :
  Time.toString "%Y-%m-%d" t1 = Time.toString "%Y-%m-%d" t2 ->
  Time.days t1 = Time.days t2.
Proof.
  rewrite !toString_day. intros H.
  destruct (civil_from_days_range (Time.days t1)) as [Hm1 Hd1].
  destruct (civil_from_days_range (Time.days t2)) as [Hm2 Hd2].
  fold (Time.month t1) in Hm1. fold (Time.mday t1) in Hd1.
  fold (Time.month t2) in Hm2. fold (Time.mday t2) in Hd2.
  apply string_app_inj_suffix in H as [Hy H]; cycle 1.
  { cbn [String.length]. rewrite !string_app_length. cbn [String.length].
    by rewrite !fmt_02d_length by lia. }
  injection H as H.
  apply string_app_inj_suffix in H as [Hm H]; cycle 1.
  { cbn [String.length]. by rewrite !fmt_02d_length by lia. }
  injection H as H.
  apply dec_inj in Hy. apply fmt_02d_inj in Hm; [|lia..]. apply fmt_02d_inj in H; [|lia..].
  apply civil_from_days_inj.
  unfold Time.year, Time.month, Time.mday in *.
  destruct (Time.civil_from_days (Time.days t1)) as [[y1 m1] d1].
  destruct (Time.civil_from_days (Time.days t2)) as [[y2 m2] d2].
  cbn in *. congruence.
Qed.

(** [weekday_key] never raises on the list the constructor installs. *)
Lemma weekday_key_ok (t : Time.t) :
  exists wd, weekday_key weekdays_list t = Ok wd
             /\ weekdays_list !! Z.to_nat (Time.wday t) = Some wd.
Proof.
  unfold weekday_key. rewrite toString_weekday, int_dec.
  pose proof (wday_range t) as Hw.
  cbn [mbind result_bind]. unfold getitem.
  change (Z.of_nat (length weekdays_list)) with 7.
  destruct (Z.ltb_spec (Time.wday t) 0); [lia|].
  destruct (Z.leb_spec 0 (Time.wday t)); [|lia].
  destruct (Z.ltb_spec (Time.wday t) 7); [|lia].
  cbn [andb].
  destruct (weekdays_list !! Z.to_nat (Time.wday t)) as [wd|] eqn:Hl; [by eauto|].
  apply lookup_ge_None in Hl. cbn in Hl. lia.
Qed.

(** ** Counter: the pre-seeded buckets *)

Lemma setdefault_union {V : Type} (k : string) (v : V) (d : gmap string V) :
  (setdefault k v d).2 = d ∪ {[k := v]}.
Proof.
  unfold setdefault. destruct (d !! k) as [x|] eqn:Hk; cbn.
  - apply map_eq. intros j. rewrite lookup_union.
    destruct (decide (k = j)) as [<-|Hne].
    + by rewrite Hk, lookup_singleton_eq.
    + rewrite lookup_singleton_ne by done. by destruct (d !! j).
  - rewrite insert_union_singleton_r by done. done.
Qed.

Lemma zero_buckets_cons (k : string) (ks : list string) :
  zero_buckets (k :: ks) = {[k := zero_metrics]} ∪ zero_buckets ks.
Proof. unfold zero_buckets. cbn. by rewrite insert_union_singleton_l. Qed.

Lemma zero_buckets_lookup (ks : list string) (k : string) (v : metrics) :
  zero_buckets ks !! k = Some v -> v = zero_metrics /\ k ∈ ks.
Proof.
  unfold zero_buckets. intros H. apply elem_of_list_to_map_2 in H.
  apply list_elem_of_fmap in H as (k' & [= -> ->] & Hk). done.
Qed.

Lemma zero_buckets_size (ks : list string) :
  NoDup ks -> size (zero_buckets ks) = length ks.
Proof.
  intros H. unfold zero_buckets. rewrite map_size_list_to_map.
  - by rewrite length_fmap.
  - rewrite <- list_fmap_compose. by rewrite list_fmap_id.
Qed.

Lemma weekday_key_of (t : Time.t) :
  weekday_key weekdays_list t = Ok (weekday_of t) /\ weekday_of t ∈ weekdays_list.
Proof.
  destruct (weekday_key_ok t) as (wd & H1 & H2). unfold weekday_of.
  rewrite H2. cbn. split; [done|]. by eapply list_elem_of_lookup_2.
Qed.

Lemma preset_day_ok (t : Time.t) (c : Counter) :
  weekdays c = weekdays_list ->
  preset_day t c
  = Ok (mkCounter (hourly c)
          (daily c ∪ {[Time.toString "%Y-%m-%d" t := zero_metrics]})
          (monthly c ∪ {[Time.toString "%Y-%m" t := zero_metrics]})
          (weekdaily c ∪ {[weekday_of t := zero_metrics]})
          (lines c) (requests c) (errors c) (weekdays c)).
Proof.
  intros Hw. unfold preset_day. rewrite Hw.
  destruct (weekday_key_of t) as [-> _]. cbn.
  by rewrite !setdefault_union.
Qed.

Lemma preset_days_step (t end_ : Time.t) (c : Counter) :
  preset_days t end_ c
  = if decide (t < end_)
    then c' ← preset_day t c; preset_days (t + 86400) end_ c'
    else Ok c.
Proof.
  simp preset_days. destruct (decide (t < end_)); [|done]. cbn.
  by destruct (preset_day t c).
Qed.

Lemma preset_days_ok (n : nat) :
  forall (t end_ : Time.t) (c : Counter),
    end_ - t <= 86400 * Z.of_nat n ->
    (n <> 0%nat -> 86400 * (Z.of_nat n - 1) < end_ - t) ->
    weekdays c = weekdays_list ->
    preset_days t end_ c
    = Ok (mkCounter (hourly c)
            (daily c ∪ zero_buckets (Time.toString "%Y-%m-%d" <$> day_times t n))
            (monthly c ∪ zero_buckets (Time.toString "%Y-%m" <$> day_times t n))
            (weekdaily c ∪ zero_buckets (weekday_of <$> day_times t n))
            (lines c) (requests c) (errors c) (weekdays c)).
Proof.
  induction n as [|n IH]; intros t end_ c Hle Hlt Hw.
  - rewrite preset_days_done by lia. cbn.
    unfold zero_buckets. cbn. rewrite !(right_id_L ∅ (∪)). by destruct c.
  - rewrite preset_days_step. destruct (decide (t < end_)); [|lia].
    rewrite preset_day_ok by done. cbn [mbind result_bind].
    rewrite IH; [|lia..|done].
    cbn [hourly daily monthly weekdaily lines requests errors weekdays day_times].
    rewrite !fmap_cons, !zero_buckets_cons. by rewrite !(assoc_L (∪)).
Qed.

Lemma elem_of_day_times (n : nat) (t x : Time.t) :
  x ∈ day_times t n <-> exists i, 0 <= i < Z.of_nat n /\ x = t + 86400 * i.
Proof.
  revert t. induction n as [|n IH]; intros t; cbn [day_times].
  - split; [by intros ?%elem_of_nil|]. intros (i & ? & _). lia.
  - rewrite elem_of_cons, IH. split.
    + intros [->|(i & Hi & ->)]; [exists 0|exists (i + 1)]; split; lia.
    + intros (i & Hi & ->). destruct (decide (i = 0)) as [->|Hne].
      * left. lia.
      * right. exists (i - 1). split; lia.
Qed.

Lemma day_times_length (n : nat) (t : Time.t) : length (day_times t n) = n.
Proof. revert t. induction n as [|n IH]; intros t; cbn; [done|]. by rewrite IH. Qed.

(** The instants of the loop fall on pairwise different days, so their daily
    keys are pairwise different. *)
Lemma day_times_keys_NoDup (n : nat) (t : Time.t) :
  NoDup (Time.toString "%Y-%m-%d" <$> day_times t n).
Proof.
  revert t. induction n as [|n IH]; intros t; cbn [day_times].
  - constructor.
  - rewrite fmap_cons. constructor; [|apply IH].
    intros (x & Hk & Hx)%list_elem_of_fmap.
    apply elem_of_day_times in Hx as (i & Hi & ->).
    apply toString_day_inj in Hk.
    replace (t + 86400 + 86400 * i) with (t + 86400 * (i + 1)) in Hk by lia.
    rewrite days_step in Hk. lia.
Qed.

Lemma hours_preset_lookup (k : string) (v : metrics) :
  hours_preset !! k = Some v ->
  v = zero_metrics /\ exists h, 0 <= h < 24 /\ k = fmt_02d h.
Proof.
  unfold hours_preset. intros H. apply elem_of_list_to_map_2 in H.
  apply list_elem_of_fmap in H as (h & [= -> ->] & Hh).
  split; [done|]. exists h. split; [|done].
  unfold range in Hh. apply elem_of_seqZ in Hh. lia.
Qed.

Lemma hours_preset_key (h : Z) :
  0 <= h < 24 -> hours_preset !! fmt_02d h = Some zero_metrics.
Proof.
  intros Hh.
  assert (H : forallb (fun h => match hours_preset !! fmt_02d h with
                                | Some (0, 0, 0, Int 0) => true
                                | _ => false
                                end) (seqZ 0 24) = true) by (vm_compute; reflexivity).
  rewrite forallb_forall in H.
  assert (Hin : In h (seqZ 0 24)) by (apply list_elem_of_In, elem_of_seqZ; lia).
  specialize (H h Hin).
  destruct (hours_preset !! fmt_02d h) as [[[[r l] e] [z|f]]|]; [| |done].
  - by destruct r, l, e, z.
  - by destruct r, l, e.
Qed.

Lemma Counter_init_range (start end_ : Time.t) :
  start < end_ ->
  let n := Z.to_nat ((end_ - start + 86399) / 86400) in
  Counter_init (Some start) (Some end_)
  = Ok (mkCounter hours_preset
          (zero_buckets (Time.toString "%Y-%m-%d" <$> day_times start n))
          (zero_buckets (Time.toString "%Y-%m" <$> day_times start n))
          (zero_buckets (weekday_of <$> day_times start n))
          0 0 0 weekdays_list).
Proof.
  intros Hlt n. unfold Counter_init.
  rewrite (preset_days_ok n); [| subst n; Z.div_mod_to_equations; lia..|done].
  cbn [mbind result_bind hourly daily monthly weekdaily lines requests errors weekdays].
  rewrite preset_hours_fresh. by rewrite !(left_id_L ∅ (∪)).
Qed.

Lemma Counter_init_no_day (start end_ : Time.t) :
  end_ <= start ->
  Counter_init (Some start) (Some end_)
  = Ok (mkCounter hours_preset ∅ ∅ ∅ 0 0 0 weekdays_list).
Proof.
  intros H. unfold Counter_init.
  rewrite preset_days_done by done. cbn. by rewrite preset_hours_fresh.
Qed.

(** C2, as the code behaves: for every start and end with end <= start the
    construction does not fail; it returns a counter whose daily, monthly and
    weekday mappings are empty and whose hourly mapping holds the 24 keys
    "00" to "23", each at zero metrics. *)
Theorem Counter_init_empty_range :
  forall start end_ : Time.t,
    end_ <= start ->
    exists c,
      Counter_init (Some start) (Some end_) = Ok c
      /\ daily c = ∅ /\ monthly c = ∅ /\ weekdaily c = ∅
      /\ hourly c = hours_preset
      /\ size (hourly c) = 24%nat
      /\ (forall k, is_Some (hourly c !! k)
                    <-> exists h, 0 <= h < 24 /\ k = fmt_02d h)
      /\ (forall k v, hourly c !! k = Some v -> v = zero_metrics).
Proof.
  intros start end_ H. eexists. split; [by apply Counter_init_no_day|].
  cbn [hourly daily monthly weekdaily]. split_and!; [done..|by vm_compute| |].
  - intros k. split.
    + intros [v Hv]. by apply hours_preset_lookup in Hv as [_ ?].
    + intros (h & Hh & ->). rewrite hours_preset_key by done. by eexists.
  - intros k v Hv. by apply hours_preset_lookup in Hv as [? _].
Qed.

Lemma Counter_init_empty_range_witness :
  exists c,
    Counter_init (Some t2021) (Some (t2021 - 86400)) = Ok c
    /\ daily c = ∅ /\ monthly c = ∅ /\ weekdaily c = ∅
    /\ hourly c = hours_preset
    /\ size (hourly c) = 24%nat
    /\ (forall k, is_Some (hourly c !! k)
                  <-> exists h, 0 <= h < 24 /\ k = fmt_02d h)
    /\ (forall k v, hourly c !! k = Some v -> v = zero_metrics).
Proof. apply Counter_init_empty_range. unfold t2021. lia. Defined.

(** C2, counterexample: with end = start the construction raises nothing and
    returns a counter seeded with the 24 hourly buckets only. *)
Lemma Counter_init_no_InvalidRangeError :
  exists c,
    Counter_init (Some t2021) (Some t2021) = Ok c
    /\ size (hourly c) = 24%nat
    /\ daily c = ∅ /\ monthly c = ∅ /\ weekdaily c = ∅.
Proof. eexists. split; [vm_compute; reflexivity|]. by vm_compute. Qed.

(** C4: for every start < end the construction succeeds; the hourly mapping
    has exactly the 24 keys "00" to "23"; the daily mapping has exactly
    ceil((end - start) / 1 day) keys (the least n with end - start <= n days);
    and every hourly and daily bucket holds the zero metrics (0, 0, 0, 0). *)
Theorem Counter_init_seeds_hours_and_days :
  forall start end_ : Time.t,
    start < end_ ->
    exists c,
      Counter_init (Some start) (Some end_) = Ok c
      /\ size (hourly c) = 24%nat
      /\ (forall k, is_Some (hourly c !! k) <-> exists h, 0 <= h < 24 /\ k = fmt_02d h)
      /\ (sorted_items (hourly c)).*1
         = ["00"; "01"; "02"; "03"; "04"; "05"; "06"; "07"; "08"; "09"; "10"; "11";
            "12"; "13"; "14"; "15"; "16"; "17"; "18"; "19"; "20"; "21"; "22"; "23"]
      /\ Z.of_nat (size (daily c)) = (end_ - start + 86399) / 86400
      /\ 86400 * (Z.of_nat (size (daily c)) - 1) < end_ - start
         <= 86400 * Z.of_nat (size (daily c))
      /\ (forall k v, hourly c !! k = Some v -> v = zero_metrics)
      /\ (forall k v, daily c !! k = Some v -> v = zero_metrics).
Proof.
  intros start end_ Hlt. eexists. split; [by apply Counter_init_range|].
  cbn [hourly daily].
  assert (Hsize : size (zero_buckets (Time.toString "%Y-%m-%d" <$>
             day_times start (Z.to_nat ((end_ - start + 86399) / 86400))))
           = Z.to_nat ((end_ - start + 86399) / 86400)).
  { rewrite zero_buckets_size by apply day_times_keys_NoDup.
    by rewrite length_fmap, day_times_length. }
  rewrite Hsize. split_and!.
  - by vm_compute.
  - intros k. split.
    + intros [v Hv]. by apply hours_preset_lookup in Hv as [_ ?].
    + intros (h & Hh & ->). rewrite hours_preset_key by done. by eexists.
  - by vm_compute.
  - Z.div_mod_to_equations. lia.
  - Z.div_mod_to_equations. lia.
  - Z.div_mod_to_equations. lia.
  - intros k v Hv. by apply hours_preset_lookup in Hv as [? _].
  - intros k v Hv. by apply zero_buckets_lookup in Hv as [? _].
Qed.

Lemma Counter_init_seeds_hours_and_days_witness :
  exists c,
    Counter_init (Some t2021) (Some (t2021 + 3 * 86400 - 1)) = Ok c
    /\ size (hourly c) = 24%nat
    /\ (forall k, is_Some (hourly c !! k) <-> exists h, 0 <= h < 24 /\ k = fmt_02d h)
    /\ (sorted_items (hourly c)).*1
       = ["00"; "01"; "02"; "03"; "04"; "05"; "06"; "07"; "08"; "09"; "10"; "11";
          "12"; "13"; "14"; "15"; "16"; "17"; "18"; "19"; "20"; "21"; "22"; "23"]
    /\ Z.of_nat (size (daily c)) = (t2021 + 3 * 86400 - 1 - t2021 + 86399) / 86400
    /\ 86400 * (Z.of_nat (size (daily c)) - 1) < t2021 + 3 * 86400 - 1 - t2021
       <= 86400 * Z.of_nat (size (daily c))
    /\ (forall k v, hourly c !! k = Some v -> v = zero_metrics)
    /\ (forall k v, daily c !! k = Some v -> v = zero_metrics).
Proof. apply Counter_init_seeds_hours_and_days. unfold t2021. lia. Defined.

(** ** Binary64 addition *)

Lemma PyFloat_add_comm (x y : spec_float) : PyFloat.add x y = PyFloat.add y x.
Proof.
  unfold PyFloat.add, SFadd.
  destruct x as [sx|sx| |sx mx ex], y as [sy|sy| |sy my ey]; try done;
    try (by destruct sx, sy).
  by rewrite (Z.min_comm ey ex), Z.add_comm.
Qed.

(** Accumulating two volumes into a bucket that starts at [0] gives the same
    float in either order. *)
Lemma PyFloat_add_zero_swap (x y : spec_float) :
  PyFloat.add (PyFloat.add (PyFloat.of_int 0) x) y
  = PyFloat.add (PyFloat.add (PyFloat.of_int 0) y) x.
Proof.
  change (PyFloat.of_int 0) with (S754_zero false).
  destruct x as [sx|sx| |sx mx ex], y as [sy|sy| |sy my ey]; try done;
    try (by destruct sx, sy); try (by destruct sx); try (by destruct sy).
  change (PyFloat.add (S754_zero false) (S754_finite sx mx ex))
    with (S754_finite sx mx ex).
  change (PyFloat.add (S754_zero false) (S754_finite sy my ey))
    with (S754_finite sy my ey).
  apply PyFloat_add_comm.
Qed.

Lemma volSize_of_float (request : ArclinkRequest.t) :
  exists f, volSize_of request = Float f.
Proof.
  unfold volSize_of, num_truediv.
  destruct (foldl _ _ _); by eexists.
Qed.

(** ** Counter: one call *)

Lemma add_to_bucket_insert (k : string) (l e : Z) (v : number)
    (d : gmap string metrics) :
  add_to_bucket k l e v d
  = <[k := bump l e v (default zero_metrics (d !! k))]> d.
Proof.
  unfold add_to_bucket, setdefault.
  destruct (d !! k) as [[[[r l0] e0] s]|] eqn:Hk; cbn; [done|].
  by rewrite insert_insert_eq.
Qed.

Lemma add_to_bucket_lookup (k k' : string) (l e : Z) (v : number)
    (d : gmap string metrics) :
  add_to_bucket k l e v d !! k'
  = if decide (k = k') then Some (bump l e v (default zero_metrics (d !! k)))
    else d !! k'.
Proof. rewrite add_to_bucket_insert. apply lookup_insert. Qed.

Lemma bump_zero_swap (l1 e1 l2 e2 : Z) (f1 f2 : spec_float) :
  bump l1 e1 (Float f1) (bump l2 e2 (Float f2) zero_metrics)
  = bump l2 e2 (Float f2) (bump l1 e1 (Float f1) zero_metrics).
Proof.
  unfold bump, zero_metrics. cbn [num_add to_float].
  rewrite PyFloat_add_zero_swap.
  replace (0 + l2 + l1) with (0 + l1 + l2) by lia.
  by replace (0 + e2 + e1) with (0 + e1 + e2) by lia.
Qed.

Lemma add_to_bucket_swap (k1 k2 : string) (l1 e1 l2 e2 : Z) (f1 f2 : spec_float)
    (d : gmap string metrics) :
  all_zero d ->
  add_to_bucket k1 l1 e1 (Float f1) (add_to_bucket k2 l2 e2 (Float f2) d)
  = add_to_bucket k2 l2 e2 (Float f2) (add_to_bucket k1 l1 e1 (Float f1) d).
Proof.
  intros Hz. rewrite !add_to_bucket_insert.
  destruct (decide (k1 = k2)) as [<-|Hne].
  - rewrite !lookup_insert_eq, !insert_insert_eq.
    assert (Hd : default zero_metrics (d !! k1) = zero_metrics).
    { destruct (d !! k1) as [x|] eqn:Hk; [|done]. by apply Hz in Hk. }
    rewrite Hd. cbn -[bump zero_metrics]. by rewrite bump_zero_swap.
  - rewrite !lookup_insert_ne by done. by apply insert_insert_ne.
Qed.

Lemma Counter_call_ok (c : Counter) (request : ArclinkRequest.t)
    (s : ArclinkRequestSummary.t) :
  weekdays c = weekdays_list ->
  ArclinkRequest.summary request = Some s ->
  let date := ArclinkRequest.created request in
  let l := ArclinkRequestSummary.totalLineCount s in
  let e := ArclinkRequestSummary.totalLineCount s - ArclinkRequestSummary.okLineCount s in
  let v := volSize_of request in
  Counter_call c request
  = Ok (mkCounter
          (add_to_bucket (Time.toString "%H" date) l e v (hourly c))
          (add_to_bucket (Time.toString "%Y-%m-%d" date) l e v (daily c))
          (add_to_bucket (Time.toString "%Y-%m" date) l e v (monthly c))
          (add_to_bucket (weekday_of date) l e v (weekdaily c))
          (lines c) (requests c) (errors c) (weekdays c)).
Proof.
  intros Hw Hs. unfold Counter_call, ArclinkRequest.get_summary.
  rewrite Hs, Hw. cbn [mbind result_bind].
  by destruct (weekday_key_of (ArclinkRequest.created request)) as [-> _].
Qed.

Lemma Counter_call_no_summary (c : Counter) (request : ArclinkRequest.t) :
  ArclinkRequest.summary request = None ->
  Counter_call c request = Raise ValueError.
Proof.
  intros Hs. unfold Counter_call, ArclinkRequest.get_summary. by rewrite Hs.
Qed.

(** ** Counter: construction never fails *)

Lemma zero_buckets_all_zero (ks : list string) : all_zero (zero_buckets ks).
Proof. intros k v H. by apply zero_buckets_lookup in H as [? _]. Qed.

Lemma hours_preset_all_zero : all_zero hours_preset.
Proof. intros k v H. by apply hours_preset_lookup in H as [? _]. Qed.

Lemma empty_all_zero : all_zero ∅.
Proof. intros k v H. by rewrite lookup_empty in H. Qed.

Lemma Counter_init_fresh (start end_ : option Time.t) :
  exists c, Counter_init start end_ = Ok c /\ fresh_counter c.
Proof.
  destruct start as [start|], end_ as [end_|];
    try (eexists; split; [reflexivity|];
         by repeat split; try apply empty_all_zero; intros k [? [=]]).
  destruct (decide (start < end_)) as [Hlt|Hge].
  - eexists. split; [by apply Counter_init_range|].
    repeat split; try apply zero_buckets_all_zero; try apply hours_preset_all_zero.
    intros k [v Hv]. cbn in Hv. apply zero_buckets_lookup in Hv as [_ Hk].
    apply list_elem_of_fmap in Hk as (t & -> & _). apply weekday_key_of.
  - eexists. split; [apply Counter_init_no_day; lia|].
    repeat split; try apply empty_all_zero; try apply hours_preset_all_zero.
    by intros k [? [=]].
Qed.

(** ** Counter: two calls in either order *)

Lemma accumulate_Raise (e : exn) (rs : list ArclinkRequest.t) :
  accumulate (Raise e) rs = Raise e.
Proof. unfold accumulate. by induction rs as [|r rs IH]. Qed.

Lemma accumulate_cons (c : Counter) (r : ArclinkRequest.t)
    (rs : list ArclinkRequest.t) :
  accumulate (Ok c) (r :: rs) = accumulate (Counter_call c r) rs.
Proof. reflexivity. Qed.

Lemma accumulate_snoc (c : result Counter) (r : ArclinkRequest.t)
    (rs : list ArclinkRequest.t) :
  accumulate c (rs ++ [r]) = (c' ← accumulate c rs; Counter_call c' r).
Proof. unfold accumulate. by rewrite foldl_app. Qed.

(** C6: for any two requests and any freshly constructed counter, the two
    calls made in either order leave the same counter, hence the same
    hourly, daily, monthly and weekdaily mappings (compared as Python
    compares dicts, by content); when both requests carry a summary the calls
    do complete. *)
Theorem accumulate_two_any_order :
  forall (start end_ : option Time.t) (R1 R2 : ArclinkRequest.t),
    accumulate (Counter_init start end_) [R1; R2]
    = accumulate (Counter_init start end_) [R2; R1]
    /\ (is_Some (ArclinkRequest.summary R1) ->
        is_Some (ArclinkRequest.summary R2) ->
        exists c, accumulate (Counter_init start end_) [R1; R2] = Ok c).
Proof.
  intros start end_ R1 R2.
  destruct (Counter_init_fresh start end_) as (c & -> & Hw & Hh & Hd & Hm & Hwd & _).
  rewrite !accumulate_cons.
  destruct (ArclinkRequest.summary R1) as [s1|] eqn:Hs1,
           (ArclinkRequest.summary R2) as [s2|] eqn:Hs2.
  - rewrite (Counter_call_ok c R1 s1), (Counter_call_ok c R2 s2) by done.
    rewrite !accumulate_cons.
    rewrite (Counter_call_ok _ R2 s2), (Counter_call_ok _ R1 s1) by done.
    cbn [accumulate foldl hourly daily monthly weekdaily lines requests errors weekdays].
    destruct (volSize_of_float R1) as [f1 ->], (volSize_of_float R2) as [f2 ->].
    split; [|by eauto].
    do 2 f_equal; by apply add_to_bucket_swap.
  - rewrite (Counter_call_ok c R1 s1), (Counter_call_no_summary c R2) by done.
    rewrite accumulate_cons, accumulate_Raise.
    rewrite Counter_call_no_summary by done.
    split; [done|]. by intros _ [? [=]].
  - rewrite (Counter_call_no_summary c R1), (Counter_call_ok c R2 s2) by done.
    rewrite accumulate_cons, accumulate_Raise.
    rewrite Counter_call_no_summary by done.
    split; [done|]. by intros [? [=]].
  - rewrite !Counter_call_no_summary by done. split; [done|]. by intros [? [=]].
Qed.

Lemma accumulate_two_any_order_witness :
  exists c,
    accumulate (Counter_init (Some t2021) (Some (t2021 + 2 * 86400)))
               [request_a; request_b] = Ok c
    /\ accumulate (Counter_init (Some t2021) (Some (t2021 + 2 * 86400)))
                  [request_b; request_a] = Ok c.
Proof.
  destruct (accumulate_two_any_order (Some t2021) (Some (t2021 + 2 * 86400))
              request_a request_b) as [Heq Hok].
  destruct Hok as [c Hc]; [by eexists..|].
  exists c. split; [done|]. by rewrite <- Heq.
Defined.

(** ** Counter: the totals of the four tables *)

Ltac tuple_lia :=
  repeat match goal with |- (_, _) = (_, _) => f_equal end; lia.

Lemma add3_comm (a b : Z * Z * Z) : add3 a b = add3 b a.
Proof. destruct a as [[??]?], b as [[??]?]. unfold add3. cbn. tuple_lia. Qed.

Lemma add3_assoc (a b c : Z * Z * Z) : add3 a (add3 b c) = add3 (add3 a b) c.
Proof.
  destruct a as [[??]?], b as [[??]?], c as [[??]?]. unfold add3. cbn.
  tuple_lia.
Qed.

Lemma add3_zero_l (a : Z * Z * Z) : add3 (0, 0, 0) a = a.
Proof. by destruct a as [[??]?]. Qed.

Lemma sum_counts_cons (kv : string * metrics) (l : list (string * metrics)) :
  sum_counts (kv :: l) = add3 (counts kv.2) (sum_counts l).
Proof. reflexivity. Qed.

Lemma sum_counts_perm (l1 l2 : list (string * metrics)) :
  l1 ≡ₚ l2 -> sum_counts l1 = sum_counts l2.
Proof.
  induction 1 as [|x l1 l2 _ IH|x y l|l1 l2 l3 _ IH1 _ IH2];
    rewrite ?sum_counts_cons.
  - done.
  - by rewrite IH.
  - rewrite !add3_assoc. f_equal. apply add3_comm.
  - by rewrite IH1.
Qed.

Lemma table_total_fold (l : list (string * metrics)) (acc : metrics) :
  counts (foldl (fun '(tr, tl, te, ts) '(k, (r, l, e, s)) =>
                   (tr + r, tl + l, te + e, num_add ts s)) acc l)
  = add3 (counts acc) (sum_counts l).
Proof.
  revert acc. induction l as [|[k [[[r l0] e] s]] l IH]; intros [[[tr tl] te] ts].
  - unfold add3. cbn. tuple_lia.
  - cbn [foldl]. rewrite IH, sum_counts_cons.
    by rewrite add3_assoc.
Qed.

Lemma table_total_counts (d : gmap string metrics) :
  counts (table_total d) = sum_counts (map_to_list d).
Proof.
  unfold table_total. rewrite table_total_fold.
  change (counts zero_metrics) with (0, 0, 0). rewrite add3_zero_l.
  apply sum_counts_perm. unfold sorted_items. apply merge_sort_Permutation.
Qed.

Lemma sum_counts_all_zero (d : gmap string metrics) :
  all_zero d -> sum_counts (map_to_list d) = (0, 0, 0).
Proof.
  intros Hz.
  assert (H : forall kv, kv ∈ map_to_list d -> kv.2 = zero_metrics).
  { intros [k v] Hkv. apply elem_of_map_to_list in Hkv. by apply Hz in Hkv. }
  induction (map_to_list d) as [|kv l IH]; [done|]. rewrite sum_counts_cons.
  rewrite IH by (intros; apply H; by right).
  rewrite (H kv) by by left. done.
Qed.

Lemma sum_counts_add_to_bucket (k : string) (l e : Z) (v : number)
    (d : gmap string metrics) :
  sum_counts (map_to_list (add_to_bucket k l e v d))
  = add3 (1, l, e) (sum_counts (map_to_list d)).
Proof.
  rewrite add_to_bucket_insert.
  destruct (d !! k) as [[[[r l0] e0] s]|] eqn:Hk.
  - rewrite <- insert_delete_eq.
    rewrite (sum_counts_perm _ _ (map_to_list_insert _ _ _ (lookup_delete_eq d k))).
    rewrite <- (sum_counts_perm _ _ (map_to_list_delete _ _ _ Hk)).
    rewrite !sum_counts_cons, add3_assoc. f_equal.
    unfold add3, counts. cbn. tuple_lia.
  - rewrite (sum_counts_perm _ _ (map_to_list_insert _ _ _ Hk)).
    by rewrite sum_counts_cons.
Qed.

(** What holds of every counter reached from a fresh one by a sequence of
    calls. *)
Lemma accumulate_invariant (rs : list ArclinkRequest.t) :
  forall c0 c,
    fresh_counter c0 ->
    accumulate (Ok c0) rs = Ok c ->
    weekdays c = weekdays_list
    /\ (forall k, is_Some (weekdaily c !! k) -> k ∈ weekdays_list)
    /\ (counts (table_total (hourly c))).1.1 = Z.of_nat (length rs)
    /\ counts (table_total (daily c)) = counts (table_total (hourly c))
    /\ counts (table_total (monthly c)) = counts (table_total (hourly c))
    /\ counts (table_total (weekdaily c)) = counts (table_total (hourly c)).
Proof.
  induction rs as [|r rs IH] using rev_ind; intros c0 c Hf Hacc.
  - injection Hacc as <-. destruct Hf as (Hw & Hh & Hd & Hm & Hwd & Hk).
    rewrite !table_total_counts, !sum_counts_all_zero by done.
    by split_and!.
  - rewrite accumulate_snoc in Hacc.
    destruct (accumulate (Ok c0) rs) as [c1|] eqn:H1; [|done].
    destruct (IH c0 c1 Hf H1) as (Hw & Hk & Hn & Hd & Hm & Hwd).
    cbn [mbind result_bind] in Hacc.
    destruct (ArclinkRequest.summary r) as [s|] eqn:Hs;
      [|by rewrite Counter_call_no_summary in Hacc].
    rewrite (Counter_call_ok c1 r s) in Hacc by done. injection Hacc as <-.
    cbn [hourly daily monthly weekdaily weekdays].
    rewrite !table_total_counts, !sum_counts_add_to_bucket.
    rewrite <- !table_total_counts. rewrite Hd, Hm, Hwd.
    split_and!; try done.
    + intros k. rewrite add_to_bucket_lookup. case_decide as Hkk; [|by apply Hk].
      intros _. subst k. apply weekday_key_of.
    + destruct (counts (table_total (hourly c1))) as [[a b] x]. cbn in *.
      rewrite length_app. cbn. lia.
Qed.

(** C9, as the code has it: after any sequence of calls on a constructed
    counter, the table totals of requestCount, lineCount and errorCount are
    the same for the hourly, daily, monthly and weekday mappings (and the
    requestCount total is the number of calls); and a further call for a
    request carrying a summary does not fail, whatever its creation time: in
    each of the four mappings it replaces exactly the one bucket of the
    request's key by that bucket, or the zero metrics if the key is absent,
    plus (1, lineCount, errorCount, volume), leaving every other bucket
    as it was.  The volume totals are floating-point sums and are left out:
    they agree only up to rounding. *)
Theorem table_totals_agree :
  forall (start end_ : option Time.t) (rs : list ArclinkRequest.t) (c : Counter),
    accumulate (Counter_init start end_) rs = Ok c ->
    counts (table_total (hourly c)) = counts (table_total (daily c))
    /\ counts (table_total (hourly c)) = counts (table_total (monthly c))
    /\ counts (table_total (hourly c)) = counts (table_total (weekdaily c))
    /\ (counts (table_total (hourly c))).1.1 = Z.of_nat (length rs)
    /\ forall (request : ArclinkRequest.t) (s : ArclinkRequestSummary.t),
         ArclinkRequest.summary request = Some s ->
         let date := ArclinkRequest.created request in
         let add :=
           bump (ArclinkRequestSummary.totalLineCount s)
                (ArclinkRequestSummary.totalLineCount s
                 - ArclinkRequestSummary.okLineCount s)
                (volSize_of request) in
         exists c',
           Counter_call c request = Ok c'
           /\ (forall k, hourly c' !! k
                 = if decide (Time.toString "%H" date = k)
                   then Some (add (default zero_metrics (hourly c !! k)))
                   else hourly c !! k)
           /\ (forall k, daily c' !! k
                 = if decide (Time.toString "%Y-%m-%d" date = k)
                   then Some (add (default zero_metrics (daily c !! k)))
                   else daily c !! k)
           /\ (forall k, monthly c' !! k
                 = if decide (Time.toString "%Y-%m" date = k)
                   then Some (add (default zero_metrics (monthly c !! k)))
                   else monthly c !! k)
           /\ (forall k, weekdaily c' !! k
                 = if decide (weekday_of date = k)
                   then Some (add (default zero_metrics (weekdaily c !! k)))
                   else weekdaily c !! k).
Proof.
  intros start end_ rs c Hacc.
  destruct (Counter_init_fresh start end_) as (c0 & Hc0 & Hf).
  rewrite Hc0 in Hacc.
  destruct (accumulate_invariant rs c0 c Hf Hacc) as (Hw & _ & Hn & Hd & Hm & Hwd).
  split_and!; [done..|].
  intros request s Hs date add. eexists. split; [by apply Counter_call_ok|].
  cbn [hourly daily monthly weekdaily].
  subst date add.
  split_and!; intros k; rewrite add_to_bucket_lookup; case_decide; by subst.
Qed.

Lemma table_totals_agree_witness :
  exists c,
    accumulate (Counter_init (Some t2021) (Some (t2021 + 2 * 86400)))
               three_requests = Ok c
    /\ counts (table_total (hourly c)) = counts (table_total (daily c))
    /\ counts (table_total (hourly c)) = counts (table_total (monthly c))
    /\ counts (table_total (hourly c)) = counts (table_total (weekdaily c))
    /\ (counts (table_total (hourly c))).1.1 = 3.
Proof.
  destruct (accumulate (Counter_init (Some t2021) (Some (t2021 + 2 * 86400)))
                       three_requests) as [c|e] eqn:Hacc.
  - exists c. split; [reflexivity|].
    destruct (table_totals_agree (Some t2021) (Some (t2021 + 2 * 86400))
                three_requests c Hacc) as (H1 & H2 & H3 & H4 & _).
    by split_and!.
  - exfalso. vm_compute in Hacc. discriminate Hacc.
Defined.

(** C9, counterexample for the volume: three requests of 100000, 200000 and
    300000 bytes fall into one hourly bucket but into two daily buckets; the
    hourly total of the volume is 0.6000000000000001, the daily total is
    0.6. *)
Lemma volume_totals_differ :
  exists c,
    accumulate (Counter_init (Some t2021) (Some (t2021 + 2 * 86400)))
               three_requests = Ok c
    /\ (table_total (hourly c)).2 = Float (S754_finite false 5404319552844596 (-53))
    /\ (table_total (daily c)).2 = Float (S754_finite false 5404319552844595 (-53))
    /\ (table_total (hourly c)).2 <> (table_total (daily c)).2.
Proof.
  eexists. split; [vm_compute; reflexivity|].
  split_and!; [vm_compute; reflexivity..|].
  vm_compute. intros [=].
Qed.

(** ** The weekday keys *)

Lemma StronglySorted_filter {A : Type} (R : relation A) (P : A -> Prop)
    `{forall x, Decision (P x)} (l : list A) :
  StronglySorted R l -> StronglySorted R (filter P l).
Proof.
  induction 1 as [|x l _ IH Hx]; [constructor|].
  rewrite filter_cons. destruct (decide (P x)); [|done].
  constructor; [done|].
  apply Forall_forall. intros y [_ Hy]%list_elem_of_filter.
  rewrite Forall_forall in Hx. by apply Hx.
Qed.

Lemma weekdays_list_sorted : StronglySorted String.le weekdays_list.
Proof. apply (bool_decide_unpack _). by vm_compute. Qed.

Lemma weekdays_list_NoDup : NoDup weekdays_list.
Proof. apply (bool_decide_unpack _). by vm_compute. Qed.

Lemma sorted_items_keys {V : Type} (d : gmap string V) :
  StronglySorted String.le (sorted_items d).*1
  /\ NoDup (sorted_items d).*1
  /\ forall k, k ∈ (sorted_items d).*1 <-> is_Some (d !! k).
Proof.
  unfold sorted_items.
  set (R := fun x y : string * V => String.le x.1 y.1).
  assert (Ht : Total R) by (intros x y; apply (total String.le)).
  assert (Htr : Transitive R) by (intros x y z; apply (transitivity (R:=String.le))).
  assert (Hp : (merge_sort R (map_to_list d)).*1 ≡ₚ (map_to_list d).*1)
    by (apply fmap_Permutation, merge_sort_Permutation).
  split_and!.
  - apply (StronglySorted_fmap _ R); [done|].
    by apply StronglySorted_merge_sort.
  - rewrite Hp. apply NoDup_fst_map_to_list.
  - intros k. rewrite Hp, list_elem_of_fmap. split.
    + intros ([k' v] & -> & Hkv). apply elem_of_map_to_list in Hkv. by eexists.
    + intros [v Hv]. exists (k, v). split; [done|]. by apply elem_of_map_to_list.
Qed.

(** Sorting the keys of any mapping whose keys are weekday keys lists them
    in the order of [weekdays_list]. *)
Lemma sorted_weekday_keys {V : Type} (d : gmap string V) :
  (forall k, is_Some (d !! k) -> k ∈ weekdays_list) ->
  (sorted_items d).*1 `sublist_of` weekdays_list.
Proof.
  intros Hk. destruct (sorted_items_keys d) as (Hs & Hn & He).
  set (l := (sorted_items d).*1) in *.
  assert (Hl : l = filter (fun k => k ∈ l) weekdays_list).
  { apply (StronglySorted_unique String.le); [done| |].
    - apply StronglySorted_filter, weekdays_list_sorted.
    - apply NoDup_Permutation; [done|apply NoDup_filter, weekdays_list_NoDup|].
      intros k. rewrite list_elem_of_filter. split; [|by intros []].
      intros Hin. split; [done|]. by apply Hk, He. }
  rewrite Hl. apply sublist_filter.
Qed.

(** C5: a weekday bucket key of a constructed counter, after any sequence of
    calls, is one of the seven ordinal-prefixed strings "$0Sunday" to
    "$6Saturday"; the keys of the weekday mapping, and of any mapping keyed by
    weekday keys, sorted as plain strings come out in calendar order, Sunday
    to Saturday; each of the seven keys is "$", the weekday's ordinal and the
    weekday's name, and dropping its first two characters, as the table does
    for display, gives back exactly that name. *)
Theorem weekday_keys_sort_in_calendar_order :
  (forall (start end_ : option Time.t) (rs : list ArclinkRequest.t) (c : Counter),
      accumulate (Counter_init start end_) rs = Ok c ->
      (forall k, is_Some (weekdaily c !! k) -> k ∈ weekdays_list)
      /\ (sorted_items (weekdaily c)).*1 `sublist_of` weekdays_list)
  /\ (forall (V : Type) (d : gmap string V),
        (forall k, is_Some (d !! k) -> k ∈ weekdays_list) ->
        (sorted_items d).*1 `sublist_of` weekdays_list)
  /\ weekdays_list
     = ["$0Sunday"; "$1Monday"; "$2Tuesday"; "$3Wednesday"; "$4Thursday";
        "$5Friday"; "$6Saturday"]
  /\ weekdays_list = imap ordinal_key weekday_names
  /\ (forall (i : nat) (name : string),
        weekday_names !! i = Some name ->
        weekdays_list !! i = Some (ordinal_key i name)
        /\ weekday_display (ordinal_key i name) = name)
  /\ weekday_display <$> weekdays_list = weekday_names.
Proof.
  split_and!; [| |done|by vm_compute| |done].
  - intros start end_ rs c Hacc.
    destruct (Counter_init_fresh start end_) as (c0 & Hc0 & Hf).
    rewrite Hc0 in Hacc.
    destruct (accumulate_invariant rs c0 c Hf Hacc) as (_ & Hk & _).
    split; [done|]. by apply sorted_weekday_keys.
  - intros V d. apply sorted_weekday_keys.
  - intros i name Hi.
    assert (Hlt : (i < 7)%nat) by (apply lookup_lt_Some in Hi; cbn in Hi; lia).
    do 7 (destruct i as [|i]; [injection Hi as <-; by vm_compute|]). lia.
Qed.

Lemma weekday_keys_sort_in_calendar_order_witness :
  exists c,
    accumulate (Counter_init (Some t2021) (Some (t2021 + 2 * 86400)))
               three_requests = Ok c
    /\ (forall k, is_Some (weekdaily c !! k) -> k ∈ weekdays_list)
    /\ (sorted_items (weekdaily c)).*1 `sublist_of` weekdays_list
    /\ (sorted_items (weekdaily c)).*1 = ["$5Friday"; "$6Saturday"].
Proof.
  destruct (accumulate (Counter_init (Some t2021) (Some (t2021 + 2 * 86400)))
                       three_requests) as [c|e] eqn:Hacc.
  - exists c. split; [reflexivity|].
    destruct (proj1 weekday_keys_sort_in_calendar_order
                (Some t2021) (Some (t2021 + 2 * 86400)) three_requests c Hacc)
      as [H1 H2].
    split_and!; [done..|].
    vm_compute in Hacc. injection Hacc as <-. vm_compute. reflexivity.
  - exfalso. vm_compute in Hacc. discriminate Hacc.
Defined.

(** ** The request summary: bytes per volume and per station *)

Lemma summary_status_line_volumes (user : string) (a : Summary.t)
    (sline : ArclinkStatusLine.t) :
  let volume := ArclinkStatusLine.volumeID sline in
  let err := if String.eqb (ArclinkStatusLine.status sline) "OK" then 0 else 1 in
  let size := if String.eqb (ArclinkStatusLine.status sline) "ERROR" then 0
              else ArclinkStatusLine.size sline in
  let '(count, error, s) := default (0, 0, 0) (Summary.volumes a !! volume) in
  Summary.volumes (summary_status_line user a sline)
  = <[volume := (count + 1, error + err, s + size)]> (Summary.volumes a)
  /\ Summary.volume_error (summary_status_line user a sline)
     = <[volume := String.eqb (ArclinkStatusLine.status sline) "ERROR"]>
         (Summary.volume_error a)
  /\ Summary.streams (summary_status_line user a sline) = Summary.streams a.
Proof.
  cbn zeta. unfold summary_status_line, setdefault.
  destruct (Summary.volumes a !! ArclinkStatusLine.volumeID sline)
    as [[[count error] s]|];
    destruct (Summary.users a !! user) as [[[[? ?] ?] ?]|];
    destruct (String.eqb (ArclinkStatusLine.status sline) "ERROR");
    cbn; by rewrite ?insert_insert_eq.
Qed.

Lemma last_status_line_snoc (slines : list ArclinkStatusLine.t)
    (sline : ArclinkStatusLine.t) (volume : string) :
  last_status_line (slines ++ [sline]) volume
  = if decide (ArclinkStatusLine.volumeID sline = volume) then Some sline
    else last_status_line slines volume.
Proof.
  unfold last_status_line. rewrite filter_app, filter_cons, filter_nil.
  case_decide; [by rewrite last_snoc|by rewrite app_nil_r].
Qed.

(** After the status-line loop of a request, the flag of a volume is decided
    by the last status line that carries the volume. *)
Lemma volume_error_after_status_lines (user : string)
    (slines : list ArclinkStatusLine.t) (a : Summary.t) (volume : string) :
  Summary.volume_error (foldl (summary_status_line user) a slines) !! volume
  = match last_status_line slines volume with
    | Some sl => Some (String.eqb (ArclinkStatusLine.status sl) "ERROR")
    | None => Summary.volume_error a !! volume
    end.
Proof.
  induction slines as [|sline slines IH] using rev_ind; [done|].
  rewrite foldl_app, last_status_line_snoc. cbn [foldl].
  pose proof (summary_status_line_volumes user
                (foldl (summary_status_line user) a slines) sline) as H.
  cbn zeta in H. destruct (default _ _) as [[? ?] ?].
  destruct H as (_ & -> & _). rewrite lookup_insert.
  by case_decide.
Qed.

Lemma line_size_value (volume_error : gmap string bool)
    (line : ArclinkRequestLine.t) :
  let st := ArclinkRequestLine.status line in
  line_size volume_error line
  = Ok (if String.eqb (ArclinkStatusLine.status st) "ERROR" then 0
        else if String.eqb (ArclinkStatusLine.status st) "NODATA" then 0
        else match volume_error !! ArclinkStatusLine.volumeID st with
             | Some true => 0
             | _ => ArclinkStatusLine.size st
             end).
Proof.
  cbn zeta. unfold line_size, dict_getitem.
  destruct (String.eqb _ "ERROR"); [done|].
  destruct (String.eqb _ "NODATA"); [done|].
  by destruct (volume_error !! _) as [[]|].
Qed.

Lemma summary_request_line_ok (a : Summary.t) (line : ArclinkRequestLine.t)
    (key : string) (size : Z) :
  net_key line = Ok key ->
  line_size (Summary.volume_error a) line = Ok size ->
  exists a',
    summary_request_line a line = Ok a'
    /\ station_bytes a' (stream_of line) = station_bytes a (stream_of line) + size
    /\ (forall k, k <> stream_of line ->
                  Summary.streams a' !! k = Summary.streams a !! k)
    /\ is_Some (Summary.netcounts a' !! key)
    /\ (forall k, is_Some (Summary.netcounts a !! k) ->
                  is_Some (Summary.netcounts a' !! k))
    /\ Summary.volume_error a' = Summary.volume_error a
    /\ Summary.volumes a' = Summary.volumes a
    /\ Summary.nets a' = Summary.nets a
    /\ Summary.errors a' = Summary.errors a.
Proof.
  intros Hk Hs. unfold summary_request_line. rewrite Hs, Hk.
  cbn [mbind result_bind]. unfold setdefault, station_bytes.
  fold (stream_of line).
  destruct (Summary.streams a !! stream_of line) as [[[[[l n] e] s] tw]|] eqn:Hst;
    destruct (Summary.netcounts a !! key) as [[[[l' n'] e'] s']|] eqn:Hnc;
    eexists; (split; [reflexivity|]); cbn [Summary.streams Summary.netcounts
      Summary.volume_error Summary.volumes Summary.nets Summary.errors];
    rewrite ?insert_insert_eq, ?lookup_insert_eq, ?Hst;
    cbn [default from_option id fst snd];
    (split_and!;
     [lia
     |intros k Hne; by rewrite lookup_insert_ne
     |by eauto
     |intros k Hin; rewrite lookup_insert; by case_decide
     |done..]).
Qed.

Lemma summary_request_line_raise (a : Summary.t) (line : ArclinkRequestLine.t) :
  WaveformStreamID.networkCode (ArclinkRequestLine.streamID line) = "" ->
  summary_request_line a line = Raise IndexError.
Proof.
  intros Hn. unfold summary_request_line, net_key. rewrite Hn.
  pose proof (line_size_value (Summary.volume_error a) line) as Hs.
  cbn zeta in Hs. rewrite Hs. cbn [mbind result_bind].
  unfold setdefault. by destruct (Summary.streams a !! _) as [[[[[? ?] ?] ?] ?]|].
Qed.

(** ** The request summary: the network rollup *)

Lemma net_key_value (line : ArclinkRequestLine.t) (c : ascii) (rest : string) :
  let netcode := WaveformStreamID.networkCode (ArclinkRequestLine.streamID line) in
  netcode = String c rest ->
  net_key line
  = Ok (if Ascii.eqb c "X" || Ascii.eqb c "Y" || Ascii.eqb c "Z"
        then netcode +:+ "/" +:+ dec (Time.year (ArclinkRequestLine.start line))
        else netcode).
Proof.
  cbn zeta. intros Hn. unfold net_key. rewrite Hn. cbn [first_in_XYZ mbind result_bind].
  rewrite toString_year. by destruct (_ || _ || _).
Qed.

Lemma net_key_empty (line : ArclinkRequestLine.t) :
  WaveformStreamID.networkCode (ArclinkRequestLine.streamID line) = "" ->
  net_key line = Raise IndexError.
Proof. intros Hn. unfold net_key. by rewrite Hn. Qed.

(** A request adds one to the request count of every network key that one
    of its lines was counted under, and touches no other entry. *)
Lemma merge_netcounts_lookup (netcounts : gmap string (Z * Z * Z * Z))
    (nets : gmap string (Z * Z * Z * Z * Z)) (key : string) :
  merge_netcounts netcounts nets !! key
  = match netcounts !! key with
    | Some (lineCount, nodataCount, errorCount, size) =>
      let '(count, lines, nodata, error, s) :=
        default (0, 0, 0, 0, 0) (nets !! key) in
      Some (count + 1, lines + lineCount, nodata + nodataCount,
            error + errorCount, s + size)
    | None => nets !! key
    end.
Proof.
  unfold merge_netcounts. revert key.
  apply (map_fold_weak_ind (fun r m => forall key,
    r !! key = match m !! key with
               | Some (lineCount, nodataCount, errorCount, size) =>
                 let '(count, lines, nodata, error, s) :=
                   default (0, 0, 0, 0, 0) (nets !! key) in
                 Some (count + 1, lines + lineCount, nodata + nodataCount,
                       error + errorCount, s + size)
               | None => nets !! key
               end)).
  - intros key. by rewrite lookup_empty.
  - intros i [[[lc nc] ec] sz] m r Hi IH key.
    pose proof (IH i) as Hri. rewrite Hi in Hri.
    unfold setdefault. rewrite Hri.
    destruct (decide (i = key)) as [<-|Hne].
    + destruct (nets !! i) as [[[[[c l] n] e] s]|]; cbn;
        by rewrite ?insert_insert_eq, !lookup_insert_eq.
    + rewrite (lookup_insert_ne m) by done. rewrite <- IH.
      destruct (nets !! i) as [[[[[c l] n] e] s]|]; cbn;
        by rewrite ?insert_insert_eq, lookup_insert_ne.
Qed.

(** C8: a request line whose network code starts with 'X', 'Y' or 'Z' is
    keyed by the code, "/" and the year of the line's start time; a line whose
    code starts with any other character is keyed by the bare code; a line
    that the rollup loop accepts is counted under that key, and the request
    then adds one to the request count of the key in the network rollup.  In
    the scenario of the specification (request 1 on "IU" without error,
    request 2 on "XX" starting in 2021 with two failed lines) the network
    rollup has exactly the keys "IU" and "XX/2021", each with request count
    1, and the error table maps request 2 to 2. *)
Theorem temporary_networks_keyed_by_year :
  (forall (line : ArclinkRequestLine.t) (c : ascii) (rest : string),
      let netcode := WaveformStreamID.networkCode (ArclinkRequestLine.streamID line) in
      netcode = String c rest ->
      ((c = "X" \/ c = "Y" \/ c = "Z")%char ->
         net_key line
         = Ok (netcode +:+ "/" +:+ dec (Time.year (ArclinkRequestLine.start line)))
         /\ Time.toString "%Y" (ArclinkRequestLine.start line)
            = dec (Time.year (ArclinkRequestLine.start line)))
      /\ ((c <> "X" /\ c <> "Y" /\ c <> "Z")%char -> net_key line = Ok netcode))
  /\ (forall (a a' : Summary.t) (line : ArclinkRequestLine.t),
        summary_request_line a line = Ok a' ->
        exists key,
          net_key line = Ok key
          /\ is_Some (Summary.netcounts a' !! key)
          /\ forall nets,
               (default (0, 0, 0, 0, 0)
                  (merge_netcounts (Summary.netcounts a') nets !! key)).1.1.1.1
               = (default (0, 0, 0, 0, 0) (nets !! key)).1.1.1.1 + 1)
  /\ exists a,
       printRequestSummary [] loaded_query t2021 (t2021 + 2 * 86400)
                           scenario_requests = Ok a
       /\ Summary.nets a !! "IU" = Some (1, 1, 0, 0, 512)
       /\ Summary.nets a !! "XX/2021" = Some (1, 2, 0, 2, 0)
       /\ (forall k, is_Some (Summary.nets a !! k) <-> k = "IU" \/ k = "XX/2021")
       /\ Summary.errors a = {[ "2" := 2 ]}.
Proof.
  split_and!.
  - intros line c rest netcode Hn.
    pose proof (net_key_value line c rest Hn) as Hk. fold netcode in Hk.
    split.
    + intros Hc. split; [|apply toString_year]. rewrite Hk.
      by destruct Hc as [->|[->| ->]].
    + intros (Hx & Hy & Hz). rewrite Hk.
      apply Ascii.eqb_neq in Hx, Hy, Hz. by rewrite Hx, Hy, Hz.
  - intros a a' line Ha.
    destruct (WaveformStreamID.networkCode (ArclinkRequestLine.streamID line))
      as [|c rest] eqn:Hn.
    { by rewrite summary_request_line_raise in Ha. }
    pose proof (net_key_value line c rest Hn) as Hk. cbn zeta in Hk.
    pose proof (line_size_value (Summary.volume_error a) line) as Hs. cbn zeta in Hs.
    destruct (summary_request_line_ok a line _ _ Hk Hs) as (a'' & Ha'' & _ & _ & Hin & _).
    rewrite Ha in Ha''. injection Ha'' as <-.
    eexists. split; [exact Hk|]. split; [done|].
    intros nets. rewrite merge_netcounts_lookup.
    destruct Hin as [[[[lc nc] ec] sz] ->].
    by destruct (default _ (nets !! _)) as [[[[count l] n] e] s].
  - eexists. split; [vm_compute; reflexivity|].
    split_and!; [done..| |done].
    intros k. split.
    + intros [v Hv]. apply elem_of_map_to_list in Hv.
      vm_compute in Hv. apply list_elem_of_In in Hv.
      destruct Hv as [[= <- _]|[[= <- _]|[]]]; auto.
    + by intros [->| ->].
Qed.

Lemma temporary_networks_keyed_by_year_witness :
  net_key temporary_line = Ok "XX/2021"
  /\ net_key delivered_line = Ok "GE".
Proof.
  destruct temporary_networks_keyed_by_year as (Hk & _).
  destruct (Hk temporary_line "X"%char "X" eq_refl) as [Hx _].
  destruct (Hk delivered_line "G"%char "E" eq_refl) as [_ Hg].
  destruct Hx as [Hx _]; [by left|]. split; [by rewrite Hx|by apply Hg].
Defined.

(** ** The derived summary: the arithmetic of lines 1499-1502 *)

Lemma averageTimeWindow_no_line : averageTimeWindow_of 0 0 = Int 0.
Proof. reflexivity. Qed.

Lemma averageTimeWindow_mean (tw lineCount : Z) :
  0 < lineCount ->
  averageTimeWindow_of tw lineCount
  = if num_gt (Float (PyFloat.int_truediv tw lineCount)) (Int (2 ^ 32))
    then Int (-1) else Float (PyFloat.int_truediv tw lineCount).
Proof.
  intros H. unfold averageTimeWindow_of.
  by replace (lineCount >? 0) with true by lia.
Qed.

(** The guard of line 1502 lets a mean of exactly 2^32 pass. *)
Lemma averageTimeWindow_guard :
  averageTimeWindow_of (2 ^ 32) 1 = Float (PyFloat.of_int (2 ^ 32)).
Proof. by vm_compute. Qed.

(** ** Selection: how an iteration ends, in the terms of the criteria *)

Lemma and_ne_false (x : option string) (s : string) :
  and_ne x s = false <-> forall y, x = Some y -> y <> "" -> s = y.
Proof.
  unfold and_ne, truthy. destruct x as [y|]; [|by split].
  destruct (String.eqb_spec y "") as [Hy|Hy], (String.eqb_spec y s) as [Hs|Hs];
    cbn; split; try done.
  - intros _ z [= <-] ?. done.
  - intros _ z [= <-] ?. done.
  - intros _ z [= <-] ?. done.
  - intros H. exfalso. apply Hs. symmetry. by apply H.
Qed.

Lemma message_ne_false (x : option string) (s : string) :
  message_ne x s = false <-> forall y, x = Some y -> y <> "" -> s = replace_pct20 y.
Proof.
  unfold message_ne, truthy. destruct x as [y|]; [|by split].
  destruct (String.eqb_spec y "") as [Hy|Hy],
           (String.eqb_spec (replace_pct20 y) s) as [Hs|Hs];
    cbn; split; try done.
  - intros _ z [= <-] ?. done.
  - intros _ z [= <-] ?. done.
  - intros _ z [= <-] ?. done.
  - intros H. exfalso. apply Hs. symmetry. by apply H.
Qed.

Lemma status_line_kept_meets (v : selection_vars) (sline : ArclinkStatusLine.t) :
  status_line_kept v sline = true <-> meets_status_criteria v sline.
Proof.
  unfold status_line_kept, meets_status_criteria, only_errors_ok.
  rewrite <- and_ne_false, <- message_ne_false.
  destruct (and_ne _ _), (message_ne _ _); try (split; [done|by intros (?&?&?)]).
  destruct (truthy (onlyErrors v)); cbn [andb].
  - destruct (String.eqb_spec (ArclinkStatusLine.status sline) "OK").
    + split; [done|]. intros (_ & _ & H). by destruct H.
    + by split.
  - by split.
Qed.

Lemma select_request_ends (q : DatabaseQuery) (v : selection_vars)
    (request : ArclinkRequest.t) :
  select_request q v request
  = if aborts q v request then Raise NameError
    else if accepted q v request then Ok (Some (ArclinkRequest.copy request))
    else Ok None.
Proof.
  rewrite select_request_outcome. unfold aborts, accepted.
  by destruct (passes_gates q v request), (reaches_DataModel q v request),
    (found_request v request).
Qed.

(** X3: a projection that the selection emits holds no line.  Whenever an
    iteration accepts a request, what it passes on is the copy of the
    request's attributes and stored summary, without any status line or
    request line; and the request was accepted with no status line meeting
    the criteria, with lines not set and restricted not given, on
    [foundRequest] alone. *)
Theorem projections_hold_no_line :
  forall (q : DatabaseQuery) (v : selection_vars) (request X : ArclinkRequest.t),
    select_request q v request = Ok (Some X) ->
    X = ArclinkRequest.copy request
    /\ ArclinkRequest.statusLines X = []
    /\ ArclinkRequest.requestLines X = []
    /\ ArclinkRequest.summary X = ArclinkRequest.summary request
    /\ (forall sline,
          sline ∈ ArclinkRequest.statusLines (loadArclinkStatusLines q request) ->
          ~ meets_status_criteria v sline)
    /\ truthy (lines_ v) = false /\ restricted v = None
    /\ found_request v request = true.
Proof.
  intros q v request X. rewrite select_request_outcome.
  destruct (passes_gates q v request); cbn [negb]; [|done].
  destruct (reaches_DataModel q v request) eqn:Hr; [done|].
  destruct (found_request v request); [|done]. intros [= <-].
  apply reaches_DataModel_spec in Hr as (Hs & Hl & Hre).
  split_and!; try done.
  intros sline Hin Hm. apply status_line_kept_meets in Hm.
  by rewrite (Hs _ Hin) in Hm.
Qed.

Lemma projections_hold_no_line_witness :
  exists X,
    select_request loaded_query only_errors_selection denied_request = Ok (Some X)
    /\ ArclinkRequest.statusLines X = []
    /\ ArclinkRequest.requestLines X = []
    /\ ArclinkRequest.summary X = ArclinkRequest.summary denied_request.
Proof.
  assert (H : select_request loaded_query only_errors_selection denied_request
              = Ok (Some (ArclinkRequest.copy denied_request)))
    by (by vm_compute).
  exists (ArclinkRequest.copy denied_request). split; [exact H|].
  destruct (projections_hold_no_line loaded_query only_errors_selection
              denied_request (ArclinkRequest.copy denied_request) H)
    as (_ & H1 & H2 & H3 & _).
  by split_and!.
Defined.

(** X4: an iteration of the selection raises no exception but [NameError],
    and it raises it exactly when the request passes the userIP and clientIP
    checks, is not one without status line under a volume filter, and
    either one of its status lines meets the volume, message and onlyErrors
    criteria, or lines is set, or restricted is given. *)
Theorem selection_raises_NameError :
  forall (q : DatabaseQuery) (v : selection_vars) (request : ArclinkRequest.t)
         (e : exn),
    let loaded := loadArclinkStatusLines q request in
    select_request q v request = Raise e <->
      e = NameError
      /\ (userIP v = None \/ userIP v = Some (ArclinkRequest.userIP request))
      /\ (clientIP v = None \/ clientIP v = Some (ArclinkRequest.clientIP request))
      /\ ~ (truthy (volume v) = true /\ ArclinkRequest.statusLines loaded = [])
      /\ ((exists sline, sline ∈ ArclinkRequest.statusLines loaded
                         /\ meets_status_criteria v sline)
          \/ truthy (lines_ v) = true \/ is_Some (restricted v)).
Proof.
  intros q v request e loaded. rewrite select_request_outcome.
  pose proof (passes_gates_spec q v request) as Hg. fold loaded in Hg.
  assert (Hr : reaches_DataModel q v request = true <->
    ((exists sline, sline ∈ ArclinkRequest.statusLines loaded
                    /\ meets_status_criteria v sline)
     \/ truthy (lines_ v) = true \/ is_Some (restricted v))).
  { unfold reaches_DataModel, lines_examined.
    rewrite !orb_true_iff, bool_decide_eq_true, existsb_elem_of.
    by setoid_rewrite status_line_kept_meets. }
  destruct (passes_gates q v request); cbn [negb].
  - destruct (reaches_DataModel q v request).
    + split.
      * intros [= <-]. destruct (proj1 Hg eq_refl) as (? & ? & ?).
        split_and!; [done..|]. by apply Hr.
      * by intros (-> & _).
    + split; [by destruct (found_request v request)|].
      intros (_ & _ & _ & _ & H). by apply Hr in H.
  - split; [done|]. intros (_ & H1 & H2 & H3 & _).
    by assert (false = true) by (apply Hg; by split_and!).
Qed.

(** ** Selection: the whole loop *)

Lemma parsed_times_bind {S A : Type} (now : Z * Z * Z) (args : gmap string string)
    (k : result A) :
  (startTime ← call_str2date now (default "2020-04-01" (args !! "startTime"));
   endTime ← call_str2date now (default "2020-04-02" (args !! "endTime"));
   k)
  = (_ ← parsed_times now args; k).
Proof.
  unfold parsed_times.
  destruct (call_str2date now (default "2020-04-01" (args !! "startTime")));
    [|done].
  cbn [mbind result_bind].
  by destruct (call_str2date now (default "2020-04-02" (args !! "endTime"))).
Qed.

Lemma selection_loop_list {S : Type} (q : DatabaseQuery) (v : selection_vars)
    (st : S) (requests : list ArclinkRequest.t) :
  forall acc : list ArclinkRequest.t,
    foldl (fun acc request =>
             '(selection, st) ← acc;
             Xrequest ← select_request q v request;
             match Xrequest with
             | Some Xrequest => Ok (selection ++ [Xrequest], st)
             | None => Ok (selection, st)
             end) (Ok (acc, st)) requests
    = if existsb (aborts q v) requests then Raise NameError
      else Ok (acc ++ (ArclinkRequest.copy
                         <$> filter (fun r => accepted q v r = true) requests), st).
Proof.
  induction requests as [|r requests IH]; intros acc.
  - cbn. by rewrite app_nil_r.
  - cbn [foldl existsb]. cbn [mbind result_bind].
    rewrite select_request_ends, filter_cons.
    destruct (aborts q v r); cbn [orb mbind result_bind].
    + clear IH. by induction requests.
    + destruct (accepted q v r); cbn [mbind result_bind].
      * rewrite IH, decide_True by done. rewrite fmap_cons.
        by rewrite <- app_assoc.
      * by rewrite IH, decide_False by done.
Qed.

Lemma call_all_Raise {S : Type} (cb : S -> ArclinkRequest.t -> result S) (e : exn)
    (rs : list ArclinkRequest.t) :
  foldl (fun st r => st ← st; cb st r) (Raise e) rs = Raise e.
Proof. by induction rs. Qed.

Lemma selection_loop_callback {S : Type} (q : DatabaseQuery) (v : selection_vars)
    (cb : S -> ArclinkRequest.t -> result S) (requests : list ArclinkRequest.t) :
  forall st : S,
    foldl (fun acc request =>
             '(selection, st) ← acc;
             Xrequest ← select_request q v request;
             match Xrequest with
             | Some Xrequest => st ← cb st Xrequest; Ok (selection, st)
             | None => Ok (selection, st)
             end) (Ok ([], st)) requests
    = (st ← call_all cb st
              (ArclinkRequest.copy
                 <$> filter (fun r => accepted q v r = true)
                            (before_abort q v requests));
       if existsb (aborts q v) requests then Raise NameError
       else Ok (([] : list ArclinkRequest.t), st)).
Proof.
  unfold call_all.
  induction requests as [|r requests IH]; intros st; [done|].
  cbn [foldl existsb before_abort]. cbn [mbind result_bind].
  rewrite select_request_ends.
  destruct (aborts q v r); cbn [orb mbind result_bind].
  - cbn. clear IH. by induction requests.
  - rewrite filter_cons.
    destruct (accepted q v r); cbn [mbind result_bind].
    + rewrite decide_True by done. rewrite fmap_cons. cbn [foldl].
      cbn [mbind result_bind].
      destruct (cb st (ArclinkRequest.copy r)) as [st'|e]; cbn [mbind result_bind].
      * apply IH.
      * rewrite (call_all_Raise cb). cbn [mbind result_bind].
        clear IH. induction requests as [|r' requests IH]; [done|].
        cbn [foldl]. cbn [mbind result_bind]. apply IH.
    + rewrite decide_False by done. apply IH.
Qed.

(** ** Selection: list mode and callback mode *)

Lemma loadRequests_without_callback :
  forall (S : Type) (now : Z * Z * Z) (q : DatabaseQuery)
         (query : list ArclinkRequest.t) (args : gmap string string) (st : S),
    loadRequests now q query args None st
    = (_ ← parsed_times now args;
       if negb (any_criterion args) then Ok (Some (finished query), st)
       else if existsb (aborts q (read_selection args)) (finished query)
       then Raise NameError
       else Ok (Some (ArclinkRequest.copy
                        <$> filter (fun r => accepted q (read_selection args) r = true)
                                   (finished query)), st)).
Proof.
  intros S now q query args st. unfold loadRequests.
  rewrite (parsed_times_bind (S := S)). fold (finished query).
  rewrite bool_decide_false by (by intros [? [=]]). rewrite orb_false_r.
  fold (any_criterion args).
  destruct (parsed_times now args); [|done]. cbn [mbind result_bind].
  destruct (any_criterion args); cbn [negb]; [|done].
  rewrite selection_loop_list.
  by destruct (existsb _ _).
Qed.

Lemma loadRequests_with_callback :
  forall (S : Type) (now : Z * Z * Z) (q : DatabaseQuery)
         (query : list ArclinkRequest.t) (args : gmap string string)
         (cb : S -> ArclinkRequest.t -> result S) (st : S),
    let v := read_selection args in
    loadRequests now q query args (Some cb) st
    = (_ ← parsed_times now args;
       st ← call_all cb st
              (ArclinkRequest.copy
                 <$> filter (fun r => accepted q v r = true)
                            (before_abort q v (finished query)));
       if existsb (aborts q v) (finished query) then Raise NameError
       else Ok (None, st)).
Proof.
  intros S now q query args cb st v. unfold loadRequests.
  rewrite (parsed_times_bind (S := S)). fold (finished query).
  rewrite bool_decide_true by (by eexists). rewrite orb_true_r. cbn [negb].
  destruct (parsed_times now args); [|done]. cbn [mbind result_bind].
  fold v. rewrite selection_loop_callback.
  destruct (call_all cb st _); [|done]. cbn [mbind result_bind].
  by destruct (existsb _ _).
Qed.

(** X1: what [loadRequests] does without a callback.  It first reads the
    arguments startTime and endTime (by default 2020-04-01 and 2020-04-02)
    with [str2date] and fails as [str2date] does.  With none of the seven
    criteria set it then returns every finished request of the query, in
    order.  Once a criterion is set, it raises [NameError] if the iteration
    of one finished request comes to a use of [DataModel]; otherwise it
    returns the copies, without lines, of the requests it accepts, in the
    order of the query. *)
Theorem loadRequests_list_mode :
  forall (S : Type) (now : Z * Z * Z) (q : DatabaseQuery)
         (query : list ArclinkRequest.t) (args : gmap string string) (st : S),
    loadRequests now q query args None st
    = (_ ← parsed_times now args;
       if negb (any_criterion args) then Ok (Some (finished query), st)
       else if existsb (aborts q (read_selection args)) (finished query)
       then Raise NameError
       else Ok (Some (ArclinkRequest.copy
                        <$> filter (fun r => accepted q (read_selection args) r = true)
                                   (finished query)), st)).
Proof. apply loadRequests_without_callback. Qed.

(** X2: what [loadRequests] does with a callback.  After reading startTime
    and endTime as above, the selection loop runs whether a criterion is set
    or not.  The callback is called on the copies, without lines, of the
    accepted requests that come before the first request whose iteration
    comes to a use of [DataModel], in the order of the query; the first
    exception of the callback ends the loop.  If there is such a request the
    call then raises [NameError]; otherwise it returns [None]. *)
Theorem loadRequests_callback_mode :
  forall (S : Type) (now : Z * Z * Z) (q : DatabaseQuery)
         (query : list ArclinkRequest.t) (args : gmap string string)
         (cb : S -> ArclinkRequest.t -> result S) (st : S),
    let v := read_selection args in
    loadRequests now q query args (Some cb) st
    = (_ ← parsed_times now args;
       st ← call_all cb st
              (ArclinkRequest.copy
                 <$> filter (fun r => accepted q v r = true)
                            (before_abort q v (finished query)));
       if existsb (aborts q v) (finished query) then Raise NameError
       else Ok (None, st)).
Proof. apply loadRequests_with_callback. Qed.

Lemma read_selection_plain (args : gmap string string) :
  let v := read_selection args in
  onlyErrors v = args !! "onlyErrors" /\ lines_ v = args !! "lines"
  /\ volume v = args !! "volume" /\ message v = args !! "message"
  /\ (restricted_arg args = None -> restricted v = None)
  /\ (args !! "restricted" = Some "yes" -> restricted v = Some true)
  /\ (args !! "restricted" = Some "no" -> restricted v = Some false).
Proof.
  unfold read_selection, restricted_arg.
  destruct (match split "." _ with [net; sta; loc; cha] => _ | _ => _ end)
    as [[[net sta] loc] cha].
  cbn. split_and!; try done; by intros ->.
Qed.

(** X5: asking for lines never yields a request.  When the argument lines
    is set, or restricted is "yes" or "no", [loadRequests] without a callback
    returns only if no finished request of the query passes the userIP and
    clientIP checks and the test of line 1456, and it then returns the empty
    list; if one passes, the call raises [NameError]. *)
Theorem lines_are_never_returned :
  forall (S : Type) (now : Z * Z * Z) (q : DatabaseQuery)
         (query : list ArclinkRequest.t) (args : gmap string string) (st : S),
    truthy (args !! "lines") = true \/ args !! "restricted" = Some "yes"
    \/ args !! "restricted" = Some "no" ->
    loadRequests now q query args None st
    = (_ ← parsed_times now args;
       if existsb (passes_gates q (read_selection args)) (finished query)
       then Raise NameError
       else Ok (Some [], st)).
Proof.
  intros S now q query args st Hl. rewrite loadRequests_without_callback.
  destruct (read_selection_plain args) as (_ & El & _ & _ & _ & Ey & En).
  assert (Hex : lines_examined (read_selection args) = true).
  { unfold lines_examined. destruct Hl as [Hl|[Hl|Hl]].
    - by rewrite El, Hl.
    - rewrite (Ey Hl), bool_decide_true by (by eexists). apply orb_true_r.
    - rewrite (En Hl), bool_decide_true by (by eexists). apply orb_true_r. }
  assert (Hc : any_criterion args = true).
  { unfold any_criterion, restricted_arg.
    destruct Hl as [Hl|[Hl|Hl]]; rewrite Hl; cbn; by rewrite ?orb_true_r. }
  rewrite Hc. cbn [negb].
  destruct (parsed_times now args); [|done]. cbn [mbind result_bind].
  assert (Ha : forall r, aborts q (read_selection args) r
                         = passes_gates q (read_selection args) r).
  { intros r. unfold aborts, reaches_DataModel. rewrite Hex.
    by rewrite orb_true_r, andb_true_r. }
  assert (Hacc : forall r, accepted q (read_selection args) r = false).
  { intros r. unfold accepted, reaches_DataModel. rewrite Hex.
    by rewrite orb_true_r, andb_false_r. }
  assert (He : existsb (aborts q (read_selection args)) (finished query)
               = existsb (passes_gates q (read_selection args)) (finished query)).
  { induction (finished query) as [|r l IH]; [done|]. cbn. by rewrite Ha, IH. }
  rewrite He.
  destruct (existsb (passes_gates q (read_selection args)) (finished query));
    [reflexivity|].
  do 3 f_equal. clear He.
  induction (finished query) as [|r l IH]; [reflexivity|].
  rewrite filter_cons, decide_False; [exact IH|]. by rewrite Hacc.
Qed.

Lemma lines_are_never_returned_witness :
  loadRequests (2026, 11, 3) loaded_query [long_window_request]
    {[ "lines" := "yes" ]} None tt
  = Raise NameError.
Proof.
  rewrite (lines_are_never_returned unit (2026, 11, 3) loaded_query
             [long_window_request] {[ "lines" := "yes" ]} tt); [|by left].
  by vm_compute.
Defined.

(** ** Counter: what a bucket holds after a sequence of calls *)

Lemma sum3_cons (x : Z * Z * Z) (l : list (Z * Z * Z)) :
  sum3 (x :: l) = add3 x (sum3 l).
Proof. reflexivity. Qed.

Lemma sum3_perm (l1 l2 : list (Z * Z * Z)) : l1 ≡ₚ l2 -> sum3 l1 = sum3 l2.
Proof.
  induction 1 as [|x l1 l2 _ IH|x y l|l1 l2 l3 _ IH1 _ IH2]; rewrite ?sum3_cons.
  - done.
  - by rewrite IH.
  - rewrite !add3_assoc. f_equal. apply add3_comm.
  - by rewrite IH1.
Qed.

Lemma sum3_app (l1 l2 : list (Z * Z * Z)) :
  sum3 (l1 ++ l2) = add3 (sum3 l1) (sum3 l2).
Proof.
  induction l1 as [|x l1 IH]; cbn [app]; rewrite ?sum3_cons.
  - by rewrite add3_zero_l.
  - by rewrite IH, add3_assoc.
Qed.

(** The table a sequence of calls makes of [d], for one of the four keys. *)
Lemma fill_lookup (key : ArclinkRequest.t -> string) (rs : list ArclinkRequest.t) :
  forall (d : gmap string metrics) (k : string),
    bucket_holds (d !! k) (with_key key k rs)
      (foldl (fun d r => add_to_bucket (key r) (lineCount_of r) (reqErrors_of r)
                           (volSize_of r) d) d rs !! k).
Proof.
  induction rs as [|r rs IH]; intros d k.
  - unfold bucket_holds, with_key. rewrite filter_nil. cbn [fmap list_fmap foldl].
    split_and!; [|destruct (default zero_metrics (d !! k)) as [[[a b] c] s];
                   unfold add3, counts, sum3; cbn; tuple_lia|done].
    split; [by left|]. by intros [?|?].
  - cbn [foldl]. specialize (IH (add_to_bucket (key r) (lineCount_of r) (reqErrors_of r)
                                   (volSize_of r) d) k).
    unfold with_key in *. rewrite filter_cons.
    rewrite add_to_bucket_lookup in IH.
    destruct IH as (H1 & H2 & H3). unfold bucket_holds.
    case_decide as Hk.
    + subst k. rewrite fmap_cons, sum3_cons. cbn [foldl].
      split_and!.
      * rewrite H1. split; [by right|by eauto].
      * rewrite H2. cbn [default].
        destruct (default zero_metrics (d !! key r)) as [[[a b] c] s].
        destruct (sum3 _) as [[x y] z]. unfold add3, counts, request_counts. cbn.
        tuple_lia.
      * rewrite H3. cbn [default].
        by destruct (default zero_metrics (d !! key r)) as [[[a b] c] s].
    + done.
Qed.

Lemma accumulate_tables (rs : list ArclinkRequest.t) :
  forall c0,
    weekdays c0 = weekdays_list ->
    Forall (fun r => is_Some (ArclinkRequest.summary r)) rs ->
    let fill key d :=
      foldl (fun d r => add_to_bucket (key r) (lineCount_of r) (reqErrors_of r)
                          (volSize_of r) d) d rs in
    accumulate (Ok c0) rs
    = Ok (mkCounter (fill hour_key (hourly c0)) (fill day_key (daily c0))
            (fill month_key (monthly c0)) (fill wday_key (weekdaily c0))
            (lines c0) (requests c0) (errors c0) (weekdays c0)).
Proof.
  induction rs as [|r rs IH]; intros c0 Hw Hs; [by destruct c0|].
  apply Forall_cons in Hs as [[s Hr] Hs].
  rewrite accumulate_cons, (Counter_call_ok c0 r s) by done.
  cbn zeta. rewrite IH by done.
  cbn [hourly daily monthly weekdaily lines requests errors weekdays foldl].
  assert (Hl : lineCount_of r = ArclinkRequestSummary.totalLineCount s)
    by (unfold lineCount_of; by rewrite Hr).
  assert (He : reqErrors_of r = ArclinkRequestSummary.totalLineCount s
                                - ArclinkRequestSummary.okLineCount s)
    by (unfold reqErrors_of, ArclinkRequest.get_summary; by rewrite Hr).
  rewrite Hl, He. reflexivity.
Qed.

Lemma accumulate_no_summary (rs : list ArclinkRequest.t) :
  forall c0,
    weekdays c0 = weekdays_list ->
    ~ Forall (fun r => is_Some (ArclinkRequest.summary r)) rs ->
    accumulate (Ok c0) rs = Raise ValueError.
Proof.
  induction rs as [|r rs IH]; intros c0 Hw Hs; [by destruct Hs|].
  rewrite accumulate_cons.
  destruct (ArclinkRequest.summary r) as [s|] eqn:Hr.
  - rewrite (Counter_call_ok c0 r s) by done. apply IH; [done|].
    intros H. apply Hs. constructor; [by rewrite Hr|done].
  - rewrite Counter_call_no_summary by done. apply accumulate_Raise.
Qed.

(** X6: after any sequence of calls on a constructed counter, each bucket of
    each of the four tables holds exactly what the requests with its key
    added to it: the bucket exists if and only if the constructor seeded it
    or some request has its key; its request, line and error counts are the
    sums of (1, totalLineCount, totalLineCount - okLineCount) over those
    requests; its volume is the float sum of their volumes taken in the order
    of the calls. *)
Theorem buckets_hold_their_requests :
  forall (start end_ : option Time.t) (rs : list ArclinkRequest.t) (c : Counter),
    accumulate (Counter_init start end_) rs = Ok c ->
    exists c0,
      Counter_init start end_ = Ok c0
      /\ table_holds (hourly c0) (hourly c) hour_key rs
      /\ table_holds (daily c0) (daily c) day_key rs
      /\ table_holds (monthly c0) (monthly c) month_key rs
      /\ table_holds (weekdaily c0) (weekdaily c) wday_key rs.
Proof.
  intros start end_ rs c Hacc.
  destruct (Counter_init_fresh start end_) as (c0 & Hc0 & Hw & _).
  rewrite Hc0 in Hacc. exists c0. split; [done|].
  destruct (decide (Forall (fun r => is_Some (ArclinkRequest.summary r)) rs))
    as [Hs|Hs]; [|by rewrite accumulate_no_summary in Hacc].
  rewrite accumulate_tables in Hacc by done. injection Hacc as <-.
  cbn [hourly daily monthly weekdaily].
  split_and!; intros k; apply fill_lookup.
Qed.

Lemma buckets_hold_their_requests_witness :
  exists c c0,
    accumulate (Counter_init (Some t2021) (Some (t2021 + 2 * 86400)))
               three_requests = Ok c
    /\ Counter_init (Some t2021) (Some (t2021 + 2 * 86400)) = Ok c0
    /\ table_holds (hourly c0) (hourly c) hour_key three_requests
    /\ table_holds (daily c0) (daily c) day_key three_requests
    /\ table_holds (monthly c0) (monthly c) month_key three_requests
    /\ table_holds (weekdaily c0) (weekdaily c) wday_key three_requests.
Proof.
  destruct (accumulate (Counter_init (Some t2021) (Some (t2021 + 2 * 86400)))
                       three_requests) as [c|e] eqn:H; [|by vm_compute in H].
  destruct (buckets_hold_their_requests _ _ _ _ H) as (c0 & H0 & Ht).
  exists c, c0. exact (conj eq_refl (conj H0 Ht)).
Defined.

Lemma bucket_holds_perm (before : option metrics) (rs rs' : list ArclinkRequest.t)
    (after after' : option metrics) :
  rs ≡ₚ rs' ->
  bucket_holds before rs after -> bucket_holds before rs' after' ->
  counts <$> after = counts <$> after'.
Proof.
  intros Hp (H1 & H2 & _) (H1' & H2' & _).
  assert (He : rs <> [] <-> rs' <> []).
  { split; intros Hn ->.
    - by apply Permutation_nil_r in Hp.
    - symmetry in Hp. by apply Permutation_nil_r in Hp. }
  assert (Hi : is_Some after <-> is_Some after') by (rewrite H1, H1'; tauto).
  rewrite <- (sum3_perm _ _ (fmap_Permutation request_counts _ _ Hp)) in H2'.
  rewrite <- H2 in H2'.
  destruct after as [m|], after' as [m'|]; cbn in *.
  - by rewrite H2'.
  - destruct (proj1 Hi) as [? [=]]. by eexists.
  - destruct (proj2 Hi) as [? [=]]. by eexists.
  - done.
Qed.

(** X7: the order of the calls does not matter for the integer metrics:
    counting the same requests in any other order either fails in both
    orders, with the same exception, or leaves in every bucket of every
    table the same request, line and error counts.  (For three or more
    requests the float volumes may differ in the last digit.) *)
Theorem counts_do_not_depend_on_call_order :
  forall (start end_ : option Time.t) (rs rs' : list ArclinkRequest.t),
    rs ≡ₚ rs' ->
    match accumulate (Counter_init start end_) rs,
          accumulate (Counter_init start end_) rs' with
    | Ok c, Ok c' => same_counts c c'
    | Raise e, Raise e' => e = e'
    | _, _ => False
    end.
Proof.
  intros start end_ rs rs' Hp.
  destruct (Counter_init_fresh start end_) as (c0 & -> & Hw & _).
  destruct (decide (Forall (fun r => is_Some (ArclinkRequest.summary r)) rs))
    as [Hs|Hs].
  - assert (Hs' : Forall (fun r => is_Some (ArclinkRequest.summary r)) rs')
      by (by rewrite <- Hp).
    rewrite !accumulate_tables by done.
    intros k. cbn [hourly daily monthly weekdaily].
    split_and!.
    + eapply (bucket_holds_perm _ (with_key hour_key k rs) (with_key hour_key k rs'));
        [|apply fill_lookup..]. unfold with_key. by rewrite Hp.
    + eapply (bucket_holds_perm _ (with_key day_key k rs) (with_key day_key k rs'));
        [|apply fill_lookup..]. unfold with_key. by rewrite Hp.
    + eapply (bucket_holds_perm _ (with_key month_key k rs) (with_key month_key k rs'));
        [|apply fill_lookup..]. unfold with_key. by rewrite Hp.
    + eapply (bucket_holds_perm _ (with_key wday_key k rs) (with_key wday_key k rs'));
        [|apply fill_lookup..]. unfold with_key. by rewrite Hp.
  - assert (Hs' : ~ Forall (fun r => is_Some (ArclinkRequest.summary r)) rs')
      by (by rewrite <- Hp).
    by rewrite !accumulate_no_summary.
Qed.

Lemma counts_do_not_depend_on_call_order_witness :
  match accumulate (Counter_init (Some t2021) (Some (t2021 + 2 * 86400)))
                   three_requests,
        accumulate (Counter_init (Some t2021) (Some (t2021 + 2 * 86400)))
                   (reverse three_requests) with
  | Ok c, Ok c' => same_counts c c'
  | Raise e, Raise e' => e = e'
  | _, _ => False
  end.
Proof.
  apply counts_do_not_depend_on_call_order. symmetry. apply reverse_Permutation.
Defined.

(** ** Counter: the rows of the hourly table *)

Lemma hour_key_preset (request : ArclinkRequest.t) :
  is_Some (hours_preset !! hour_key request).
Proof.
  unfold hour_key. rewrite toString_hour, hours_preset_key by apply hour_range.
  by eexists.
Qed.

Lemma sorted_items_same_keys {V W : Type} (d : gmap string V) (d' : gmap string W) :
  (forall k, is_Some (d !! k) <-> is_Some (d' !! k)) ->
  (sorted_items d).*1 = (sorted_items d').*1.
Proof.
  intros Hk.
  destruct (sorted_items_keys d) as (Hs & Hn & He).
  destruct (sorted_items_keys d') as (Hs' & Hn' & He').
  apply (StronglySorted_unique String.le); [done..|].
  apply NoDup_Permutation; [done..|].
  intros k. by rewrite He, He', Hk.
Qed.

Lemma Counter_init_hours (start end_ : Time.t) :
  exists c0, Counter_init (Some start) (Some end_) = Ok c0
             /\ hourly c0 = hours_preset /\ weekdays c0 = weekdays_list.
Proof.
  destruct (decide (start < end_)) as [Hlt|Hge].
  - eexists. split; [by apply Counter_init_range|done].
  - eexists. split; [apply Counter_init_no_day; lia|done].
Qed.

(** X8: a counter constructed with a start and an end shows the 24 rows "00"
    to "23" in its hourly table, in this order, whatever requests were
    counted afterwards: no call adds or removes an hourly row. *)
Theorem hourly_table_keeps_its_24_rows :
  forall (start end_ : Time.t) (rs : list ArclinkRequest.t) (c : Counter),
    accumulate (Counter_init (Some start) (Some end_)) rs = Ok c ->
    (forall k, is_Some (hourly c !! k) <-> exists h, 0 <= h < 24 /\ k = fmt_02d h)
    /\ size (hourly c) = 24%nat
    /\ (sorted_items (hourly c)).*1
       = ["00"; "01"; "02"; "03"; "04"; "05"; "06"; "07"; "08"; "09"; "10"; "11";
          "12"; "13"; "14"; "15"; "16"; "17"; "18"; "19"; "20"; "21"; "22"; "23"].
Proof.
  intros start end_ rs c Hacc.
  destruct (Counter_init_hours start end_) as (c0 & Hc0 & Hh & Hw).
  rewrite Hc0 in Hacc.
  destruct (decide (Forall (fun r => is_Some (ArclinkRequest.summary r)) rs))
    as [Hs|Hs]; [|by rewrite accumulate_no_summary in Hacc].
  rewrite accumulate_tables in Hacc by done. injection Hacc as <-.
  cbn [hourly]. rewrite Hh.
  assert (Hk : forall k,
    is_Some (foldl (fun d r => add_to_bucket (hour_key r) (lineCount_of r)
                                 (reqErrors_of r) (volSize_of r) d)
                   hours_preset rs !! k)
    <-> is_Some (hours_preset !! k)).
  { intros k. destruct (fill_lookup hour_key rs hours_preset k) as (H1 & _).
    rewrite H1. split; [|by left]. intros [H|H]; [done|].
    destruct (with_key hour_key k rs) as [|r l] eqn:Hl; [done|].
    assert (Hr : r ∈ with_key hour_key k rs) by (rewrite Hl; by left).
    unfold with_key in Hr. apply list_elem_of_filter in Hr as [<- _].
    apply hour_key_preset. }
  split_and!.
  - intros k. rewrite Hk. split.
    + intros [v Hv]. by apply hours_preset_lookup in Hv as [_ ?].
    + intros (h & Hh' & ->). rewrite hours_preset_key by done. by eexists.
  - rewrite <- size_dom.
    replace (dom (foldl (fun d r => add_to_bucket (hour_key r) (lineCount_of r)
                                 (reqErrors_of r) (volSize_of r) d)
                   hours_preset rs)) with (dom hours_preset).
    + rewrite size_dom. by vm_compute.
    + apply set_eq. intros k. rewrite !elem_of_dom. by rewrite Hk.
  - rewrite (sorted_items_same_keys _ hours_preset) by done. by vm_compute.
Qed.

Lemma hourly_table_keeps_its_24_rows_witness :
  exists c,
    accumulate (Counter_init (Some t2021) (Some (t2021 + 2 * 86400)))
               three_requests = Ok c
    /\ (forall k, is_Some (hourly c !! k) <-> exists h, 0 <= h < 24 /\ k = fmt_02d h)
    /\ size (hourly c) = 24%nat
    /\ (sorted_items (hourly c)).*1
       = ["00"; "01"; "02"; "03"; "04"; "05"; "06"; "07"; "08"; "09"; "10"; "11";
          "12"; "13"; "14"; "15"; "16"; "17"; "18"; "19"; "20"; "21"; "22"; "23"].
Proof.
  destruct (accumulate (Counter_init (Some t2021) (Some (t2021 + 2 * 86400)))
                       three_requests) as [c|e] eqn:H; [|by vm_compute in H].
  exists c. split; [done|]. exact (hourly_table_keeps_its_24_rows _ _ _ _ H).
Defined.

(** ** The chart: what its counter is given *)

Lemma fill_total (key : ArclinkRequest.t -> string) (rs : list ArclinkRequest.t) :
  forall d : gmap string metrics,
    sum_counts (map_to_list
      (foldl (fun d r => add_to_bucket (key r) (lineCount_of r) (reqErrors_of r)
                           (volSize_of r) d) d rs))
    = add3 (sum3 (request_counts <$> rs)) (sum_counts (map_to_list d)).
Proof.
  induction rs as [|r rs IH]; intros d; cbn [foldl].
  - by rewrite add3_zero_l.
  - rewrite IH, sum_counts_add_to_bucket, fmap_cons, sum3_cons.
    rewrite !add3_assoc. f_equal. apply add3_comm.
Qed.

Lemma add3_zero_r (a : Z * Z * Z) : add3 a (0, 0, 0) = a.
Proof. by rewrite add3_comm, add3_zero_l. Qed.

Lemma before_abort_all (q : DatabaseQuery) (v : selection_vars)
    (requests : list ArclinkRequest.t) :
  existsb (aborts q v) requests = false -> before_abort q v requests = requests.
Proof.
  induction requests as [|r requests IH]; [done|]. cbn [existsb before_abort].
  destruct (aborts q v r); [done|]. intros H. by rewrite IH.
Qed.

Lemma volSize_of_copy (request : ArclinkRequest.t) :
  volSize_of (ArclinkRequest.copy request) = Float (S754_zero false).
Proof. by vm_compute. Qed.

Lemma request_counts_copy (request : ArclinkRequest.t) :
  request_counts (ArclinkRequest.copy request) = request_counts request.
Proof. done. Qed.

Lemma fill_no_volume (key : ArclinkRequest.t -> string) (rs : list ArclinkRequest.t) :
  forall d : gmap string metrics,
    (forall k m, d !! k = Some m -> no_volume m) ->
    forall k m,
      foldl (fun d r => add_to_bucket (key r) (lineCount_of r) (reqErrors_of r)
                          (volSize_of r) d) d (ArclinkRequest.copy <$> rs) !! k
      = Some m ->
      no_volume m.
Proof.
  induction rs as [|r rs IH]; intros d Hd k m; [apply Hd|].
  rewrite fmap_cons. cbn [foldl]. apply IH. clear k m.
  intros k m. rewrite add_to_bucket_lookup, volSize_of_copy.
  case_decide; [|apply Hd]. intros [= <-].
  destruct (d !! key (ArclinkRequest.copy r)) as [[[[a b] c] s]|] eqn:Hk.
  - cbn. destruct (Hd _ _ Hk) as [Hs|Hs]; cbn in Hs; subst s; by right.
  - by right.
Qed.

Lemma all_zero_no_volume (d : gmap string metrics) :
  all_zero d -> forall k m, d !! k = Some m -> no_volume m.
Proof. intros Hz k m Hk. rewrite (Hz _ _ Hk). by left. Qed.

(** X9: without a criterion the chart counts nothing.  When none of the
    seven criteria is among the arguments, [loadRequests] with a counter as
    its callback, as [wwwChart] calls it, never calls the counter: once
    startTime and endTime are read, it raises [NameError] if a finished
    request of the query has a status line after loading, and otherwise
    returns with the counter as it was. *)
Theorem chart_counts_nothing_without_criterion :
  forall (now : Z * Z * Z) (q : DatabaseQuery) (query : list ArclinkRequest.t)
         (args : gmap string string) (counter : Counter),
    restricted_arg args = None ->
    args !! "onlyErrors" = None -> args !! "lines" = None ->
    args !! "volume" = None -> args !! "message" = None ->
    args !! "userIP" = None -> args !! "clientIP" = None ->
    loadRequests now q query args (Some Counter_call) counter
    = (_ ← parsed_times now args;
       if existsb (fun r =>
                     negb (bool_decide
                             (ArclinkRequest.statusLines (loadArclinkStatusLines q r)
                              = [])))
                  (finished query)
       then Raise NameError
       else Ok (None, counter)).
Proof.
  intros now q query args counter Hr Ho Hl Hv Hm Hu Hc.
  rewrite loadRequests_with_callback. cbv zeta.
  destruct (read_selection_plain args) as (Eo & El & Ev & Em & Er & _).
  specialize (Er Hr).
  pose proof (read_selection_userIP args) as Eu.
  pose proof (read_selection_clientIP args) as Ec.
  rewrite Ho in Eo. rewrite Hl in El. rewrite Hv in Ev. rewrite Hm in Em.
  rewrite Hu in Eu. rewrite Hc in Ec. cbn in Eu, Ec.
  set (v := read_selection args) in *.
  assert (Hkept : forall s, status_line_kept v s = true).
  { intros s. unfold status_line_kept, only_errors_ok. by rewrite Ev, Em, Eo. }
  assert (Hab : forall r,
    aborts q v r
    = negb (bool_decide
              (ArclinkRequest.statusLines (loadArclinkStatusLines q r) = []))).
  { intros r. unfold aborts, passes_gates, reaches_DataModel, lines_examined.
    rewrite Eu, Ec, Ev, El, Er. cbn [ip_ok truthy andb negb orb].
    rewrite bool_decide_false by (by intros [? [=]]). rewrite orb_false_r.
    destruct (ArclinkRequest.statusLines (loadArclinkStatusLines q r)) as [|s l];
      [done|].
    cbn [existsb]. by rewrite Hkept. }
  assert (Hacc : forall r, accepted q v r = false).
  { intros r. unfold accepted, found_request.
    rewrite Eo, El, Ev, Em, Eu, Ec. cbn [truthy andb negb orb].
    rewrite !bool_decide_false by (by intros [? [=]]).
    by rewrite !andb_false_r. }
  assert (Hnone : forall rs,
    filter (fun r => accepted q v r = true) rs = []).
  { intros rs. induction rs as [|r rs IH]; [reflexivity|].
    rewrite filter_cons, decide_False; [exact IH|]. by rewrite Hacc. }
  rewrite Hnone. cbn [fmap list_fmap call_all foldl].
  destruct (parsed_times now args); [|done]. cbn [mbind result_bind].
  assert (He : existsb (aborts q v) (finished query)
               = existsb (fun r =>
                            negb (bool_decide
                                    (ArclinkRequest.statusLines
                                       (loadArclinkStatusLines q r) = [])))
                         (finished query)).
  { induction (finished query) as [|r l IH]; [reflexivity|].
    cbn [existsb]. by rewrite Hab, IH. }
  by rewrite He.
Qed.

Lemma chart_counts_nothing_without_criterion_witness :
  loadRequests (2026, 11, 3) loaded_query [denied_request; request_a] ∅
    (Some Counter_call)
    (mkCounter hours_preset ∅ ∅ ∅ 0 0 0 weekdays_list)
  = Raise NameError.
Proof.
  rewrite (chart_counts_nothing_without_criterion (2026, 11, 3) loaded_query
             [denied_request; request_a] ∅); [|by vm_compute..].
  by vm_compute.
Defined.

(** X10: what the chart can show.  When [loadRequests] returns to
    [wwwChart], which has given it a new counter as callback, no finished
    request has come to a use of [DataModel]; in each of the four tables of
    the counter the totals of the request, line and error columns are the
    sums of (1, totalLineCount, totalLineCount - okLineCount) over the
    accepted requests; and no bucket holds any volume, the copies the counter
    is called on having no status line. *)
Theorem chart_shows_counts_without_volume :
  forall (now : Z * Z * Z) (q : DatabaseQuery) (query : list ArclinkRequest.t)
         (args : gmap string string) (startTime endTime : Time.t)
         (c0 c : Counter),
    Counter_init (Some startTime) (Some endTime) = Ok c0 ->
    loadRequests now q query args (Some Counter_call) c0 = Ok (None, c) ->
    let v := read_selection args in
    let selected := filter (fun r => accepted q v r = true) (finished query) in
    existsb (aborts q v) (finished query) = false
    /\ counts (table_total (hourly c)) = sum3 (request_counts <$> selected)
    /\ counts (table_total (daily c)) = sum3 (request_counts <$> selected)
    /\ counts (table_total (monthly c)) = sum3 (request_counts <$> selected)
    /\ counts (table_total (weekdaily c)) = sum3 (request_counts <$> selected)
    /\ (forall k m,
          hourly c !! k = Some m \/ daily c !! k = Some m
          \/ monthly c !! k = Some m \/ weekdaily c !! k = Some m ->
          no_volume m).
Proof.
  intros now q query args startTime endTime c0 c Hinit Hload v selected.
  destruct (Counter_init_fresh (Some startTime) (Some endTime))
    as (c0' & Hc0 & Hw & Hh & Hd & Hm & Hwd & _).
  rewrite Hinit in Hc0. injection Hc0 as <-.
  rewrite loadRequests_with_callback in Hload. cbv zeta in Hload. fold v in Hload.
  destruct (parsed_times now args); [|done]. cbn [mbind result_bind] in Hload.
  destruct (existsb (aborts q v) (finished query)) eqn:Hab.
  { by destruct (call_all Counter_call c0 _). }
  rewrite before_abort_all in Hload by done. fold selected in Hload.
  assert (Hs : Forall (fun r => is_Some (ArclinkRequest.summary r))
                 (ArclinkRequest.copy <$> selected)).
  { apply Forall_fmap, Forall_forall. intros r Hr.
    apply list_elem_of_filter in Hr as [_ Hr].
    by apply list_elem_of_filter in Hr as [Hr _]. }
  change (call_all Counter_call c0 (ArclinkRequest.copy <$> selected))
    with (accumulate (Ok c0) (ArclinkRequest.copy <$> selected)) in Hload.
  rewrite accumulate_tables in Hload by done.
  cbn [mbind result_bind] in Hload. injection Hload as <-.
  cbn [hourly daily monthly weekdaily].
  split; [done|].
  rewrite !table_total_counts, !fill_total, !sum_counts_all_zero by done.
  rewrite add3_zero_r.
  assert (Hcopy : request_counts <$> (ArclinkRequest.copy <$> selected)
                  = request_counts <$> selected).
  { rewrite <- list_fmap_compose. by apply list_fmap_ext. }
  rewrite Hcopy. split_and!; [done..|].
  intros k m [H|[H|[H|H]]];
    eapply fill_no_volume; try exact H; by apply all_zero_no_volume.
Qed.

Lemma chart_shows_counts_without_volume_witness :
  exists c,
    loadRequests (2026, 11, 3) loaded_query [denied_request]
      {[ "onlyErrors" := "yes" ]} (Some Counter_call)
      (mkCounter hours_preset ∅ ∅ ∅ 0 0 0 weekdays_list)
    = Ok (None, c)
    /\ counts (table_total (hourly c)) = (1, 0, 0)
    /\ counts (table_total (daily c)) = (1, 0, 0).
Proof.
  destruct (loadRequests (2026, 11, 3) loaded_query [denied_request]
              {[ "onlyErrors" := "yes" ]} (Some Counter_call)
              (mkCounter hours_preset ∅ ∅ ∅ 0 0 0 weekdays_list))
    as [[[l|] c]|e] eqn:H; [by vm_compute in H| |by vm_compute in H].
  exists c. split; [done|].
  destruct (chart_shows_counts_without_volume (2026, 11, 3) loaded_query
              [denied_request] {[ "onlyErrors" := "yes" ]} t2021 t2021
              (mkCounter hours_preset ∅ ∅ ∅ 0 0 0 weekdays_list) c)
    as (_ & Hh & Hd & _); [by vm_compute|exact H|].
  split; [exact Hh|exact Hd].
Defined.

(** ** Counter: the pre-seeded weekday buckets *)

Lemma wday_step (t : Time.t) (i : Z) :
  Time.wday (t + 86400 * i) = (Time.wday t + i) mod 7.
Proof. unfold Time.wday. rewrite days_step. Z.div_mod_to_equations. lia. Qed.

Lemma weekday_of_step (t : Time.t) (i : Z) :
  weekday_of (t + 86400 * i) = weekday_of (t + 86400 * (i mod 7)).
Proof.
  unfold weekday_of. rewrite !wday_step. do 3 f_equal.
  Z.div_mod_to_equations. lia.
Qed.

Lemma weekday_of_inj (t1 t2 : Time.t) :
  weekday_of t1 = weekday_of t2 -> Time.wday t1 = Time.wday t2.
Proof.
  unfold weekday_of. intros H.
  pose proof (wday_range t1) as H1. pose proof (wday_range t2) as H2.
  destruct (weekdays_list !! Z.to_nat (Time.wday t1)) as [x|] eqn:E1; cycle 1.
  { apply lookup_ge_None in E1. cbn in E1. lia. }
  destruct (weekdays_list !! Z.to_nat (Time.wday t2)) as [y|] eqn:E2; cycle 1.
  { apply lookup_ge_None in E2. cbn in E2. lia. }
  cbn in H. subst y.
  pose proof (NoDup_lookup _ _ _ _ weekdays_list_NoDup E1 E2). lia.
Qed.

Lemma weekday_seeds (t : Time.t) (n : nat) :
  Z.of_nat (size (zero_buckets (weekday_of <$> day_times t n))) = Z.min 7 (Z.of_nat n).
Proof.
  set (m := Z.to_nat (Z.min 7 (Z.of_nat n))).
  assert (Hdom : dom (zero_buckets (weekday_of <$> day_times t n))
                 = dom (zero_buckets (weekday_of <$> day_times t m))).
  { unfold zero_buckets. rewrite !dom_list_to_map_L. apply set_eq. intros k.
    rewrite !elem_of_list_to_set, <- !list_fmap_compose.
    rewrite !list_elem_of_fmap. setoid_rewrite elem_of_day_times. split.
    - intros (x & -> & i & Hi & ->). exists (t + 86400 * (i mod 7)). split.
      + cbn. apply weekday_of_step.
      + exists (i mod 7). split; [|done]. subst m. Z.div_mod_to_equations. lia.
    - intros (x & -> & i & Hi & ->). exists (t + 86400 * i). split; [done|].
      exists i. split; [|done]. subst m. lia. }
  rewrite <- size_dom, Hdom, size_dom.
  rewrite zero_buckets_size.
  - rewrite length_fmap, day_times_length. subst m. lia.
  - apply NoDup_fmap_2_strong; [|apply (NoDup_fmap_1 (Time.toString "%Y-%m-%d")),
                                  day_times_keys_NoDup].
    intros x y Hx Hy Hxy.
    apply elem_of_day_times in Hx as (i & Hi & ->).
    apply elem_of_day_times in Hy as (j & Hj & ->).
    apply weekday_of_inj in Hxy. rewrite !wday_step in Hxy.
    assert (i = j) by (subst m; Z.div_mod_to_equations; lia). by subst.
Qed.

(** X11: the constructor seeds one weekday bucket per weekday that occurs
    among the days it visits: over a range of n days (n the least number of
    days covering end - start) the weekday table has min(7, n) rows, all at
    zero; from seven days on, every one of the seven weekday keys is
    present. *)
Theorem Counter_init_seeds_the_weekdays :
  forall start end_ : Time.t,
    start < end_ ->
    exists c,
      Counter_init (Some start) (Some end_) = Ok c
      /\ Z.of_nat (size (weekdaily c)) = Z.min 7 ((end_ - start + 86399) / 86400)
      /\ (forall k v, weekdaily c !! k = Some v -> v = zero_metrics /\ k ∈ weekdays_list)
      /\ (6 * 86400 < end_ - start ->
          forall k, k ∈ weekdays_list -> weekdaily c !! k = Some zero_metrics).
Proof.
  intros start end_ Hlt. eexists. split; [by apply Counter_init_range|].
  cbn [weekdaily].
  set (n := Z.to_nat ((end_ - start + 86399) / 86400)).
  assert (Hn : Z.of_nat n = (end_ - start + 86399) / 86400)
    by (subst n; Z.div_mod_to_equations; lia).
  split_and!.
  - by rewrite weekday_seeds, Hn.
  - intros k v Hv. apply zero_buckets_lookup in Hv as [-> Hk]. split; [done|].
    apply list_elem_of_fmap in Hk as (t & -> & _). apply weekday_key_of.
  - intros Hweek k Hk.
    pose proof (weekday_seeds start n) as Hsz.
    assert (H7 : size (zero_buckets (weekday_of <$> day_times start n)) = 7%nat)
      by (rewrite Hn in Hsz; Z.div_mod_to_equations; lia).
    destruct (zero_buckets (weekday_of <$> day_times start n) !! k) as [v|] eqn:Hv.
    { by apply zero_buckets_lookup in Hv as [-> _]. }
    exfalso.
    assert (Hsub : dom (zero_buckets (weekday_of <$> day_times start n))
                   ⊆ list_to_set weekdays_list ∖ {[k]}).
    { intros x Hx. apply elem_of_dom in Hx as [v' Hx].
      apply elem_of_difference. split.
      - apply elem_of_list_to_set. apply zero_buckets_lookup in Hx as [_ Hx].
        apply list_elem_of_fmap in Hx as (t & -> & _). apply weekday_key_of.
      - intros ->%elem_of_singleton. by rewrite Hv in Hx. }
    apply subseteq_size in Hsub. rewrite size_dom, H7 in Hsub.
    rewrite size_difference in Hsub
      by (apply singleton_subseteq_l, elem_of_list_to_set, Hk).
    rewrite size_singleton, size_list_to_set in Hsub by apply weekdays_list_NoDup.
    cbn in Hsub. lia.
Qed.

Lemma Counter_init_seeds_the_weekdays_witness :
  exists c,
    Counter_init (Some t2021) (Some (t2021 + 9 * 86400)) = Ok c
    /\ Z.of_nat (size (weekdaily c))
       = Z.min 7 ((t2021 + 9 * 86400 - t2021 + 86399) / 86400)
    /\ (forall k v, weekdaily c !! k = Some v -> v = zero_metrics /\ k ∈ weekdays_list)
    /\ (6 * 86400 < t2021 + 9 * 86400 - t2021 ->
        forall k, k ∈ weekdays_list -> weekdaily c !! k = Some zero_metrics).
Proof. apply Counter_init_seeds_the_weekdays. unfold t2021. lia. Defined.

(** ** The request summary: column totals *)

Lemma map_total_perm {V : Type} (f : V -> Z) (l1 l2 : list (string * V)) :
  l1 ≡ₚ l2 ->
  foldr (fun kv acc => f kv.2 + acc) 0 l1 = foldr (fun kv acc => f kv.2 + acc) 0 l2.
Proof. induction 1; cbn; lia. Qed.

Lemma map_total_empty {V : Type} (f : V -> Z) : map_total f (∅ : gmap string V) = 0.
Proof. unfold map_total. by rewrite map_to_list_empty. Qed.

Lemma map_total_insert {V : Type} (f : V -> Z) (k : string) (y : V)
    (d : gmap string V) :
  map_total f (<[k := y]> d) = map_total f d + f y - default 0 (f <$> d !! k).
Proof.
  unfold map_total. destruct (d !! k) as [v|] eqn:Hk; cbn [fmap option_fmap option_map default].
  - rewrite <- insert_delete_eq.
    rewrite (map_total_perm f _ _ (map_to_list_insert _ _ _ (lookup_delete_eq d k))).
    rewrite <- (map_total_perm f _ _ (map_to_list_delete _ _ _ Hk)). cbn. lia.
  - rewrite (map_total_perm f _ _ (map_to_list_insert _ _ _ Hk)). cbn. lia.
Qed.

Lemma sumZ_app (l1 l2 : list Z) : sumZ (l1 ++ l2) = sumZ l1 + sumZ l2.
Proof. induction l1 as [|x l1 IH]; cbn; [done|]. unfold sumZ in *. lia. Qed.

(** What one status line changes. *)
Lemma summary_status_line_effect (user : string) (a : Summary.t)
    (sline : ArclinkStatusLine.t) :
  let a' := summary_status_line user a sline in
  (map_total u_requests (Summary.users a') = map_total u_requests (Summary.users a)
   /\ map_total u_lines (Summary.users a') = map_total u_lines (Summary.users a)
   /\ map_total u_errors (Summary.users a') = map_total u_errors (Summary.users a)
   /\ map_total u_bytes (Summary.users a')
      = map_total u_bytes (Summary.users a) + delivered_size sline)
  /\ (map_total v_count (Summary.volumes a')
      = map_total v_count (Summary.volumes a) + 1
      /\ map_total v_bytes (Summary.volumes a')
         = map_total v_bytes (Summary.volumes a) + delivered_size sline)
  /\ map_total id (Summary.messages a') = map_total id (Summary.messages a) + 1
  /\ Summary.rtypes a' = Summary.rtypes a
  /\ Summary.streams a' = Summary.streams a
  /\ Summary.errors a' = Summary.errors a
  /\ Summary.total a' = Summary.total a
  /\ Summary.userIPs a' = Summary.userIPs a
  /\ Summary.clientIPs a' = Summary.clientIPs a
  /\ Summary.nets a' = Summary.nets a
  /\ Summary.timeMin a' = Summary.timeMin a
  /\ Summary.timeMax a' = Summary.timeMax a
  /\ Summary.netcounts a' = Summary.netcounts a.
Proof.
  cbn zeta. unfold summary_status_line, setdefault, count_up, setdefault, delivered_size.
  destruct (Summary.volumes a !! ArclinkStatusLine.volumeID sline)
    as [[[count error] s]|] eqn:Hv;
    destruct (Summary.users a !! user) as [[[[c l] e] b]|] eqn:Hu;
    destruct (Summary.messages a !! ArclinkStatusLine.message sline) as [m|] eqn:Hm;
    destruct (String.eqb (ArclinkStatusLine.status sline) "ERROR");
    cbn [Summary.users Summary.volumes Summary.messages Summary.rtypes
         Summary.streams Summary.errors Summary.total Summary.userIPs
         Summary.clientIPs Summary.nets Summary.timeMin Summary.timeMax
         Summary.netcounts];
    rewrite ?insert_insert_eq, !map_total_insert, ?Hv, ?Hu, ?Hm;
    unfold u_requests, u_lines, u_errors, u_bytes, v_count, v_bytes, id; cbn;
    (split_and!; try done; lia).
Qed.

(** What the status-line loop of one request changes. *)
Lemma status_lines_effect (user : string) (slines : list ArclinkStatusLine.t) :
  forall a : Summary.t,
    let a' := foldl (summary_status_line user) a slines in
    (map_total u_requests (Summary.users a') = map_total u_requests (Summary.users a)
     /\ map_total u_lines (Summary.users a') = map_total u_lines (Summary.users a)
     /\ map_total u_errors (Summary.users a') = map_total u_errors (Summary.users a)
     /\ map_total u_bytes (Summary.users a')
        = map_total u_bytes (Summary.users a) + sumZ (delivered_size <$> slines))
    /\ (map_total v_count (Summary.volumes a')
        = map_total v_count (Summary.volumes a) + Z.of_nat (length slines)
        /\ map_total v_bytes (Summary.volumes a')
           = map_total v_bytes (Summary.volumes a) + sumZ (delivered_size <$> slines))
    /\ map_total id (Summary.messages a')
       = map_total id (Summary.messages a) + Z.of_nat (length slines)
    /\ Summary.rtypes a' = Summary.rtypes a
    /\ Summary.streams a' = Summary.streams a
    /\ Summary.errors a' = Summary.errors a
    /\ Summary.total a' = Summary.total a
    /\ Summary.userIPs a' = Summary.userIPs a
    /\ Summary.clientIPs a' = Summary.clientIPs a
    /\ Summary.nets a' = Summary.nets a
    /\ Summary.timeMin a' = Summary.timeMin a
    /\ Summary.timeMax a' = Summary.timeMax a
    /\ Summary.netcounts a' = Summary.netcounts a.
Proof.
  induction slines as [|s slines IH]; intros a; cbn zeta.
  - cbn. split_and!; try done; lia.
  - cbn [foldl]. specialize (IH (summary_status_line user a s)). cbn zeta in IH.
    destruct IH as ((I1 & I2 & I3 & I4) & (I5 & I6) & I7 & I8 & I9 & I10 & I11
                    & I12 & I13 & I14 & I15 & I16 & I17).
    destruct (summary_status_line_effect user a s)
      as ((E1 & E2 & E3 & E4) & (E5 & E6) & E7 & E8 & E9 & E10 & E11
          & E12 & E13 & E14 & E15 & E16 & E17).
    rewrite fmap_cons. unfold sumZ in *. cbn [foldr length].
    split_and!; try congruence; lia.
Qed.

(** What one request line changes, when it is accepted. *)
Lemma summary_request_line_effect (a a' : Summary.t) (line : ArclinkRequestLine.t) :
  summary_request_line a line = Ok a' ->
  has_network line
  /\ (exists nodata error size,
        map_total s_lines (Summary.streams a') = map_total s_lines (Summary.streams a) + 1
        /\ map_total s_nodata (Summary.streams a')
           = map_total s_nodata (Summary.streams a) + nodata
        /\ map_total s_errors (Summary.streams a')
           = map_total s_errors (Summary.streams a) + error
        /\ map_total s_bytes (Summary.streams a')
           = map_total s_bytes (Summary.streams a) + size
        /\ map_total nc_lines (Summary.netcounts a')
           = map_total nc_lines (Summary.netcounts a) + 1
        /\ map_total nc_nodata (Summary.netcounts a')
           = map_total nc_nodata (Summary.netcounts a) + nodata
        /\ map_total nc_errors (Summary.netcounts a')
           = map_total nc_errors (Summary.netcounts a) + error
        /\ map_total nc_bytes (Summary.netcounts a')
           = map_total nc_bytes (Summary.netcounts a) + size)
  /\ map_total id (Summary.messages a') = map_total id (Summary.messages a) + 1
  /\ Summary.users a' = Summary.users a
  /\ Summary.rtypes a' = Summary.rtypes a
  /\ Summary.errors a' = Summary.errors a
  /\ Summary.total a' = Summary.total a
  /\ Summary.volumes a' = Summary.volumes a
  /\ Summary.userIPs a' = Summary.userIPs a
  /\ Summary.clientIPs a' = Summary.clientIPs a
  /\ Summary.nets a' = Summary.nets a
  /\ Summary.timeMin a' = Summary.timeMin a
  /\ Summary.timeMax a' = Summary.timeMax a.
Proof.
  intros H.
  destruct (WaveformStreamID.networkCode (ArclinkRequestLine.streamID line))
    as [|c rest] eqn:Hn.
  { by rewrite summary_request_line_raise in H. }
  split; [unfold has_network; by rewrite Hn|].
  pose proof (net_key_value line c rest Hn) as Hk. cbn zeta in Hk.
  pose proof (line_size_value (Summary.volume_error a) line) as Hs. cbn zeta in Hs.
  unfold summary_request_line in H. rewrite Hs, Hk in H.
  cbn [mbind result_bind] in H. unfold setdefault, count_up, setdefault in H.
  match type of Hk with _ = Ok ?k => set (key := k) in * end.
  match type of Hs with _ = Ok ?k => set (size := k) in * end.
  set (stream := WaveformStreamID.networkCode (ArclinkRequestLine.streamID line)
                 +:+ "." +:+ WaveformStreamID.stationCode (ArclinkRequestLine.streamID line)) in *.
  destruct (Summary.streams a !! stream) as [[[[[l n] e] s] tw]|] eqn:Hst;
    destruct (Summary.netcounts a !! key) as [[[[l' n'] e'] s']|] eqn:Hnc;
    destruct (Summary.messages a !! ArclinkStatusLine.message (ArclinkRequestLine.status line))
      as [m|] eqn:Hm;
    injection H as <-;
    cbn [Summary.users Summary.volumes Summary.messages Summary.rtypes
         Summary.streams Summary.errors Summary.total Summary.userIPs
         Summary.clientIPs Summary.nets Summary.timeMin Summary.timeMax
         Summary.netcounts];
    rewrite ?insert_insert_eq, !map_total_insert, ?Hst, ?Hnc, ?Hm;
    unfold s_lines, s_nodata, s_errors, s_bytes, nc_lines, nc_nodata, nc_errors,
      nc_bytes, id; cbn;
    (split_and!; try done;
     [exists (if String.eqb (ArclinkStatusLine.status (ArclinkRequestLine.status line)) "ERROR"
              then 0
              else if String.eqb (ArclinkStatusLine.status (ArclinkRequestLine.status line))
                                 "NODATA" then 1 else 0),
             (if String.eqb (ArclinkStatusLine.status (ArclinkRequestLine.status line)) "ERROR"
              then 1 else 0), size;
      split_and!; lia|lia]).
Qed.

(** What the request-line loop of one request changes; it completes if and
    only if every line carries a network code. *)
Lemma request_lines_effect (rlines : list ArclinkRequestLine.t) :
  forall a a' : Summary.t,
    foldl (fun a line => a ← a; summary_request_line a line) (Ok a) rlines = Ok a' ->
    Forall has_network rlines
    /\ map_total s_lines (Summary.streams a')
       = map_total s_lines (Summary.streams a) + Z.of_nat (length rlines)
    /\ (map_total s_lines (Summary.streams a') - map_total s_lines (Summary.streams a)
        = map_total nc_lines (Summary.netcounts a')
          - map_total nc_lines (Summary.netcounts a)
        /\ map_total s_nodata (Summary.streams a') - map_total s_nodata (Summary.streams a)
           = map_total nc_nodata (Summary.netcounts a')
             - map_total nc_nodata (Summary.netcounts a)
        /\ map_total s_errors (Summary.streams a') - map_total s_errors (Summary.streams a)
           = map_total nc_errors (Summary.netcounts a')
             - map_total nc_errors (Summary.netcounts a)
        /\ map_total s_bytes (Summary.streams a') - map_total s_bytes (Summary.streams a)
           = map_total nc_bytes (Summary.netcounts a')
             - map_total nc_bytes (Summary.netcounts a))
    /\ map_total id (Summary.messages a')
       = map_total id (Summary.messages a) + Z.of_nat (length rlines)
    /\ Summary.users a' = Summary.users a
    /\ Summary.rtypes a' = Summary.rtypes a
    /\ Summary.errors a' = Summary.errors a
    /\ Summary.total a' = Summary.total a
    /\ Summary.volumes a' = Summary.volumes a
    /\ Summary.userIPs a' = Summary.userIPs a
    /\ Summary.clientIPs a' = Summary.clientIPs a
    /\ Summary.nets a' = Summary.nets a
    /\ Summary.timeMin a' = Summary.timeMin a
    /\ Summary.timeMax a' = Summary.timeMax a.
Proof.
  induction rlines as [|line rlines IH]; intros a a' H.
  - injection H as <-. cbn. split_and!; try done; lia.
  - cbn [foldl] in H. cbn [mbind result_bind] in H.
    destruct (summary_request_line a line) as [a1|e] eqn:H1;
      [|by rewrite fold_result_Raise in H].
    destruct (IH a1 a' H) as (I0 & I1 & (I2 & I3 & I4 & I5) & I6 & I7 & I8 & I9
                              & I10 & I11 & I12 & I13 & I14 & I15 & I16).
    destruct (summary_request_line_effect a a1 line H1)
      as (E0 & (nd & er & sz & E1 & E2 & E3 & E4 & E5 & E6 & E7 & E8) & E9 & E10
          & E11 & E12 & E13 & E14 & E15 & E16 & E17 & E18 & E19).
    cbn [length]. split_and!; try congruence; try lia. by constructor.
Qed.

Lemma request_lines_complete (rlines : list ArclinkRequestLine.t) :
  forall a : Summary.t,
    Forall has_network rlines ->
    exists a',
      foldl (fun a line => a ← a; summary_request_line a line) (Ok a) rlines = Ok a'.
Proof.
  induction rlines as [|line rlines IH]; intros a Hn; [by eexists|].
  apply Forall_cons in Hn as [Hl Hn]. cbn [foldl]. cbn [mbind result_bind].
  unfold has_network in Hl.
  destruct (WaveformStreamID.networkCode (ArclinkRequestLine.streamID line))
    as [|c rest] eqn:Hc; [done|].
  pose proof (net_key_value line c rest Hc) as Hk. cbn zeta in Hk.
  pose proof (line_size_value (Summary.volume_error a) line) as Hs. cbn zeta in Hs.
  destruct (summary_request_line_ok a line _ _ Hk Hs) as (a1 & -> & _).
  by apply IH.
Qed.

Lemma request_lines_fail (rlines : list ArclinkRequestLine.t) :
  forall a : Summary.t,
    ~ Forall has_network rlines ->
    foldl (fun a line => a ← a; summary_request_line a line) (Ok a) rlines
    = Raise IndexError.
Proof.
  induction rlines as [|line rlines IH]; intros a Hn; [by destruct Hn|].
  cbn [foldl]. cbn [mbind result_bind].
  destruct (decide (has_network line)) as [Hl|Hl].
  - unfold has_network in Hl.
    destruct (WaveformStreamID.networkCode (ArclinkRequestLine.streamID line))
      as [|c rest] eqn:Hc; [done|].
    pose proof (net_key_value line c rest Hc) as Hk. cbn zeta in Hk.
    pose proof (line_size_value (Summary.volume_error a) line) as Hs. cbn zeta in Hs.
    destruct (summary_request_line_ok a line _ _ Hk Hs) as (a1 & -> & _).
    apply IH. intros H. apply Hn. constructor; [|done].
    unfold has_network. by rewrite Hc.
  - unfold has_network in Hl. apply dec_stable in Hl.
    rewrite summary_request_line_raise by done. apply fold_result_Raise.
Qed.

(** What the network rollup gains from the per-request counts. *)
Lemma merge_netcounts_effect (netcounts : gmap string (Z * Z * Z * Z))
    (nets : gmap string (Z * Z * Z * Z * Z)) :
  map_total n_lines (merge_netcounts netcounts nets)
  = map_total n_lines nets + map_total nc_lines netcounts
  /\ map_total n_nodata (merge_netcounts netcounts nets)
     = map_total n_nodata nets + map_total nc_nodata netcounts
  /\ map_total n_errors (merge_netcounts netcounts nets)
     = map_total n_errors nets + map_total nc_errors netcounts
  /\ map_total n_bytes (merge_netcounts netcounts nets)
     = map_total n_bytes nets + map_total nc_bytes netcounts
  /\ map_total n_requests (merge_netcounts netcounts nets)
     = map_total n_requests nets + Z.of_nat (size netcounts).
Proof.
  unfold merge_netcounts.
  apply (map_fold_weak_ind (fun r m =>
    map_total n_lines r = map_total n_lines nets + map_total nc_lines m
    /\ map_total n_nodata r = map_total n_nodata nets + map_total nc_nodata m
    /\ map_total n_errors r = map_total n_errors nets + map_total nc_errors m
    /\ map_total n_bytes r = map_total n_bytes nets + map_total nc_bytes m
    /\ map_total n_requests r = map_total n_requests nets + Z.of_nat (size m))).
  - rewrite !map_total_empty, map_size_empty. split_and!; lia.
  - intros i [[[lc nc] ec] sz] m r Hi (I1 & I2 & I3 & I4 & I5).
    unfold setdefault.
    destruct (r !! i) as [[[[[c l] n] e] s]|] eqn:Hr;
      rewrite ?insert_insert_eq, !map_total_insert, ?Hr, Hi, map_size_insert_None by done;
      unfold n_lines, n_nodata, n_errors, n_bytes, n_requests,
        nc_lines, nc_nodata, nc_errors, nc_bytes in *; cbn;
      split_and!; lia.
Qed.

Lemma count_request_effect (k : string) (lineCount errorCount : Z)
    (d : gmap string (Z * Z * Z)) :
  map_total r_requests (count_request k lineCount errorCount d)
  = map_total r_requests d + 1
  /\ map_total r_lines (count_request k lineCount errorCount d)
     = map_total r_lines d + lineCount
  /\ map_total r_errors (count_request k lineCount errorCount d)
     = map_total r_errors d + errorCount.
Proof.
  unfold count_request, setdefault.
  destruct (d !! k) as [[[c l] e]|] eqn:Hk;
    rewrite ?insert_insert_eq, !map_total_insert, ?Hk;
    unfold r_requests, r_lines, r_errors; cbn; split_and!; lia.
Qed.

(** What one request changes in the rollups, when it is accepted. *)
Lemma summary_request_effect (export : list string) (q : DatabaseQuery)
    (a a' : Summary.t) (request : ArclinkRequest.t) :
  summary_request export q a request = Ok a' ->
  let r := loaded_for_summary export q request in
  let slines := ArclinkRequest.statusLines (status_loaded q request) in
  let rlines := ArclinkRequest.requestLines r in
  (Forall has_network rlines /\ is_Some (ArclinkRequest.summary r))
  /\ Summary.total a' = Summary.total a + lineCount_of r
  /\ (map_total u_requests (Summary.users a')
      = map_total u_requests (Summary.users a) + 1
      /\ map_total u_lines (Summary.users a')
         = map_total u_lines (Summary.users a) + lineCount_of r
      /\ map_total u_errors (Summary.users a')
         = map_total u_errors (Summary.users a) + reqErrors_of r
      /\ map_total u_bytes (Summary.users a')
         = map_total u_bytes (Summary.users a) + sumZ (delivered_size <$> slines))
  /\ Summary.rtypes a'
     = count_request (ArclinkRequest.type r) (lineCount_of r) (reqErrors_of r)
         (Summary.rtypes a)
  /\ Summary.userIPs a'
     = count_request (ip_category (ArclinkRequest.userIP r)) (lineCount_of r)
         (reqErrors_of r) (Summary.userIPs a)
  /\ Summary.clientIPs a'
     = count_request (ip_category (ArclinkRequest.clientIP r)) (lineCount_of r)
         (reqErrors_of r) (Summary.clientIPs a)
  /\ (map_total v_count (Summary.volumes a')
      = map_total v_count (Summary.volumes a) + Z.of_nat (length slines)
      /\ map_total v_bytes (Summary.volumes a')
         = map_total v_bytes (Summary.volumes a) + sumZ (delivered_size <$> slines))
  /\ map_total id (Summary.messages a')
     = map_total id (Summary.messages a)
       + Z.of_nat (length slines) + Z.of_nat (length rlines)
  /\ map_total s_lines (Summary.streams a')
     = map_total s_lines (Summary.streams a) + Z.of_nat (length rlines)
  /\ (map_total s_lines (Summary.streams a') - map_total n_lines (Summary.nets a')
      = map_total s_lines (Summary.streams a) - map_total n_lines (Summary.nets a)
      /\ map_total s_nodata (Summary.streams a') - map_total n_nodata (Summary.nets a')
         = map_total s_nodata (Summary.streams a) - map_total n_nodata (Summary.nets a)
      /\ map_total s_errors (Summary.streams a') - map_total n_errors (Summary.nets a')
         = map_total s_errors (Summary.streams a) - map_total n_errors (Summary.nets a)
      /\ map_total s_bytes (Summary.streams a') - map_total n_bytes (Summary.nets a')
         = map_total s_bytes (Summary.streams a) - map_total n_bytes (Summary.nets a))
  /\ Summary.errors a'
     = (if reqErrors_of r >? 0
        then count_up (ArclinkRequest.requestID r) (reqErrors_of r) (Summary.errors a)
        else Summary.errors a)
  /\ Summary.timeMin a' = Z.min (ArclinkRequest.created r) (Summary.timeMin a)
  /\ Summary.timeMax a' = Z.max (ArclinkRequest.created r) (Summary.timeMax a).
Proof.
  intros H r slines rlines. unfold summary_request in H.
  fold (status_loaded q request) in H.
  change (if negb (bool_decide (export = []))
             && String.eqb (upper (ArclinkRequest.type (status_loaded q request)))
                           "WAVEFORM"
             && bool_decide (length (ArclinkRequest.requestLines
                                       (status_loaded q request)) = 0%nat)
          then loadArclinkRequestLines q (status_loaded q request)
          else status_loaded q request) with r in H.
  fold slines rlines in H.
  set (a0 := Summary.mk (Summary.users a) (Summary.rtypes a) (Summary.streams a)
               (Summary.errors a) (Summary.messages a) (Summary.total a)
               (Summary.volumes a) (Summary.userIPs a) (Summary.clientIPs a)
               (Summary.nets a) (Summary.timeMin a) (Summary.timeMax a) ∅ ∅) in *.
  destruct (status_lines_effect (ArclinkRequest.userID request) slines a0)
    as ((S1 & S2 & S3 & S4) & (S5 & S6) & S7 & S8 & S9 & S10 & S11
        & S12 & S13 & S14 & S15 & S16 & S17).
  set (a1 := foldl (summary_status_line (ArclinkRequest.userID request)) a0 slines) in *.
  destruct (foldl (fun a line => a ← a; summary_request_line a line) (Ok a1) rlines)
    as [a2|e] eqn:H2; [|done].
  destruct (request_lines_effect rlines a1 a2 H2)
    as (L0 & L1 & (L2 & L3 & L4 & L5) & L6 & L7 & L8 & L9 & L10 & L11 & L12
        & L13 & L14 & L15 & L16).
  cbn [mbind result_bind] in H.
  unfold ArclinkRequest.get_summary in H.
  destruct (ArclinkRequest.summary r) as [s|] eqn:Hs; [|done].
  cbn [mbind result_bind] in H.
  assert (Hl : lineCount_of r = ArclinkRequestSummary.totalLineCount s)
    by (unfold lineCount_of; by rewrite Hs).
  assert (He : reqErrors_of r = ArclinkRequestSummary.totalLineCount s
                                - ArclinkRequestSummary.okLineCount s)
    by (unfold reqErrors_of, ArclinkRequest.get_summary; by rewrite Hs).
  rewrite <- He, <- Hl in H.
  destruct (merge_netcounts_effect (Summary.netcounts a2) (Summary.nets a2))
    as (M1 & M2 & M3 & M4 & _).
  assert (N0 : Summary.netcounts a1 = ∅) by (by rewrite S17).
  rewrite N0, !map_total_empty in *.
  unfold setdefault in H.
  cbv delta [a0] in S1, S2, S3, S4, S5, S6, S7, S8, S9, S10, S11, S12, S13, S14,
    S15, S16, S17.
  cbn [Summary.users Summary.volumes Summary.messages Summary.rtypes
       Summary.streams Summary.errors Summary.total Summary.userIPs
       Summary.clientIPs Summary.nets Summary.timeMin Summary.timeMax
       Summary.netcounts] in S1, S2, S3, S4, S5, S6, S7, S8, S9, S10, S11, S12,
    S13, S14, S15, S16, S17.
  rewrite L7, L8, L9, L10, L11, L12, L13, L14, L15, L16 in H.
  rewrite S8, S10, S11, S12, S13, S14, S15, S16 in H.
  rewrite L14, S14 in M1, M2, M3, M4.
  rewrite S9 in L1, L2, L3, L4, L5.
  assert (Hmin : (if ArclinkRequest.created r <? Summary.timeMin a
                  then ArclinkRequest.created r else Summary.timeMin a)
                 = Z.min (ArclinkRequest.created r) (Summary.timeMin a))
    by (destruct (Z.ltb_spec (ArclinkRequest.created r) (Summary.timeMin a)); lia).
  assert (Hmax : (if ArclinkRequest.created r >? Summary.timeMax a
                  then ArclinkRequest.created r else Summary.timeMax a)
                 = Z.max (ArclinkRequest.created r) (Summary.timeMax a))
    by (destruct (Z.gtb_spec (ArclinkRequest.created r) (Summary.timeMax a)); lia).
  rewrite Hmin, Hmax in H.
  destruct (Summary.users a1 !! ArclinkRequest.userID request)
    as [[[[c l] e] b]|] eqn:Hu;
    injection H as <-;
    cbn [Summary.users Summary.volumes Summary.messages Summary.rtypes
         Summary.streams Summary.errors Summary.total Summary.userIPs
         Summary.clientIPs Summary.nets Summary.timeMin Summary.timeMax
         Summary.netcounts];
    rewrite ?insert_insert_eq, !map_total_insert, ?Hu;
    unfold u_requests, u_lines, u_errors, u_bytes in *; cbn;
    (split_and!; try done; try congruence; try lia).
Qed.

Lemma summary_loop_cons (export : list string) (q : DatabaseQuery) (a : Summary.t)
    (request : ArclinkRequest.t) (requests : list ArclinkRequest.t) :
  foldl (fun a request => a ← a; summary_request export q a request) (Ok a)
        (request :: requests)
  = foldl (fun a request => a ← a; summary_request export q a request)
          (summary_request export q a request) requests.
Proof. reflexivity. Qed.

(** What the whole loop of [printRequestSummary] changes. *)
Lemma summary_loop_effect (export : list string) (q : DatabaseQuery)
    (requests : list ArclinkRequest.t) :
  forall a0 a : Summary.t,
    foldl (fun a request => a ← a; summary_request export q a request) (Ok a0) requests
    = Ok a ->
    let rs := loaded_for_summary export q <$> requests in
    let slines := summary_status_lines q requests in
    let rlines := summary_request_lines export q requests in
    (Forall has_network rlines
     /\ Forall (fun r => is_Some (ArclinkRequest.summary r)) rs)
    /\ Summary.total a = Summary.total a0 + sumZ (lineCount_of <$> rs)
    /\ (map_total u_requests (Summary.users a)
        = map_total u_requests (Summary.users a0) + Z.of_nat (length requests)
        /\ map_total u_lines (Summary.users a)
           = map_total u_lines (Summary.users a0) + sumZ (lineCount_of <$> rs)
        /\ map_total u_errors (Summary.users a)
           = map_total u_errors (Summary.users a0) + sumZ (reqErrors_of <$> rs)
        /\ map_total u_bytes (Summary.users a)
           = map_total u_bytes (Summary.users a0) + sumZ (delivered_size <$> slines))
    /\ (map_total r_requests (Summary.rtypes a)
        = map_total r_requests (Summary.rtypes a0) + Z.of_nat (length requests)
        /\ map_total r_lines (Summary.rtypes a)
           = map_total r_lines (Summary.rtypes a0) + sumZ (lineCount_of <$> rs)
        /\ map_total r_errors (Summary.rtypes a)
           = map_total r_errors (Summary.rtypes a0) + sumZ (reqErrors_of <$> rs))
    /\ (map_total r_requests (Summary.userIPs a)
        = map_total r_requests (Summary.userIPs a0) + Z.of_nat (length requests)
        /\ map_total r_lines (Summary.userIPs a)
           = map_total r_lines (Summary.userIPs a0) + sumZ (lineCount_of <$> rs)
        /\ map_total r_errors (Summary.userIPs a)
           = map_total r_errors (Summary.userIPs a0) + sumZ (reqErrors_of <$> rs))
    /\ (map_total r_requests (Summary.clientIPs a)
        = map_total r_requests (Summary.clientIPs a0) + Z.of_nat (length requests)
        /\ map_total r_lines (Summary.clientIPs a)
           = map_total r_lines (Summary.clientIPs a0) + sumZ (lineCount_of <$> rs)
        /\ map_total r_errors (Summary.clientIPs a)
           = map_total r_errors (Summary.clientIPs a0) + sumZ (reqErrors_of <$> rs))
    /\ (map_total v_count (Summary.volumes a)
        = map_total v_count (Summary.volumes a0) + Z.of_nat (length slines)
        /\ map_total v_bytes (Summary.volumes a)
           = map_total v_bytes (Summary.volumes a0) + sumZ (delivered_size <$> slines))
    /\ map_total id (Summary.messages a)
       = map_total id (Summary.messages a0)
         + Z.of_nat (length slines) + Z.of_nat (length rlines)
    /\ map_total s_lines (Summary.streams a)
       = map_total s_lines (Summary.streams a0) + Z.of_nat (length rlines)
    /\ (map_total s_lines (Summary.streams a) - map_total n_lines (Summary.nets a)
        = map_total s_lines (Summary.streams a0) - map_total n_lines (Summary.nets a0)
        /\ map_total s_nodata (Summary.streams a) - map_total n_nodata (Summary.nets a)
           = map_total s_nodata (Summary.streams a0) - map_total n_nodata (Summary.nets a0)
        /\ map_total s_errors (Summary.streams a) - map_total n_errors (Summary.nets a)
           = map_total s_errors (Summary.streams a0) - map_total n_errors (Summary.nets a0)
        /\ map_total s_bytes (Summary.streams a) - map_total n_bytes (Summary.nets a)
           = map_total s_bytes (Summary.streams a0) - map_total n_bytes (Summary.nets a0)).
Proof.
  induction requests as [|request requests IH]; intros a0 a H.
  - injection H as <-. cbn. split_and!; try done; lia.
  - rewrite summary_loop_cons in H.
    destruct (summary_request export q a0 request) as [a1|e] eqn:H1;
      [|by rewrite fold_result_Raise in H].
    destruct (IH a1 a H) as ((I0 & I0') & I1 & (I2 & I3 & I4 & I5) & (I6 & I7 & I8)
      & (I9 & I10 & I11) & (I12 & I13 & I14) & (I15 & I16) & I17 & I18
      & (I19 & I20 & I21 & I22)).
    destruct (summary_request_effect export q a0 a1 request H1)
      as ((E0 & E0') & E1 & (E2 & E3 & E4 & E5) & E6 & E7 & E8 & (E9 & E10) & E11
          & E12 & (E13 & E14 & E15 & E16) & _).
    destruct (count_request_effect (ArclinkRequest.type (loaded_for_summary export q request))
                (lineCount_of (loaded_for_summary export q request))
                (reqErrors_of (loaded_for_summary export q request))
                (Summary.rtypes a0)) as (T1 & T2 & T3).
    destruct (count_request_effect
                (ip_category (ArclinkRequest.userIP (loaded_for_summary export q request)))
                (lineCount_of (loaded_for_summary export q request))
                (reqErrors_of (loaded_for_summary export q request))
                (Summary.userIPs a0)) as (U1 & U2 & U3).
    destruct (count_request_effect
                (ip_category (ArclinkRequest.clientIP (loaded_for_summary export q request)))
                (lineCount_of (loaded_for_summary export q request))
                (reqErrors_of (loaded_for_summary export q request))
                (Summary.clientIPs a0)) as (C1 & C2 & C3).
    rewrite <- E6 in T1, T2, T3. rewrite <- E7 in U1, U2, U3.
    rewrite <- E8 in C1, C2, C3.
    unfold summary_status_lines, summary_request_lines in *.
    cbn [mbind list_bind fmap list_fmap length]. rewrite !length_app, !fmap_app, !sumZ_app.
    unfold sumZ in *. cbn [foldr].
    split_and!; try lia.
    + by apply Forall_app.
    + by constructor.
Qed.

Lemma printRequestSummary_effect (export : list string) (q : DatabaseQuery)
    (startTime endTime : Time.t) (requests : list ArclinkRequest.t) (a : Summary.t) :
  printRequestSummary export q startTime endTime requests = Ok a ->
  let rs := loaded_for_summary export q <$> requests in
  let slines := summary_status_lines q requests in
  let rlines := summary_request_lines export q requests in
  (Forall has_network rlines
   /\ Forall (fun r => is_Some (ArclinkRequest.summary r)) rs)
  /\ Summary.total a = sumZ (lineCount_of <$> rs)
  /\ (map_total u_requests (Summary.users a) = Z.of_nat (length requests)
      /\ map_total u_lines (Summary.users a) = sumZ (lineCount_of <$> rs)
      /\ map_total u_errors (Summary.users a) = sumZ (reqErrors_of <$> rs)
      /\ map_total u_bytes (Summary.users a) = sumZ (delivered_size <$> slines))
  /\ (map_total r_requests (Summary.rtypes a) = Z.of_nat (length requests)
      /\ map_total r_lines (Summary.rtypes a) = sumZ (lineCount_of <$> rs)
      /\ map_total r_errors (Summary.rtypes a) = sumZ (reqErrors_of <$> rs))
  /\ (map_total r_requests (Summary.userIPs a) = Z.of_nat (length requests)
      /\ map_total r_lines (Summary.userIPs a) = sumZ (lineCount_of <$> rs)
      /\ map_total r_errors (Summary.userIPs a) = sumZ (reqErrors_of <$> rs))
  /\ (map_total r_requests (Summary.clientIPs a) = Z.of_nat (length requests)
      /\ map_total r_lines (Summary.clientIPs a) = sumZ (lineCount_of <$> rs)
      /\ map_total r_errors (Summary.clientIPs a) = sumZ (reqErrors_of <$> rs))
  /\ (map_total v_count (Summary.volumes a) = Z.of_nat (length slines)
      /\ map_total v_bytes (Summary.volumes a) = sumZ (delivered_size <$> slines))
  /\ map_total id (Summary.messages a)
     = Z.of_nat (length slines) + Z.of_nat (length rlines)
  /\ map_total s_lines (Summary.streams a) = Z.of_nat (length rlines)
  /\ (map_total s_lines (Summary.streams a) = map_total n_lines (Summary.nets a)
      /\ map_total s_nodata (Summary.streams a) = map_total n_nodata (Summary.nets a)
      /\ map_total s_errors (Summary.streams a) = map_total n_errors (Summary.nets a)
      /\ map_total s_bytes (Summary.streams a) = map_total n_bytes (Summary.nets a)).
Proof.
  intros H. unfold printRequestSummary in H.
  apply summary_loop_effect in H. cbn zeta in H.
  cbn [Summary.users Summary.volumes Summary.messages Summary.rtypes
       Summary.streams Summary.errors Summary.total Summary.userIPs
       Summary.clientIPs Summary.nets] in H.
  rewrite !map_total_empty in H.
  destruct H as ((I0 & I0') & I1 & (I2 & I3 & I4 & I5) & (I6 & I7 & I8)
      & (I9 & I10 & I11) & (I12 & I13 & I14) & (I15 & I16) & I17 & I18
      & (I19 & I20 & I21 & I22)).
  cbn zeta. split_and!; try done; lia.
Qed.

(** X12: when [printRequestSummary] completes, its four per-request rollups
    count the same requests: summed over the rows, the request, line and
    error columns of the user table, the request-type table, the userIP
    table and the clientIP table are each the number of requests, the sum
    of their totalLineCount and the sum of their totalLineCount -
    okLineCount; the running total of lines equals the line column. *)
Theorem rollups_count_the_same_requests :
  forall (export : list string) (q : DatabaseQuery) (startTime endTime : Time.t)
         (requests : list ArclinkRequest.t) (a : Summary.t),
    printRequestSummary export q startTime endTime requests = Ok a ->
    let rs := loaded_for_summary export q <$> requests in
    let counted := (Z.of_nat (length requests), sumZ (lineCount_of <$> rs),
                    sumZ (reqErrors_of <$> rs)) in
    (map_total u_requests (Summary.users a), map_total u_lines (Summary.users a),
     map_total u_errors (Summary.users a)) = counted
    /\ (map_total r_requests (Summary.rtypes a), map_total r_lines (Summary.rtypes a),
        map_total r_errors (Summary.rtypes a)) = counted
    /\ (map_total r_requests (Summary.userIPs a), map_total r_lines (Summary.userIPs a),
        map_total r_errors (Summary.userIPs a)) = counted
    /\ (map_total r_requests (Summary.clientIPs a),
        map_total r_lines (Summary.clientIPs a),
        map_total r_errors (Summary.clientIPs a)) = counted
    /\ Summary.total a = sumZ (lineCount_of <$> rs).
Proof.
  intros export q startTime endTime requests a H rs counted.
  destruct (printRequestSummary_effect _ _ _ _ _ _ H)
    as (_ & I1 & (I2 & I3 & I4 & _) & (I6 & I7 & I8) & (I9 & I10 & I11)
        & (I12 & I13 & I14) & _).
  fold rs in I1, I3, I4, I7, I8, I10, I11, I13, I14. subst counted.
  split_and!; [by rewrite I2, I3, I4|by rewrite I6, I7, I8|by rewrite I9, I10, I11
               |by rewrite I12, I13, I14|done].
Qed.

Lemma rollups_count_the_same_requests_witness :
  exists a,
    printRequestSummary [] loaded_query t2021 (t2021 + 86400) rollup_requests = Ok a
    /\ (map_total u_requests (Summary.users a), map_total u_lines (Summary.users a),
        map_total u_errors (Summary.users a)) = (3, 6, 3)
    /\ (map_total r_requests (Summary.rtypes a), map_total r_lines (Summary.rtypes a),
        map_total r_errors (Summary.rtypes a)) = (3, 6, 3)
    /\ (map_total r_requests (Summary.userIPs a), map_total r_lines (Summary.userIPs a),
        map_total r_errors (Summary.userIPs a)) = (3, 6, 3)
    /\ (map_total r_requests (Summary.clientIPs a),
        map_total r_lines (Summary.clientIPs a),
        map_total r_errors (Summary.clientIPs a)) = (3, 6, 3)
    /\ Summary.total a = 6.
Proof.
  destruct (printRequestSummary [] loaded_query t2021 (t2021 + 86400) rollup_requests)
    as [a|e] eqn:H; [|by vm_compute in H].
  exists a. split; [done|].
  exact (rollups_count_the_same_requests _ _ _ _ _ _ H).
Defined.

(** X13: when [printRequestSummary] completes, the bytes of the user table
    and the bytes of the volume table have the same total: the sizes of the
    status lines of all requests, those with status "ERROR" left out; the
    count column of the volume table sums to the number of status lines. *)
Theorem user_bytes_equal_volume_bytes :
  forall (export : list string) (q : DatabaseQuery) (startTime endTime : Time.t)
         (requests : list ArclinkRequest.t) (a : Summary.t),
    printRequestSummary export q startTime endTime requests = Ok a ->
    let slines := summary_status_lines q requests in
    map_total u_bytes (Summary.users a) = sumZ (delivered_size <$> slines)
    /\ map_total v_bytes (Summary.volumes a) = sumZ (delivered_size <$> slines)
    /\ map_total v_count (Summary.volumes a) = Z.of_nat (length slines).
Proof.
  intros export q startTime endTime requests a H slines.
  destruct (printRequestSummary_effect _ _ _ _ _ _ H)
    as (_ & _ & (_ & _ & _ & I5) & _ & _ & _ & (I15 & I16) & _).
  by split_and!.
Qed.

Lemma user_bytes_equal_volume_bytes_witness :
  exists a,
    printRequestSummary [] loaded_query t2021 (t2021 + 86400) rollup_requests = Ok a
    /\ map_total u_bytes (Summary.users a) = 100512
    /\ map_total v_bytes (Summary.volumes a) = 100512
    /\ map_total v_count (Summary.volumes a) = 3.
Proof.
  destruct (printRequestSummary [] loaded_query t2021 (t2021 + 86400) rollup_requests)
    as [a|e] eqn:H; [|by vm_compute in H].
  exists a. split; [done|].
  exact (user_bytes_equal_volume_bytes _ _ _ _ _ _ H).
Defined.

(** X14: when [printRequestSummary] completes, the message table counts
    every status line and every request line once, under the line's message:
    its counts sum to the number of status lines plus the number of request
    lines the loop went through, that is to the count column of the volume
    table plus the line column of the station table. *)
Theorem messages_count_every_line :
  forall (export : list string) (q : DatabaseQuery) (startTime endTime : Time.t)
         (requests : list ArclinkRequest.t) (a : Summary.t),
    printRequestSummary export q startTime endTime requests = Ok a ->
    map_total id (Summary.messages a)
    = Z.of_nat (length (summary_status_lines q requests))
      + Z.of_nat (length (summary_request_lines export q requests))
    /\ map_total id (Summary.messages a)
       = map_total v_count (Summary.volumes a) + map_total s_lines (Summary.streams a).
Proof.
  intros export q startTime endTime requests a H.
  destruct (printRequestSummary_effect _ _ _ _ _ _ H)
    as (_ & _ & _ & _ & _ & _ & (I15 & _) & I17 & I18 & _).
  split; [done|lia].
Qed.

Lemma messages_count_every_line_witness :
  exists a,
    printRequestSummary [] loaded_query t2021 (t2021 + 86400) rollup_requests = Ok a
    /\ map_total id (Summary.messages a) = 3 + 3
    /\ map_total id (Summary.messages a)
       = map_total v_count (Summary.volumes a) + map_total s_lines (Summary.streams a).
Proof.
  destruct (printRequestSummary [] loaded_query t2021 (t2021 + 86400) rollup_requests)
    as [a|e] eqn:H; [|by vm_compute in H].
  exists a. split; [done|].
  exact (messages_count_every_line _ _ _ _ _ _ H).
Defined.

(** X15: when [printRequestSummary] completes, the station table and the
    network table agree column by column: lines, nodata, errors and bytes
    have the same totals in both, and the line total is the number of request
    lines the loop went through, each of which carries a network code. *)
Theorem stations_and_networks_agree :
  forall (export : list string) (q : DatabaseQuery) (startTime endTime : Time.t)
         (requests : list ArclinkRequest.t) (a : Summary.t),
    printRequestSummary export q startTime endTime requests = Ok a ->
    let rlines := summary_request_lines export q requests in
    map_total s_lines (Summary.streams a) = map_total n_lines (Summary.nets a)
    /\ map_total s_nodata (Summary.streams a) = map_total n_nodata (Summary.nets a)
    /\ map_total s_errors (Summary.streams a) = map_total n_errors (Summary.nets a)
    /\ map_total s_bytes (Summary.streams a) = map_total n_bytes (Summary.nets a)
    /\ map_total s_lines (Summary.streams a) = Z.of_nat (length rlines)
    /\ Forall has_network rlines.
Proof.
  intros export q startTime endTime requests a H rlines.
  destruct (printRequestSummary_effect _ _ _ _ _ _ H)
    as ((I0 & _) & _ & _ & _ & _ & _ & _ & _ & I18 & (I19 & I20 & I21 & I22)).
  by split_and!.
Qed.

Lemma stations_and_networks_agree_witness :
  exists a,
    printRequestSummary [] loaded_query t2021 (t2021 + 86400) rollup_requests = Ok a
    /\ map_total s_lines (Summary.streams a) = map_total n_lines (Summary.nets a)
    /\ map_total s_nodata (Summary.streams a) = map_total n_nodata (Summary.nets a)
    /\ map_total s_errors (Summary.streams a) = map_total n_errors (Summary.nets a)
    /\ map_total s_bytes (Summary.streams a) = map_total n_bytes (Summary.nets a)
    /\ map_total s_lines (Summary.streams a) = 3
    /\ Forall has_network (summary_request_lines [] loaded_query rollup_requests).
Proof.
  destruct (printRequestSummary [] loaded_query t2021 (t2021 + 86400) rollup_requests)
    as [a|e] eqn:H; [|by vm_compute in H].
  exists a. split; [done|].
  exact (stations_and_networks_agree _ _ _ _ _ _ H).
Defined.

(** ** The request summary: the rows of the per-request rollups *)

Lemma count_request_lookup (k k' : string) (lineCount errorCount : Z)
    (d : gmap string (Z * Z * Z)) :
  count_request k lineCount errorCount d !! k'
  = if decide (k = k')
    then Some (add3 (default (0, 0, 0) (d !! k)) (1, lineCount, errorCount))
    else d !! k'.
Proof.
  unfold count_request, setdefault.
  destruct (d !! k) as [[[c l] e]|] eqn:Hk; rewrite ?insert_insert_eq, lookup_insert;
    by case_decide.
Qed.

Lemma count_up_lookup (k k' : string) (n : Z) (d : gmap string Z) :
  count_up k n d !! k'
  = if decide (k = k') then Some (default 0 (d !! k) + n) else d !! k'.
Proof.
  unfold count_up, setdefault.
  destruct (d !! k) as [x|] eqn:Hk; rewrite ?insert_insert_eq, lookup_insert;
    by case_decide.
Qed.

Lemma count_up_total (k : string) (n : Z) (d : gmap string Z) :
  map_total id (count_up k n d) = map_total id d + n.
Proof.
  unfold count_up, setdefault.
  destruct (d !! k) as [x|] eqn:Hk; rewrite ?insert_insert_eq, map_total_insert, Hk;
    unfold id; cbn; lia.
Qed.

Lemma foldr_min_swap (c m : Z) (cs : list Z) :
  foldr Z.min (Z.min c m) cs = Z.min c (foldr Z.min m cs).
Proof. induction cs as [|x cs IH]; cbn; [done|]. rewrite IH. lia. Qed.

Lemma foldr_max_swap (c m : Z) (cs : list Z) :
  foldr Z.max (Z.max c m) cs = Z.max c (foldr Z.max m cs).
Proof. induction cs as [|x cs IH]; cbn; [done|]. rewrite IH. lia. Qed.

(** The rows the loop of [printRequestSummary] leaves in the request-type,
    userIP, clientIP and error tables, and the two time marks. *)
Lemma summary_loop_rows (export : list string) (q : DatabaseQuery)
    (requests : list ArclinkRequest.t) :
  forall a0 a : Summary.t,
    foldl (fun a request => a ← a; summary_request export q a request) (Ok a0) requests
    = Ok a ->
    let rs := loaded_for_summary export q <$> requests in
    (forall k,
        Summary.rtypes a !! k
        = match rollup_row (with_key ArclinkRequest.type k rs) with
          | Some row => Some (add3 (default (0, 0, 0) (Summary.rtypes a0 !! k)) row)
          | None => Summary.rtypes a0 !! k
          end)
    /\ (forall k,
        Summary.userIPs a !! k
        = match rollup_row (with_key userIP_key k rs) with
          | Some row => Some (add3 (default (0, 0, 0) (Summary.userIPs a0 !! k)) row)
          | None => Summary.userIPs a0 !! k
          end)
    /\ (forall k,
        Summary.clientIPs a !! k
        = match rollup_row (with_key clientIP_key k rs) with
          | Some row => Some (add3 (default (0, 0, 0) (Summary.clientIPs a0 !! k)) row)
          | None => Summary.clientIPs a0 !! k
          end)
    /\ (forall k,
        Summary.errors a !! k
        = match errors_of k rs with
          | [] => Summary.errors a0 !! k
          | l => Some (default 0 (Summary.errors a0 !! k) + sumZ l)
          end)
    /\ map_total id (Summary.errors a)
       = map_total id (Summary.errors a0)
         + sumZ ((fun r => Z.max 0 (reqErrors_of r)) <$> rs)
    /\ Summary.timeMin a
       = foldr Z.min (Summary.timeMin a0) (ArclinkRequest.created <$> rs)
    /\ Summary.timeMax a
       = foldr Z.max (Summary.timeMax a0) (ArclinkRequest.created <$> rs).
Proof.
  induction requests as [|request requests IH]; intros a0 a H.
  - injection H as <-. cbn. split_and!; try done. lia.
  - rewrite summary_loop_cons in H.
    destruct (summary_request export q a0 request) as [a1|e] eqn:H1;
      [|by rewrite fold_result_Raise in H].
    destruct (IH a1 a H) as (I1 & I2 & I3 & I4 & I5 & I6 & I7).
    destruct (summary_request_effect export q a0 a1 request H1)
      as (_ & _ & _ & E6 & E7 & E8 & _ & _ & _ & _ & E17 & E18 & E19).
    set (r := loaded_for_summary export q request) in *.
    cbn zeta. rewrite !fmap_cons. fold r.
    set (rs := loaded_for_summary export q <$> requests) in *.
    assert (Hrow : forall (key : ArclinkRequest.t -> string) (k : string)
                          (d : gmap string (Z * Z * Z)),
      match rollup_row (with_key key k rs) with
      | Some row => Some (add3 (default (0, 0, 0)
                                  (count_request (key r) (lineCount_of r)
                                     (reqErrors_of r) d !! k)) row)
      | None => count_request (key r) (lineCount_of r) (reqErrors_of r) d !! k
      end
      = match rollup_row (with_key key k (r :: rs)) with
        | Some row => Some (add3 (default (0, 0, 0) (d !! k)) row)
        | None => d !! k
        end).
    { intros key k d. rewrite count_request_lookup. unfold with_key.
      rewrite filter_cons. case_decide as Hk.
      - subst k. unfold rollup_row at 2. rewrite fmap_cons, sum3_cons.
        fold (with_key key (key r) rs).
        destruct (with_key key (key r) rs) as [|x l] eqn:Hl; cbn [rollup_row default].
        + f_equal. unfold sum3. cbn. by rewrite add3_zero_r.
        + f_equal. by rewrite add3_assoc.
      - done. }
    split_and!.
    + intros k. rewrite I1, E6. apply (Hrow ArclinkRequest.type).
    + intros k. rewrite I2, E7. apply (Hrow userIP_key).
    + intros k. rewrite I3, E8. apply (Hrow clientIP_key).
    + intros k. rewrite I4, E17. unfold errors_of. rewrite filter_cons.
      fold (errors_of k rs).
      destruct (Z.gtb_spec (reqErrors_of r) 0) as [Hpos|Hneg].
      * rewrite count_up_lookup. case_decide as Hk.
        -- rewrite decide_True by (split; [done|lia]). rewrite fmap_cons.
           fold (errors_of k rs). subst k.
           destruct (errors_of (ArclinkRequest.requestID r) rs) as [|x l];
             cbn [default]; f_equal; unfold sumZ; cbn; lia.
        -- rewrite decide_False by (by intros [? _]). done.
      * rewrite decide_False by (intros [_ ?]; lia). done.
    + rewrite I5, E17. unfold sumZ. cbn [foldr].
      destruct (Z.gtb_spec (reqErrors_of r) 0) as [Hpos|Hneg].
      * rewrite count_up_total. unfold sumZ. lia.
      * unfold sumZ. lia.
    + rewrite I6, E18. cbn [foldr]. apply foldr_min_swap.
    + rewrite I7, E19. cbn [foldr]. apply foldr_max_swap.
Qed.

Lemma ip_category_not_empty (ip : string) : ip_category ip <> "".
Proof. unfold ip_category. by destruct ip. Qed.

(** X16: when [printRequestSummary] completes, each row of the request-type
    table, of the userIP table and of the clientIP table holds the number of
    the requests with that type or from that address, the sum of their
    totalLineCount and the sum of their error counts, and there is a row for
    a key only if some request has it.  Requests without address are
    counted under "unknown": the two address tables never have a row with
    the empty key. *)
Theorem rollup_rows_hold_their_requests :
  forall (export : list string) (q : DatabaseQuery) (startTime endTime : Time.t)
         (requests : list ArclinkRequest.t) (a : Summary.t),
    printRequestSummary export q startTime endTime requests = Ok a ->
    let rs := loaded_for_summary export q <$> requests in
    (forall k, Summary.rtypes a !! k = rollup_row (with_key ArclinkRequest.type k rs))
    /\ (forall k, Summary.userIPs a !! k = rollup_row (with_key userIP_key k rs))
    /\ (forall k, Summary.clientIPs a !! k = rollup_row (with_key clientIP_key k rs))
    /\ Summary.userIPs a !! "" = None
    /\ Summary.clientIPs a !! "" = None.
Proof.
  intros export q startTime endTime requests a H rs.
  unfold printRequestSummary in H.
  destruct (summary_loop_rows _ _ _ _ _ H) as (I1 & I2 & I3 & _).
  fold rs in I1, I2, I3.
  cbn [Summary.rtypes Summary.userIPs Summary.clientIPs] in I1, I2, I3.
  assert (Hrow : forall o : option (Z * Z * Z),
    match o with
    | Some row => Some (add3 (0, 0, 0) row)
    | None => None
    end = o).
  { intros [row|]; [by rewrite add3_zero_l|done]. }
  assert (Hempty : forall (key : ArclinkRequest.t -> string),
    (forall r, key r <> "") -> with_key key "" rs = []).
  { intros key Hne. unfold with_key. generalize rs. intros l.
    induction l as [|r l IH]; [done|].
    rewrite filter_cons, decide_False by apply Hne. exact IH. }
  split_and!.
  - intros k. rewrite I1, lookup_empty. apply Hrow.
  - intros k. rewrite I2, lookup_empty. apply Hrow.
  - intros k. rewrite I3, lookup_empty. apply Hrow.
  - rewrite I2, Hempty; [by rewrite lookup_empty|].
    intros r. apply ip_category_not_empty.
  - rewrite I3, Hempty; [by rewrite lookup_empty|].
    intros r. apply ip_category_not_empty.
Qed.

Lemma rollup_rows_hold_their_requests_witness :
  exists a,
    printRequestSummary [] loaded_query t2021 (t2021 + 86400)
      (addressed_request :: rollup_requests) = Ok a
    /\ Summary.rtypes a !! "WAVEFORM" = Some (4, 7, 3)
    /\ Summary.userIPs a !! "unknown" = Some (3, 6, 3)
    /\ Summary.userIPs a !! "192.0.2.1" = Some (1, 1, 0)
    /\ Summary.clientIPs a !! "198.51.100.7" = Some (1, 1, 0)
    /\ Summary.userIPs a !! "" = None
    /\ Summary.clientIPs a !! "" = None.
Proof.
  destruct (printRequestSummary [] loaded_query t2021 (t2021 + 86400)
              (addressed_request :: rollup_requests)) as [a|e] eqn:H;
    [|by vm_compute in H].
  exists a. split; [done|].
  destruct (rollup_rows_hold_their_requests _ _ _ _ _ _ H) as (H1 & H2 & H3 & H4 & H5).
  rewrite H1, !H2, H3. by split_and!.
Defined.

Lemma sumZ_positive (l : list Z) : l <> [] -> Forall (fun x => 0 < x) l -> 0 < sumZ l.
Proof.
  intros Hl Hp. destruct l as [|x l]; [done|].
  apply Forall_cons in Hp as [Hx Hp]. unfold sumZ. cbn [foldr].
  assert (0 <= foldr Z.add 0 l); [|lia].
  clear Hl Hx. induction Hp; cbn; lia.
Qed.

(** X17: when [printRequestSummary] completes, the error table has a row for
    a request ID if and only if some request with this ID has a positive
    error count (totalLineCount - okLineCount), and the row holds the sum of
    these positive counts, so every entry is positive; the entries sum to
    the error counts of all requests, negative ones counted as zero. *)
Theorem error_table_holds_the_failed_requests :
  forall (export : list string) (q : DatabaseQuery) (startTime endTime : Time.t)
         (requests : list ArclinkRequest.t) (a : Summary.t),
    printRequestSummary export q startTime endTime requests = Ok a ->
    let rs := loaded_for_summary export q <$> requests in
    (forall k, Summary.errors a !! k
               = match errors_of k rs with
                 | [] => None
                 | l => Some (sumZ l)
                 end)
    /\ (forall k v, Summary.errors a !! k = Some v -> 0 < v)
    /\ map_total id (Summary.errors a)
       = sumZ ((fun r => Z.max 0 (reqErrors_of r)) <$> rs).
Proof.
  intros export q startTime endTime requests a H rs.
  unfold printRequestSummary in H.
  destruct (summary_loop_rows _ _ _ _ _ H) as (_ & _ & _ & I4 & I5 & _).
  fold rs in I4, I5. cbn [Summary.errors] in I4, I5.
  rewrite map_total_empty in I5.
  assert (Hrow : forall k, Summary.errors a !! k
               = match errors_of k rs with
                 | [] => None
                 | l => Some (sumZ l)
                 end).
  { intros k. rewrite I4, lookup_empty. by destruct (errors_of k rs). }
  split_and!; [done| |lia].
  intros k v Hv. rewrite Hrow in Hv.
  destruct (errors_of k rs) as [|x l] eqn:Hl; [done|]. injection Hv as <-.
  apply (sumZ_positive (x :: l)); [done|]. rewrite <- Hl. unfold errors_of.
  apply Forall_fmap, Forall_forall. intros r Hr.
  apply list_elem_of_filter in Hr as [[_ Hr] _]. exact Hr.
Qed.

Lemma error_table_holds_the_failed_requests_witness :
  exists a,
    printRequestSummary [] loaded_query t2021 (t2021 + 86400)
      (addressed_request :: rollup_requests) = Ok a
    /\ Summary.errors a !! "6" = None
    /\ Summary.errors a !! "7" = Some 1
    /\ map_total id (Summary.errors a) = 3.
Proof.
  destruct (printRequestSummary [] loaded_query t2021 (t2021 + 86400)
              (addressed_request :: rollup_requests)) as [a|e] eqn:H;
    [|by vm_compute in H].
  exists a. split; [done|].
  destruct (error_table_holds_the_failed_requests _ _ _ _ _ _ H) as (H1 & _ & H3).
  rewrite !H1, H3. by split_and!.
Defined.

Lemma foldr_min_le (m : Z) (cs : list Z) :
  foldr Z.min m cs <= m /\ Forall (fun c => foldr Z.min m cs <= c) cs.
Proof.
  induction cs as [|c cs [IH1 IH2]]; cbn; [by split|].
  split; [lia|]. constructor; [lia|].
  eapply Forall_impl; [exact IH2|]. cbn. intros. lia.
Qed.

Lemma foldr_max_ge (m : Z) (cs : list Z) :
  m <= foldr Z.max m cs /\ Forall (fun c => c <= foldr Z.max m cs) cs.
Proof.
  induction cs as [|c cs [IH1 IH2]]; cbn; [by split|].
  split; [lia|]. constructor; [lia|].
  eapply Forall_impl; [exact IH2|]. cbn. intros. lia.
Qed.

(** X18: when [printRequestSummary] completes, the time it reports as that
    of the first request is the least of the end of the asked range and the
    creation times of the requests, and the time it reports as that of the
    last request the greatest of the start of the range and the creation
    times: every request lies between the two, the first is never after the
    end of the range, the last never before its start; with no request they
    are the end and the start of the range. *)
Theorem first_and_last_request_times :
  forall (export : list string) (q : DatabaseQuery) (startTime endTime : Time.t)
         (requests : list ArclinkRequest.t) (a : Summary.t),
    printRequestSummary export q startTime endTime requests = Ok a ->
    let created := ArclinkRequest.created <$> (loaded_for_summary export q <$> requests) in
    Summary.timeMin a = foldr Z.min endTime created
    /\ Summary.timeMax a = foldr Z.max startTime created
    /\ Forall (fun c => Summary.timeMin a <= c <= Summary.timeMax a) created
    /\ Summary.timeMin a <= endTime
    /\ startTime <= Summary.timeMax a.
Proof.
  intros export q startTime endTime requests a H created.
  unfold printRequestSummary in H.
  destruct (summary_loop_rows _ _ _ _ _ H) as (_ & _ & _ & _ & _ & I6 & I7).
  fold created in I6, I7. cbn [Summary.timeMin Summary.timeMax] in I6, I7.
  destruct (foldr_min_le endTime created) as [M1 M2].
  destruct (foldr_max_ge startTime created) as [N1 N2].
  rewrite I6, I7. split_and!; try done.
  apply Forall_forall. intros c Hc.
  rewrite Forall_forall in M2, N2. split; [by apply M2|by apply N2].
Qed.

Lemma first_and_last_request_times_witness :
  exists a,
    printRequestSummary [] loaded_query t2021 (t2021 + 86400) rollup_requests = Ok a
    /\ Summary.timeMin a = t2021
    /\ Summary.timeMax a = t2021 + 3600.
Proof.
  destruct (printRequestSummary [] loaded_query t2021 (t2021 + 86400) rollup_requests)
    as [a|e] eqn:H; [|by vm_compute in H].
  exists a. split; [done|].
  destruct (first_and_last_request_times _ _ _ _ _ _ H) as (H1 & H2 & _).
  rewrite H1, H2. by split.
Defined.

(** ** The request summary: when it fails *)

Lemma summary_request_outcome (export : list string) (q : DatabaseQuery)
    (a : Summary.t) (request : ArclinkRequest.t) :
  let r := loaded_for_summary export q request in
  is_Some (ArclinkRequest.summary r) ->
  if decide (Forall has_network (ArclinkRequest.requestLines r))
  then exists a', summary_request export q a request = Ok a'
  else summary_request export q a request = Raise IndexError.
Proof.
  intros r [s Hs]. unfold summary_request.
  fold (status_loaded q request).
  change (if negb (bool_decide (export = []))
             && String.eqb (upper (ArclinkRequest.type (status_loaded q request)))
                           "WAVEFORM"
             && bool_decide (length (ArclinkRequest.requestLines
                                       (status_loaded q request)) = 0%nat)
          then loadArclinkRequestLines q (status_loaded q request)
          else status_loaded q request) with r.
  case_decide as Hn.
  - destruct (request_lines_complete (ArclinkRequest.requestLines r)
                (foldl (summary_status_line (ArclinkRequest.userID request))
                   (Summary.mk (Summary.users a) (Summary.rtypes a) (Summary.streams a)
                      (Summary.errors a) (Summary.messages a) (Summary.total a)
                      (Summary.volumes a) (Summary.userIPs a) (Summary.clientIPs a)
                      (Summary.nets a) (Summary.timeMin a) (Summary.timeMax a) ∅ ∅)
                   (ArclinkRequest.statusLines (status_loaded q request))) Hn)
      as [a2 ->].
    cbn [mbind result_bind]. unfold ArclinkRequest.get_summary. rewrite Hs.
    cbn [mbind result_bind].
    destruct (setdefault _ _ _) as [[[[c l] e] b] users]. by eexists.
  - by rewrite request_lines_fail.
Qed.

(** X19: on requests that carry a summary, as [loadRequests] returns them,
    the rollup loop of [printRequestSummary] fails in one case only: some
    request line it goes through has an empty network code, and it then
    raises IndexError (from [netcode[0]]); if every line has a network code
    it completes. *)
Theorem summary_fails_only_on_an_empty_network_code :
  forall (export : list string) (q : DatabaseQuery) (startTime endTime : Time.t)
         (requests : list ArclinkRequest.t),
    Forall (fun r => is_Some (ArclinkRequest.summary r))
           (loaded_for_summary export q <$> requests) ->
    match printRequestSummary export q startTime endTime requests with
    | Ok _ => Forall has_network (summary_request_lines export q requests)
    | Raise e =>
      e = IndexError
      /\ ~ Forall has_network (summary_request_lines export q requests)
    end.
Proof.
  intros export q startTime endTime requests. unfold printRequestSummary.
  generalize (Summary.mk ∅ ∅ ∅ ∅ ∅ 0 ∅ ∅ ∅ ∅ endTime startTime ∅ ∅).
  induction requests as [|request requests IH]; intros a0 Hs.
  - cbn. constructor.
  - rewrite fmap_cons in Hs. apply Forall_cons in Hs as [Hr Hs].
    rewrite summary_loop_cons.
    assert (HL : Forall has_network (summary_request_lines export q (request :: requests))
                 <-> Forall has_network
                       (ArclinkRequest.requestLines (loaded_for_summary export q request))
                     /\ Forall has_network (summary_request_lines export q requests)).
    { unfold summary_request_lines. by rewrite bind_cons, Forall_app. }
    pose proof (summary_request_outcome export q a0 request Hr) as Ho.
    cbn zeta in Ho. case_decide as Hn.
    + destruct Ho as [a1 ->]. specialize (IH a1 Hs).
      destruct (foldl _ (Ok a1) requests) as [a|e]; rewrite HL.
      * by split.
      * destruct IH as [-> IH]. split; [done|]. by intros [_ ?].
    + rewrite Ho, fold_result_Raise, HL. split; [done|]. by intros [? _].
Qed.

Lemma summary_fails_only_on_an_empty_network_code_witness :
  match printRequestSummary [] loaded_query t2021 (t2021 + 86400) rollup_requests with
  | Ok _ => Forall has_network (summary_request_lines [] loaded_query rollup_requests)
  | Raise e =>
    e = IndexError
    /\ ~ Forall has_network (summary_request_lines [] loaded_query rollup_requests)
  end.
Proof.
  apply summary_fails_only_on_an_empty_network_code.
  repeat constructor; by eexists.
Defined.

(** ** The request summary: the bytes of a request line *)

Lemma station_bytes_eq (a a' : Summary.t) (stream : string) :
  Summary.streams a' !! stream = Summary.streams a !! stream ->
  station_bytes a' stream = station_bytes a stream.
Proof. unfold station_bytes. by intros ->. Qed.

(** The request-line loop of one request, on lines that have a network code:
    it completes, and each station entry grows by the bytes of its lines, as
    [line_size] gives them under the flags the loop started with. *)
Lemma request_lines_station_bytes (f : ArclinkRequestLine.t -> Z)
    (rlines : list ArclinkRequestLine.t) :
  forall a : Summary.t,
    Forall has_network rlines ->
    (forall line, line ∈ rlines ->
                  line_size (Summary.volume_error a) line = Ok (f line)) ->
    exists a',
      foldl (fun a line => a ← a; summary_request_line a line) (Ok a) rlines = Ok a'
      /\ forall stream,
           station_bytes a' stream
           = station_bytes a stream
             + sumZ (f <$> filter (fun line => stream_of line = stream) rlines).
Proof.
  induction rlines as [|line rlines IH]; intros a Hn Hf.
  - exists a. split; [done|]. intros stream. cbn. lia.
  - apply Forall_cons in Hn as [Hl Hn]. cbn [foldl]. cbn [mbind result_bind].
    unfold has_network in Hl.
    destruct (WaveformStreamID.networkCode (ArclinkRequestLine.streamID line))
      as [|c rest] eqn:Hc; [done|].
    pose proof (net_key_value line c rest Hc) as Hk. cbn zeta in Hk.
    destruct (summary_request_line_ok a line _ (f line) Hk)
      as (a1 & -> & Hb & Ho & _ & _ & Hve & _); [apply Hf; by left|].
    destruct (IH a1 Hn) as (a' & -> & Hs).
    { intros l Hin. rewrite Hve. apply Hf. by right. }
    exists a'. split; [done|]. intros stream. rewrite Hs, filter_cons.
    case_decide as Hst.
    + subst stream. rewrite Hb, fmap_cons. unfold sumZ. cbn [foldr]. lia.
    + rewrite (station_bytes_eq a a1); [done|]. apply Ho. intros E. by apply Hst.
Qed.

Lemma line_size_after_status_lines (user : string)
    (slines : list ArclinkStatusLine.t) (a : Summary.t)
    (line : ArclinkRequestLine.t) :
  Summary.volume_error a = ∅ ->
  line_size (Summary.volume_error (foldl (summary_status_line user) a slines)) line
  = Ok (line_bytes slines line).
Proof.
  intros Hve.
  pose proof (line_size_value
                (Summary.volume_error (foldl (summary_status_line user) a slines))
                line) as Hs.
  cbn zeta in Hs. rewrite Hs. unfold line_bytes. cbn zeta.
  rewrite volume_error_after_status_lines, Hve, lookup_empty.
  destruct (String.eqb _ "ERROR"); [done|].
  destruct (String.eqb _ "NODATA"); [done|].
  destruct (last_status_line slines _) as [sl|]; [|done].
  by destruct (String.eqb (ArclinkStatusLine.status sl) "ERROR").
Qed.

Lemma status_lines_streams (user : string) (slines : list ArclinkStatusLine.t)
    (a : Summary.t) :
  Summary.streams (foldl (summary_status_line user) a slines) = Summary.streams a.
Proof.
  induction slines as [|sline slines IH] using rev_ind; [done|].
  rewrite foldl_app. cbn [foldl].
  pose proof (summary_status_line_volumes user
                (foldl (summary_status_line user) a slines) sline) as H.
  cbn zeta in H. destruct (default _ _) as [[? ?] ?].
  destruct H as (_ & _ & ->). done.
Qed.

(** What one request adds to the station entries, whatever the requests
    before it have left behind. *)
Lemma summary_request_station_bytes (export : list string) (q : DatabaseQuery)
    (a : Summary.t) (request : ArclinkRequest.t) :
  let r := loaded_for_summary export q request in
  let slines := ArclinkRequest.statusLines (status_loaded q request) in
  let rlines := ArclinkRequest.requestLines r in
  is_Some (ArclinkRequest.summary r) ->
  Forall has_network rlines ->
  exists a',
    summary_request export q a request = Ok a'
    /\ forall stream,
         station_bytes a' stream
         = station_bytes a stream
           + sumZ (line_bytes slines
                     <$> filter (fun line => stream_of line = stream) rlines).
Proof.
  intros r slines rlines [s Hs] Hn. unfold summary_request.
  fold (status_loaded q request). fold slines.
  change (if negb (bool_decide (export = []))
             && String.eqb (upper (ArclinkRequest.type (status_loaded q request)))
                           "WAVEFORM"
             && bool_decide (length (ArclinkRequest.requestLines
                                       (status_loaded q request)) = 0%nat)
          then loadArclinkRequestLines q (status_loaded q request)
          else status_loaded q request) with r.
  fold rlines.
  set (a1 := Summary.mk (Summary.users a) (Summary.rtypes a) (Summary.streams a)
               (Summary.errors a) (Summary.messages a) (Summary.total a)
               (Summary.volumes a) (Summary.userIPs a) (Summary.clientIPs a)
               (Summary.nets a) (Summary.timeMin a) (Summary.timeMax a) ∅ ∅).
  set (a2 := foldl (summary_status_line (ArclinkRequest.userID request)) a1 slines).
  destruct (request_lines_station_bytes (line_bytes slines) rlines a2 Hn)
    as (a3 & -> & Hb).
  { intros line _. by apply line_size_after_status_lines. }
  cbn [mbind result_bind]. unfold ArclinkRequest.get_summary. rewrite Hs.
  cbn [mbind result_bind].
  destruct (setdefault _ _ _) as [[[[c l] e] b] users].
  eexists. split; [done|]. intros stream.
  unfold station_bytes at 1. cbn [Summary.streams].
  fold (station_bytes a3 stream). rewrite Hb. f_equal.
  apply station_bytes_eq. subst a2. by rewrite status_lines_streams.
Qed.

(** C7, as the code has it.  A status line whose status is "ERROR" adds no
    byte to the entry of its volume, whatever size it records, and raises the
    volume's flag; any other status line adds its size.  The body of the loop
    over the requests, on a request with a summary whose lines have a network
    code, adds to each station entry the bytes of the request's lines on that
    station, a line giving: nothing when its own status is "ERROR" or
    "NODATA"; otherwise nothing when the last status line of the same request
    carrying the line's volume is in error, its own recorded size when that
    status line is not in error, and its own recorded size when no status
    line of the request carries its volume.  The flags are those of the
    request at hand: what earlier requests left in the rollups plays no
    part. *)
Theorem failed_volumes_carry_no_bytes :
  (forall (user : string) (a : Summary.t) (sline : ArclinkStatusLine.t),
      let a' := summary_status_line user a sline in
      let volume := ArclinkStatusLine.volumeID sline in
      (ArclinkStatusLine.status sline = "ERROR" ->
         volume_bytes a' volume = volume_bytes a volume
         /\ Summary.volume_error a' !! volume = Some true)
      /\ (ArclinkStatusLine.status sline <> "ERROR" ->
         volume_bytes a' volume = volume_bytes a volume + ArclinkStatusLine.size sline
         /\ Summary.volume_error a' !! volume = Some false))
  /\ (forall (export : list string) (q : DatabaseQuery) (a : Summary.t)
             (request : ArclinkRequest.t),
        let r := loaded_for_summary export q request in
        let slines := ArclinkRequest.statusLines (status_loaded q request) in
        let rlines := ArclinkRequest.requestLines r in
        is_Some (ArclinkRequest.summary r) ->
        Forall has_network rlines ->
        exists a',
          summary_request export q a request = Ok a'
          /\ forall stream,
               station_bytes a' stream
               = station_bytes a stream
                 + sumZ (line_bytes slines
                           <$> filter (fun line => stream_of line = stream) rlines)).
Proof.
  split.
  - intros user a sline a' volume.
    pose proof (summary_status_line_volumes user a sline) as H. cbn zeta in H.
    unfold volume_bytes. subst a' volume.
    destruct (default (0, 0, 0) (Summary.volumes a !! ArclinkStatusLine.volumeID sline))
      as [[count error] s] eqn:Hd.
    destruct H as (-> & -> & _). rewrite !lookup_insert_eq. cbn [default from_option id snd].
    split; intros Hst.
    + rewrite Hst. cbn. split; [lia|done].
    + apply String.eqb_neq in Hst. by rewrite Hst.
  - intros export q a request. apply summary_request_station_bytes.
Qed.

Lemma failed_volumes_carry_no_bytes_witness :
  exists a a',
    summary_request [] loaded_query empty_summary failed_volume_request = Ok a
    /\ volume_bytes a "vol1" = 0
    /\ Summary.volume_error a !! "vol1" = Some true
    /\ summary_request [] loaded_query a delivered_request = Ok a'
    /\ station_bytes a' "GE.APE" = 50.
Proof.
  destruct failed_volumes_carry_no_bytes as [_ Hl].
  destruct (summary_request [] loaded_query empty_summary failed_volume_request)
    as [a|e] eqn:Ha; [|by vm_compute in Ha].
  destruct (Hl [] loaded_query a delivered_request) as (a' & Ha' & Hb);
    [by eexists|by repeat constructor|].
  exists a, a'. specialize (Hb "GE.APE").
  vm_compute in Ha. injection Ha as <-.
  split_and!; [done|done|done|exact Ha'|].
  rewrite Hb. by vm_compute.
Defined.

(** C7, counterexample to the fall-back as worded: the volume of the request
    line is mentioned by no status line and the line records 4096 bytes, yet
    the line, whose own status is "ERROR", adds no byte to its station. *)
Lemma failed_line_adds_no_bytes :
  exists a,
    printRequestSummary [] loaded_query t2021 (t2021 + 86400) [failed_line_request]
    = Ok a
    /\ (forall line, line ∈ ArclinkRequest.requestLines failed_line_request ->
          last_status_line (ArclinkRequest.statusLines failed_line_request)
            (ArclinkStatusLine.volumeID (ArclinkRequestLine.status line)) = None
          /\ ArclinkStatusLine.size (ArclinkRequestLine.status line) = 4096
          /\ stream_of line = "GE.APE")
    /\ Summary.streams a !! "GE.APE" = Some (1, 0, 1, 0, 3600)
    /\ station_bytes a "GE.APE" = 0.
Proof.
  eexists. split; [vm_compute; reflexivity|]. split_and!; [|done..].
  intros line Hl. apply list_elem_of_singleton in Hl as ->. done.
Qed.

(** ** html_escape *)

Lemma html_escape_table_lookup (c : ascii) :
  html_escape_table !! String c ""
  = if Ascii.eqb c "&" then Some "&amp;"
    else if Ascii.eqb c dquote then Some "&quot;"
    else if Ascii.eqb c "'" then Some "&apos;"
    else if Ascii.eqb c ">" then Some "&gt;"
    else if Ascii.eqb c "<" then Some "&lt;"
    else None.
Proof.
  destruct (Ascii.eqb_spec c "&") as [->|H1]; [by vm_compute|].
  destruct (Ascii.eqb_spec c dquote) as [->|H2]; [by vm_compute|].
  destruct (Ascii.eqb_spec c "'") as [->|H3]; [by vm_compute|].
  destruct (Ascii.eqb_spec c ">") as [->|H4]; [by vm_compute|].
  destruct (Ascii.eqb_spec c "<") as [->|H5]; [by vm_compute|].
  unfold html_escape_table. cbn [list_to_map foldr uncurry fst snd].
  rewrite !lookup_insert_ne by (intros [=]; congruence).
  apply lookup_empty.
Qed.

Lemma string_app_assoc (a b c : string) : (a +:+ b) +:+ c = a +:+ (b +:+ c).
Proof.
  induction a as [|x a IH]; [by rewrite !string_app_nil_l|].
  by rewrite !string_app_cons, IH.
Qed.

Lemma occurs_app (c : ascii) (a b : string) :
  occurs c (a +:+ b) <-> occurs c a \/ occurs c b.
Proof.
  unfold occurs. induction a as [|x a IH].
  - rewrite string_app_nil_l. cbn. tauto.
  - rewrite string_app_cons. cbn. rewrite IH. tauto.
Qed.

Lemma occurs_cons (c x : ascii) (s : string) :
  occurs c (String x s) <-> x = c \/ occurs c s.
Proof. reflexivity. Qed.

(** The replacement of one character. *)
Lemma html_escape_cons (c : ascii) (rest : string) :
  html_escape (String c rest)
  = (if Ascii.eqb c "&" then "&amp;"
     else if Ascii.eqb c dquote then "&quot;"
     else if Ascii.eqb c "'" then "&apos;"
     else if Ascii.eqb c ">" then "&gt;"
     else if Ascii.eqb c "<" then "&lt;"
     else String c "") +:+ html_escape rest.
Proof.
  cbn [html_escape]. rewrite html_escape_table_lookup.
  by repeat destruct (Ascii.eqb c _).
Qed.

Ltac escape_cases c :=
  rewrite (html_escape_cons c) in *;
  let H1 := fresh "Hamp" in let H2 := fresh "Hquot" in let H3 := fresh "Hapos" in
  let H4 := fresh "Hgt" in let H5 := fresh "Hlt" in
  destruct (Ascii.eqb_spec c "&") as [->|H1];
  [|destruct (Ascii.eqb_spec c dquote) as [->|H2];
    [|destruct (Ascii.eqb_spec c "'") as [->|H3];
      [|destruct (Ascii.eqb_spec c ">") as [->|H4];
        [|destruct (Ascii.eqb_spec c "<") as [->|H5]]]]];
  rewrite ?string_app_cons, ?string_app_nil_l in *.

Lemma html_escape_app (s1 s2 : string) :
  html_escape (s1 +:+ s2) = html_escape s1 +:+ html_escape s2.
Proof.
  induction s1 as [|c s1 IH]; [by rewrite !string_app_nil_l|].
  rewrite string_app_cons, !html_escape_cons, IH. by rewrite string_app_assoc.
Qed.

Lemma html_escape_length (s : string) :
  (String.length s <= String.length (html_escape s) <= 6 * String.length s)%nat.
Proof.
  induction s as [|c s IH]; [cbn; lia|].
  rewrite html_escape_cons, string_app_length.
  repeat destruct (Ascii.eqb c _); cbn [String.length]; lia.
Qed.

Lemma html_escape_markup (s : string) :
  occurs "&" (html_escape s) <-> exists c, occurs c s /\ markup_char c = true.
Proof.
  induction s as [|c s IH].
  - cbn. split; [done|]. by intros (? & [] & _).
  - assert (Hc : occurs "&" (html_escape (String c s))
                 <-> markup_char c = true \/ occurs "&" (html_escape s)).
    { unfold markup_char. escape_cases c; rewrite ?occurs_cons; cbn [orb].
      1-5: split; [by left|by left].
      split; intros [?|?]; [done|by right|done|by right]. }
    rewrite Hc, IH. split.
    + intros [H|(x & Hx & Hm)]; [exists c; split; [by left|done]|].
      exists x. split; [by right|done].
    + intros (x & [->|Hx] & Hm); [by left|]. right. by exists x.
Qed.

Lemma html_escape_plain (s : string) :
  (forall c, occurs c s -> markup_char c = false) -> html_escape s = s.
Proof.
  induction s as [|c s IH]; intros H; [done|].
  assert (Hc : markup_char c = false) by (apply H; by left).
  rewrite html_escape_cons, IH by (intros x Hx; apply H; by right).
  unfold markup_char in Hc.
  destruct (Ascii.eqb c "&"); [done|]. destruct (Ascii.eqb c dquote); [done|].
  destruct (Ascii.eqb c "'"); [done|]. destruct (Ascii.eqb c ">"); [done|].
  destruct (Ascii.eqb c "<"); [done|].
  by rewrite string_app_cons, string_app_nil_l.
Qed.

Lemma html_escape_fixed (s : string) :
  html_escape s = s -> forall c, occurs c s -> markup_char c = false.
Proof.
  induction s as [|c s IH]; intros H x Hx; [done|].
  pose proof (html_escape_length s) as Hlen.
  assert (Hs : markup_char c = false /\ html_escape s = s).
  { unfold markup_char.
    escape_cases c; try (injection H as H; try done).
    apply (f_equal String.length) in H. cbn [String.length] in H. lia. }
  destruct Hs as [Hc Hs]. destruct Hx as [<-|Hx]; [done|]. by apply IH.
Qed.

Lemma string_cons_inj (a b : ascii) (s t : string) :
  String a s = String b t -> a = b /\ s = t.
Proof. by intros [= -> ->]. Qed.

Lemma html_escape_inj (s1 s2 : string) :
  html_escape s1 = html_escape s2 -> s1 = s2.
Proof.
  revert s2. induction s1 as [|a s1 IH]; intros [|b s2] H.
  - done.
  - exfalso. escape_cases b; discriminate H.
  - exfalso. escape_cases a; discriminate H.
  - escape_cases a; escape_cases b;
      repeat (match goal with
              | H : String _ _ = String _ _ |- _ =>
                let Hc := fresh "Hc" in
                apply string_cons_inj in H; destruct H as [Hc H];
                try discriminate Hc
              end);
      try subst; try done; f_equal; by apply IH.
Qed.

Lemma html_escape_chars (s : string) (c : ascii) :
  occurs c (html_escape s) -> c = "&"%char \/ markup_char c = false.
Proof.
  induction s as [|x s IH]; [done|].
  unfold markup_char in *.
  escape_cases x; rewrite ?occurs_cons; intros H.
  1-5: repeat (destruct H as [<-|H]; [by auto|]); by apply IH.
  destruct H as [<-|H]; [|by apply IH].
  right. apply Ascii.eqb_neq in Hamp, Hquot, Hapos, Hgt, Hlt.
  by rewrite Hamp, Hquot, Hapos, Hgt, Hlt.
Qed.

(** X20: the text [html_escape] returns holds none of the characters
    less-than, greater-than, double quote and apostrophe, whatever the input;
    it is at least as long as the input and at most six times as long; and
    escaping a concatenation is concatenating the escaped parts. *)
Theorem html_escape_leaves_no_markup :
  forall text : string,
    ~ occurs "<" (html_escape text)
    /\ ~ occurs ">" (html_escape text)
    /\ ~ occurs dquote (html_escape text)
    /\ ~ occurs "'" (html_escape text)
    /\ (String.length text <= String.length (html_escape text)
        <= 6 * String.length text)%nat
    /\ forall rest, html_escape (text +:+ rest) = html_escape text +:+ html_escape rest.
Proof.
  intros text. split_and!;
    try (intros H; by apply html_escape_chars in H as [H|H]).
  - apply html_escape_length.
  - apply html_escape_length.
  - intros rest. apply html_escape_app.
Qed.

(** X21: [html_escape] loses nothing: two different texts have different
    escaped forms. *)
Theorem html_escape_tells_texts_apart :
  forall s1 s2 : string, s1 <> s2 -> html_escape s1 <> html_escape s2.
Proof. intros s1 s2 Hne H. by apply Hne, html_escape_inj. Qed.

Lemma html_escape_tells_texts_apart_witness :
  html_escape "<" <> html_escape "&lt;".
Proof. apply html_escape_tells_texts_apart. discriminate. Defined.

(** X22: [html_escape] returns its argument unchanged if and only if the
    argument holds none of the five characters of the table; and escaping an
    escaped text changes it again, unless the original held none of them:
    the function is idempotent on such texts only (the caveat of its
    docstring). *)
Theorem html_escape_changes_markup_only :
  forall text : string,
    (html_escape text = text
     <-> forall c, occurs c text -> markup_char c = false)
    /\ (html_escape (html_escape text) = html_escape text
        <-> html_escape text = text).
Proof.
  intros text.
  assert (H1 : html_escape text = text
               <-> forall c, occurs c text -> markup_char c = false)
    by (split; [apply html_escape_fixed|apply html_escape_plain]).
  split; [done|]. split; [|intros H; by rewrite H].
  intros H. pose proof (html_escape_fixed _ H) as Hf. apply H1. intros c Hc.
  destruct (markup_char c) eqn:Hm; [|done].
  assert (Ha : occurs "&" (html_escape text))
    by (apply html_escape_markup; by exists c).
  by apply Hf in Ha.
Qed.

(** ** wwwApp: the query string *)

Lemma re_split_not_nil (s : string) : re_split s <> [].
Proof.
  induction s as [|a s IH]; [done|]. cbn [re_split].
  destruct (is_separator a); [done|]. by destruct (re_split s).
Qed.

Lemma re_split_app (q1 q2 : string) (sep : ascii) :
  is_separator sep = true ->
  re_split (q1 +:+ String sep q2) = re_split q1 ++ re_split q2.
Proof.
  intros Hsep. induction q1 as [|a q1 IH].
  - rewrite string_app_nil_l. cbn [re_split]. by rewrite Hsep.
  - rewrite string_app_cons. cbn [re_split]. rewrite IH.
    destruct (is_separator a); [done|].
    pose proof (re_split_not_nil q1) as Hn.
    by destruct (re_split q1).
Qed.

Lemma re_split_plain (e : string) :
  (forall c, occurs c e -> is_separator c = false) -> re_split e = [e].
Proof.
  induction e as [|a e IH]; intros H; [done|].
  cbn [re_split]. rewrite (H a) by (by left).
  rewrite IH by (intros c Hc; apply H; by right). done.
Qed.

Lemma args_loop_union (l : list string) (d : gmap string string) :
  foldl (fun d e =>
           match match_pair e with
           | Some (k, v) => <[k := replace_pct3A (replace_plus v)]> d
           | None => d
           end) d l
  = foldl (fun d e =>
             match match_pair e with
             | Some (k, v) => <[k := replace_pct3A (replace_plus v)]> d
             | None => d
             end) ∅ l ∪ d.
Proof.
  induction l as [|e l IH] using rev_ind;
    [cbn [foldl]; by rewrite (left_id_L ∅ (∪))|].
  rewrite !foldl_app. cbn [foldl]. rewrite IH.
  destruct (match_pair e) as [[k v]|]; [|done].
  by rewrite insert_union_l.
Qed.

Lemma rest_of_line_plain (v : string) :
  (forall c, occurs c v -> c <> newline) -> rest_of_line v = Some v.
Proof.
  induction v as [|c v IH]; intros H; [done|].
  cbn [rest_of_line].
  destruct (Ascii.eqb_spec c newline) as [->|Hc]; [by destruct (H newline); [left|]|].
  rewrite IH by (intros x Hx; apply H; by right). done.
Qed.

Lemma rest_of_line_no_equals (s v : string) :
  rest_of_line s = Some v -> forall c, occurs c v -> occurs c s.
Proof.
  revert v. induction s as [|a s IH]; intros v H c Hc.
  - by injection H as <-.
  - cbn [rest_of_line] in H. destruct (Ascii.eqb a newline).
    + destruct s; [|done]. by injection H as <-.
    + destruct (rest_of_line s) as [w|] eqn:Hw; [|done]. injection H as <-.
      destruct Hc as [<-|Hc]; [by left|]. right. by apply (IH w).
Qed.

Lemma search_pair_found (k v : string) :
  forall key : string,
    (forall c, occurs c k -> c <> "="%char /\ c <> newline) ->
    (forall c, occurs c v -> c <> newline) ->
    search_pair key (k +:+ String "=" v) = Some (key +:+ k, v).
Proof.
  induction k as [|a k IH]; intros key Hk Hv.
  - rewrite string_app_nil_l, string_app_nil_r. cbn [search_pair].
    rewrite Ascii.eqb_refl. by rewrite rest_of_line_plain.
  - rewrite string_app_cons. cbn [search_pair].
    destruct (Hk a) as [He Hn]; [by left|].
    apply Ascii.eqb_neq in He, Hn. rewrite He, Hn.
    rewrite IH by (try done; intros c Hc; apply Hk; by right).
    by rewrite string_app_assoc, string_app_cons, string_app_nil_l.
Qed.

Lemma search_pair_no_equals (s : string) :
  forall key : string,
    (forall c, occurs c s -> c <> "="%char) -> search_pair key s = None.
Proof.
  induction s as [|a s IH]; intros key H; [done|].
  cbn [search_pair].
  assert (He : Ascii.eqb a "=" = false) by (apply Ascii.eqb_neq, H; by left).
  rewrite He. destruct (Ascii.eqb a newline); [done|].
  apply IH. intros c Hc. apply H. by right.
Qed.

Lemma re_split_occurs (e : string) :
  Forall (fun p => forall c, occurs c p -> occurs c e) (re_split e).
Proof.
  induction e as [|a e IH]; [by repeat constructor|].
  cbn [re_split]. destruct (is_separator a).
  - constructor; [done|]. eapply Forall_impl; [exact IH|].
    cbn. intros p Hp c Hc. right. by apply Hp.
  - destruct (re_split e) as [|w ws] eqn:E; [by apply re_split_not_nil in E|].
    apply Forall_cons in IH as [Hw Hws]. constructor.
    + intros c [<-|Hc]; [by left|]. right. by apply Hw.
    + eapply Forall_impl; [exact Hws|]. cbn. intros p Hp c Hc. right. by apply Hp.
Qed.

Lemma match_pair_no_equals (e : string) :
  (forall c, occurs c e -> c <> "="%char) -> match_pair e = None.
Proof.
  destruct e as [|a e]; [done|]. intros H. cbn [match_pair].
  destruct (Ascii.eqb a newline); [done|].
  apply search_pair_no_equals. intros c Hc. apply H. by right.
Qed.

Lemma match_pair_empty_key (v : string) :
  (forall c, occurs c v -> c <> "="%char) -> match_pair (String "=" v) = None.
Proof.
  intros H. cbn [match_pair]. by apply search_pair_no_equals.
Qed.

Lemma match_pair_found (k v : string) :
  k <> "" ->
  (forall c, occurs c k -> c <> "="%char /\ c <> newline) ->
  (forall c, occurs c v -> c <> newline) ->
  match_pair (k +:+ String "=" v) = Some (k, v).
Proof.
  intros Hne Hk Hv. destruct k as [|a k]; [done|].
  rewrite string_app_cons. cbn [match_pair].
  destruct (Hk a) as [_ Hn]; [by left|]. apply Ascii.eqb_neq in Hn. rewrite Hn.
  rewrite search_pair_found by (try done; intros c Hc; apply Hk; by right).
  by rewrite string_app_cons, string_app_nil_l.
Qed.

Lemma wwwApp_args_sequence (q1 q2 : string) (sep : ascii) :
  is_separator sep = true ->
  wwwApp_args (q1 +:+ String sep q2) = wwwApp_args q2 ∪ wwwApp_args q1.
Proof.
  intros Hsep. unfold wwwApp_args. rewrite re_split_app by done.
  rewrite foldl_app. apply args_loop_union.
Qed.

Lemma wwwApp_args_pair (k v : string) :
  k <> "" ->
  (forall c, occurs c k -> c <> "="%char /\ c <> newline /\ is_separator c = false) ->
  (forall c, occurs c v -> c <> newline /\ is_separator c = false) ->
  wwwApp_args (k +:+ String "=" v) = {[k := replace_pct3A (replace_plus v)]}.
Proof.
  intros Hne Hk Hv. unfold wwwApp_args.
  rewrite re_split_plain; cycle 1.
  { intros c Hc. apply occurs_app in Hc as [Hc|[<-|Hc]]; [by apply Hk|done|by apply Hv]. }
  cbn [foldl]. rewrite match_pair_found; [done..| |].
  - intros c Hc. destruct (Hk c Hc) as (? & ? & _). by split.
  - intros c Hc. by destruct (Hv c Hc).
Qed.

(** X23: how [wwwApp] reads the query string.  Each of "?", "|" and "&"
    separates two parts, and the dictionary of the whole is that of the
    second part completed by that of the first: a later pair replaces an
    earlier one with the same key.  A part key=value without newline whose
    key is not empty and holds no "=", the value possibly holding some,
    gives the one entry
    key -> value with every "+" read as a space and then every "%3A" as a
    colon; no other escape is decoded.  A part without "=", or with "="
    only as its first character, gives no entry. *)
Theorem wwwApp_args_reads_the_pairs :
  (forall (q1 q2 : string) (sep : ascii),
      is_separator sep = true ->
      wwwApp_args (q1 +:+ String sep q2) = wwwApp_args q2 ∪ wwwApp_args q1)
  /\ (forall k v : string,
        k <> "" ->
        (forall c, occurs c k ->
                   c <> "="%char /\ c <> newline /\ is_separator c = false) ->
        (forall c, occurs c v -> c <> newline /\ is_separator c = false) ->
        wwwApp_args (k +:+ String "=" v) = {[k := replace_pct3A (replace_plus v)]})
  /\ (forall e : string,
        (forall c, occurs c e -> c <> "="%char) -> wwwApp_args e = ∅)
  /\ (forall v : string,
        (forall c, occurs c v -> c <> "="%char /\ is_separator c = false) ->
        wwwApp_args (String "=" v) = ∅).
Proof.
  split_and!.
  - apply wwwApp_args_sequence.
  - apply wwwApp_args_pair.
  - intros e He. unfold wwwApp_args.
    pose proof (re_split_occurs e) as Hp.
    induction (re_split e) as [|p l IH] using rev_ind; [done|].
    apply Forall_app in Hp as [Hl Hp]. apply Forall_cons in Hp as [Hp _].
    rewrite foldl_app. cbn [foldl]. rewrite IH by done.
    rewrite match_pair_no_equals; [done|]. intros c Hc. by apply He, Hp.
  - intros v Hv. unfold wwwApp_args.
    rewrite re_split_plain; cycle 1.
    { intros c [<-|Hc]; [done|]. by apply Hv. }
    cbn [foldl]. rewrite match_pair_empty_key; [done|].
    intros c Hc. by apply Hv.
Qed.

(** ** The message link: from the summary page to the selection *)

Lemma replace_pct20_cons_ne (c : ascii) (s : string) :
  c <> "%"%char -> replace_pct20 (String c s) = String c (replace_pct20 s).
Proof.
  intros H. destruct c as [[] [] [] [] [] [] [] []]; try done.
Qed.

Lemma replace_pct3A_cons_ne (c : ascii) (s : string) :
  c <> "%"%char -> replace_pct3A (String c s) = String c (replace_pct3A s).
Proof.
  intros H. destruct c as [[] [] [] [] [] [] [] []]; try done.
Qed.




Lemma replace_plus_plain (s : string) :
  (forall c, occurs c s -> c <> "+"%char) -> replace_plus s = s.
Proof.
  induction s as [|a s IH]; intros H; [done|]. cbn [replace_plus].
  assert (Ha : Ascii.eqb a "+" = false) by (apply Ascii.eqb_neq, H; by left).
  rewrite Ha, IH by (intros c Hc; apply H; by right). done.
Qed.

(** Decoding what [replace_space] encoded, when the text holds no "%". *)
Lemma decode_replace_space (m : string) :
  (forall c, occurs c m -> c <> "%"%char) ->
  replace_pct3A (replace_space m) = replace_space m
  /\ replace_pct20 (replace_space m) = m.
Proof.
  induction m as [|a m IH]; intros H; [done|].
  destruct IH as [IH1 IH2]; [intros c Hc; apply H; by right|].
  cbn [replace_space]. destruct (Ascii.eqb_spec a " ") as [->|Ha].
  - rewrite !string_app_cons, string_app_nil_l. split.
    + change (replace_pct3A (String "%" (String "2" (String "0" (replace_space m)))))
        with (String "%" (String "2" (replace_pct3A (String "0" (replace_space m))))).
      by rewrite replace_pct3A_cons_ne, IH1.
    + change (replace_pct20 (String "%" (String "2" (String "0" (replace_space m)))))
        with (String " " (replace_pct20 (replace_space m))).
      by rewrite IH2.
  - assert (Hp : a <> "%"%char) by (apply H; by left).
    by rewrite replace_pct3A_cons_ne, replace_pct20_cons_ne, IH1, IH2.
Qed.



(** ** The calendar, backwards *)

Lemma days_from_civil_of_days (z : Z) :
  let '(y, m, d) := Time.civil_from_days z in days_from_civil y m d = z.
Proof.
  pose proof (civil_from_days_range z) as Hr.
  unfold Time.civil_from_days, days_from_civil in *.
  cbv beta zeta iota delta [fst snd] in *.
  set (z' := z + 719468) in *.
  pose proof (Z.mod_pos_bound z' 146097 ltac:(lia)) as Hdoe.
  pose proof (Z.div_mod z' 146097 ltac:(lia)) as Hz.
  set (era := z' / 146097) in *. set (doe := z' mod 146097) in *.
  pose proof (year_of_era_range doe Hdoe) as Hyoe.
  pose proof (day_of_year_range doe Hdoe) as Hdoy.
  set (yoe := (doe - doe / 1460 + doe / 36524 - doe / 146096) / 365) in *.
  set (doy := doe - (365 * yoe + yoe / 4 - yoe / 100)) in *.
  set (mp := (5 * doy + 2) / 153) in *.
  assert (Hmp : 0 <= mp <= 11) by (subst mp; Z.div_mod_to_equations; lia).
  assert (Hz0 : z' = z + 719468) by done.
  clearbody yoe era doe z'.
  destruct (Z.ltb_spec mp 10) as [Hlt|Hge].
  - assert (Hm : (mp + 3 - 1) / 12 = 0 /\ (mp + 3 - 1) mod 12 + 1 = mp + 3)
      by (Z.div_mod_to_equations; lia).
    destruct Hm as [-> ->].
    destruct (Z.leb_spec (mp + 3) 2) as [?|_]; [lia|].
    replace (yoe + era * 400 + 0 + 0) with (yoe + era * 400) by lia.
    assert (He : (yoe + era * 400) / 400 = era /\ (yoe + era * 400) mod 400 = yoe)
      by (Z.div_mod_to_equations; lia).
    destruct He as [-> ->].
    replace (mp + 3 - 3) with mp by lia.
    subst mp doy. Z.div_mod_to_equations. lia.
  - assert (Hm : (mp - 9 - 1) / 12 = 0 /\ (mp - 9 - 1) mod 12 + 1 = mp - 9)
      by (Z.div_mod_to_equations; lia).
    destruct Hm as [-> ->].
    destruct (Z.leb_spec (mp - 9) 2) as [_|?]; [|lia].
    replace (yoe + era * 400 + 1 + 0 - 1) with (yoe + era * 400) by lia.
    assert (He : (yoe + era * 400) / 400 = era /\ (yoe + era * 400) mod 400 = yoe)
      by (Z.div_mod_to_equations; lia).
    destruct He as [-> ->].
    replace (mp - 9 + 9) with mp by lia.
    subst mp doy. Z.div_mod_to_equations. lia.
Qed.

Lemma Time_of_fields_of_time (t : Time.t) :
  Time_of_fields (Time.year t) (Time.month t) (Time.mday t)
                 (Time.hour t) (Time.minute t) (Time.second t) = t.
Proof.
  unfold Time_of_fields, Time.year, Time.month, Time.mday.
  pose proof (days_from_civil_of_days (Time.days t)) as H.
  destruct (Time.civil_from_days (Time.days t)) as [[y m] d]. cbn [fst snd].
  rewrite H. unfold Time.days, Time.hour, Time.minute, Time.second.
  Z.div_mod_to_equations. lia.
Qed.

Lemma Time_of_fields_midnight (t : Time.t) :
  Time_of_fields (Time.year t) (Time.month t) (Time.mday t) 0 0 0 = midnight t.
Proof.
  unfold Time_of_fields, Time.year, Time.month, Time.mday, midnight.
  pose proof (days_from_civil_of_days (Time.days t)) as H.
  destruct (Time.civil_from_days (Time.days t)) as [[y m] d]. cbn [fst snd].
  rewrite H. unfold Time.days. Z.div_mod_to_equations. lia.
Qed.

(** ** Decimal digits *)

Ltac digit_cases k :=
  let H := fresh in
  assert (H : k = 0 \/ k = 1 \/ k = 2 \/ k = 3 \/ k = 4 \/ k = 5 \/ k = 6
              \/ k = 7 \/ k = 8 \/ k = 9) by lia;
  destruct H as [->|[->|[->|[->|[->|[->|[->|[->|[->| ->]]]]]]]]].

Lemma digit_char_spec (k : Z) :
  0 <= k <= 9 -> is_digit (digit_char k) = true /\ digit_value (digit_char k) = k.
Proof. intros H. by digit_cases k. Qed.

(** What a digit is not. *)
Lemma is_digit_spec (c : ascii) :
  is_digit c = true ->
  c_isspace c = false /\ py_isspace c = false /\ is_separator c = false
  /\ c <> "-"%char /\ c <> ":"%char /\ c <> "%"%char /\ c <> "+"%char
  /\ c <> "="%char /\ c <> "_"%char /\ c <> newline.
Proof.
  destruct c as [[] [] [] [] [] [] [] []]; intros H; try discriminate H;
    by split_and!.
Qed.

Lemma string_of_digit (k : Z) (l : Decimal.uint) :
  0 <= k <= 9 ->
  NilZero.string_of_uint (digit_of k l)
  = String (digit_char k) (NilEmpty.string_of_uint l).
Proof. intros H. by digit_cases k. Qed.

Lemma string_of_digit_inner (k : Z) (l : Decimal.uint) :
  0 <= k <= 9 ->
  NilEmpty.string_of_uint (digit_of k l)
  = String (digit_char k) (NilEmpty.string_of_uint l).
Proof. intros H. by digit_cases k. Qed.

Lemma of_uint_acc_digit (k : Z) (l : Decimal.uint) (acc : positive) :
  0 <= k <= 9 ->
  Pos.of_uint_acc (digit_of k l) acc
  = Pos.of_uint_acc l (Z.to_pos (Z.pos acc * 10 + k)).
Proof.
  intros H. digit_cases k; cbn [digit_of Pos.of_uint_acc]; f_equal; lia.
Qed.

Lemma of_uint_digit (k : Z) (l : Decimal.uint) :
  1 <= k <= 9 ->
  Pos.of_uint (digit_of k l) = N.pos (Pos.of_uint_acc l (Z.to_pos k)).
Proof. intros H. digit_cases k; (lia || done). Qed.

Lemma unorm_digit (k : Z) (l : Decimal.uint) :
  1 <= k <= 9 -> Decimal.unorm (digit_of k l) = digit_of k l.
Proof. intros H. digit_cases k; (lia || done). Qed.

(** The rendering of a number with a leading digit [a] and the further
    digits [ks], for the lengths the dates have. *)
Lemma dec_of_digits (u : Decimal.uint) (v : Z) :
  Decimal.unorm u = u -> Z.of_uint u = v -> dec v = NilZero.string_of_uint u.
Proof.
  intros Hn <-. unfold dec.
  change (Z.of_uint u) with (Z.of_int (Decimal.Pos u)).
  rewrite DecimalZ.to_of. cbn [Decimal.norm]. by rewrite Hn.
Qed.

Lemma dec_one (a : Z) :
  0 <= a <= 9 -> dec a = String (digit_char a) "".
Proof. intros H. by digit_cases a. Qed.

Lemma dec_two (a b : Z) :
  1 <= a <= 9 -> 0 <= b <= 9 ->
  dec (a * 10 + b) = String (digit_char a) (String (digit_char b) "").
Proof.
  intros Ha Hb.
  rewrite (dec_of_digits (digit_of a (digit_of b Decimal.Nil))).
  - by rewrite string_of_digit, string_of_digit_inner by lia.
  - by apply unorm_digit.
  - unfold Z.of_uint. rewrite of_uint_digit, of_uint_acc_digit by lia.
    cbn [Pos.of_uint_acc Z.of_N]. lia.
Qed.

Lemma dec_four (a b c d : Z) :
  1 <= a <= 9 -> 0 <= b <= 9 -> 0 <= c <= 9 -> 0 <= d <= 9 ->
  dec (((a * 10 + b) * 10 + c) * 10 + d)
  = String (digit_char a) (String (digit_char b)
      (String (digit_char c) (String (digit_char d) ""))).
Proof.
  intros Ha Hb Hc Hd.
  rewrite (dec_of_digits
             (digit_of a (digit_of b (digit_of c (digit_of d Decimal.Nil))))).
  - by rewrite string_of_digit, !string_of_digit_inner by lia.
  - by apply unorm_digit.
  - unfold Z.of_uint. rewrite of_uint_digit, !of_uint_acc_digit by lia.
    cbn [Pos.of_uint_acc Z.of_N]. lia.
Qed.

Lemma dec_year (y : Z) :
  1000 <= y <= 9999 ->
  dec y = String (digit_char (y / 1000)) (String (digit_char (y / 100 mod 10))
            (String (digit_char (y / 10 mod 10)) (String (digit_char (y mod 10)) ""))).
Proof.
  intros H.
  rewrite <- dec_four by (Z.div_mod_to_equations; lia).
  f_equal. Z.div_mod_to_equations. lia.
Qed.

Lemma fmt_02d_digits (n : Z) :
  0 <= n <= 99 ->
  fmt_02d n = String (digit_char (n / 10)) (String (digit_char (n mod 10)) "").
Proof.
  intros H. unfold fmt_02d.
  destruct (Z.ltb_spec n 10) as [Hlt|Hge].
  - replace (0 <=? n) with true by lia. cbn [andb].
    replace (n / 10) with 0 by (Z.div_mod_to_equations; lia).
    replace (n mod 10) with n by (Z.div_mod_to_equations; lia).
    by rewrite dec_one by lia.
  - rewrite andb_false_r.
    rewrite <- dec_two by (Z.div_mod_to_equations; lia).
    f_equal. Z.div_mod_to_equations. lia.
Qed.

(** ** Reading numbers: [get_number] and [strptime] *)

Lemma skip_spaces_digit (c : ascii) (s : string) :
  is_digit c = true -> skip_spaces (String c s) = String c s.
Proof. intros H. cbn [skip_spaces]. by destruct (is_digit_spec c H) as [-> _]. Qed.

Lemma get_number_two (from to a b : Z) (rest : string) :
  0 <= a <= 9 -> 0 <= b <= 9 -> from <= a * 10 + b <= to ->
  get_number from to 2 (String (digit_char a) (String (digit_char b) rest))
  = Some (a * 10 + b, rest).
Proof.
  intros Ha Hb Hv.
  destruct (digit_char_spec a Ha) as [Da Va], (digit_char_spec b Hb) as [Db Vb].
  unfold get_number. rewrite skip_spaces_digit, Da by done.
  cbn [Nat.sub more_digits]. rewrite Va, Db, Vb.
  replace (a * 10 <=? to) with true by lia. cbn [andb].
  replace (from <=? a * 10 + b) with true by lia.
  by replace (a * 10 + b <=? to) with true by lia.
Qed.

Lemma get_number_fmt_02d (from to v : Z) (rest : string) :
  0 <= v <= 99 -> from <= v <= to ->
  get_number from to 2 (fmt_02d v +:+ rest) = Some (v, rest).
Proof.
  intros Hv Hr. rewrite fmt_02d_digits by done.
  rewrite !string_app_cons, string_app_nil_l.
  rewrite get_number_two by (Z.div_mod_to_equations; lia).
  do 2 f_equal. Z.div_mod_to_equations. lia.
Qed.

Lemma get_number_year (y : Z) (rest : string) :
  1000 <= y <= 9999 -> get_number 0 9999 4 (dec y +:+ rest) = Some (y, rest).
Proof.
  intros Hy. rewrite dec_year by done.
  rewrite !string_app_cons, string_app_nil_l.
  set (a := y / 1000). set (b := y / 100 mod 10). set (c := y / 10 mod 10).
  set (d := y mod 10).
  assert (H : 1 <= a <= 9 /\ 0 <= b <= 9 /\ 0 <= c <= 9 /\ 0 <= d <= 9
              /\ ((a * 10 + b) * 10 + c) * 10 + d = y)
    by (subst a b c d; Z.div_mod_to_equations; lia).
  clearbody a b c d. destruct H as (Ha & Hb & Hc & Hd & Hval).
  destruct (digit_char_spec a ltac:(lia)) as [Da Va], (digit_char_spec b Hb) as [Db Vb],
    (digit_char_spec c Hc) as [Dc Vc], (digit_char_spec d Hd) as [Dd Vd].
  unfold get_number. rewrite skip_spaces_digit, Da by done.
  cbn [Nat.sub more_digits]. rewrite Va, Db, Vb.
  replace (a * 10 <=? 9999) with true by lia. cbn [andb more_digits].
  rewrite Dc, Vc. replace ((a * 10 + b) * 10 <=? 9999) with true by lia.
  cbn [andb more_digits]. rewrite Dd, Vd.
  replace (((a * 10 + b) * 10 + c) * 10 <=? 9999) with true by lia.
  cbn [andb]. rewrite Hval.
  replace (0 <=? y) with true by lia. by replace (y <=? 9999) with true by lia.
Qed.

Lemma minute_range (t : Time.t) : 0 <= Time.minute t < 60.
Proof. unfold Time.minute. Z.div_mod_to_equations. lia. Qed.

Lemma second_range (t : Time.t) : 0 <= Time.second t < 60.
Proof. unfold Time.second. Z.div_mod_to_equations. lia. Qed.

Lemma date_range (t : Time.t) :
  1 <= Time.month t <= 12 /\ 1 <= Time.mday t <= 31.
Proof. apply civil_from_days_range. Qed.

Lemma toString_time (t : Time.t) :
  Time.toString "%H:%M:%S" t
  = fmt_02d (Time.hour t) +:+ String ":"
      (fmt_02d (Time.minute t) +:+ String ":" (fmt_02d (Time.second t))).
Proof. cbn. by rewrite string_app_nil_r. Qed.

Lemma toString_cons_ne (c : ascii) (fmt : string) (t : Time.t) :
  c <> "%"%char -> Time.toString (String c fmt) t = String c (Time.toString fmt t).
Proof. intros H. destruct c as [[] [] [] [] [] [] [] []]; try done. Qed.

Lemma toString_datetime (sep : ascii) (t : Time.t) :
  sep <> "%"%char ->
  Time.toString ("%Y-%m-%d" +:+ String sep "%H:%M:%S") t
  = dec (Time.year t) +:+ String "-" (fmt_02d (Time.month t) +:+ String "-"
      (fmt_02d (Time.mday t) +:+ String sep (fmt_02d (Time.hour t) +:+ String ":"
        (fmt_02d (Time.minute t) +:+ String ":" (fmt_02d (Time.second t)))))).
Proof.
  intros Hsep. rewrite !string_app_cons, string_app_nil_l.
  change (Time.toString (String "%" (String "Y" (String "-" (String "%" (String "m"
            (String "-" (String "%" (String "d" (String sep "%H:%M:%S")))))))))
            t)
    with (dec (Time.year t) +:+ String "-" (fmt_02d (Time.month t) +:+ String "-"
            (fmt_02d (Time.mday t) +:+ Time.toString (String sep "%H:%M:%S") t))).
  by rewrite toString_cons_ne, toString_time by done.
Qed.

(** Reading the time of day, after the date. *)
Lemma strptime_time (t : Time.t) (y m d : Z) :
  strptime "%H:%M:%S"
    (fmt_02d (Time.hour t) +:+ String ":"
       (fmt_02d (Time.minute t) +:+ String ":" (fmt_02d (Time.second t))))
    (y, m, d, 0, 0, 0)
  = Some (y, m, d, Time.hour t, Time.minute t, Time.second t).
Proof.
  pose proof (hour_range t). pose proof (minute_range t).
  pose proof (second_range t).
  cbn [strptime]. rewrite get_number_fmt_02d by lia.
  cbn [strptime c_isspace]. 
  change (c_isspace ":") with false. cbn [Ascii.eqb Bool.eqb].
  rewrite get_number_fmt_02d by lia.
  cbn [strptime Ascii.eqb Bool.eqb]. change (c_isspace ":") with false. cbn iota.
  rewrite <- (string_app_nil_r (fmt_02d (Time.second t))).
  by rewrite get_number_fmt_02d by lia.
Qed.

Lemma strptime_date (t : Time.t) (fmt rest : string) (H M S : Z) :
  1000 <= Time.year t <= 9999 ->
  strptime ("%Y-%m-%d" +:+ fmt)
    (dec (Time.year t) +:+ String "-" (fmt_02d (Time.month t) +:+ String "-"
       (fmt_02d (Time.mday t) +:+ rest)))
    (1900, 1, 0, H, M, S)
  = strptime fmt rest (Time.year t, Time.month t, Time.mday t, H, M, S).
Proof.
  intros Hy. destruct (date_range t).
  rewrite !string_app_cons, string_app_nil_l.
  cbn [strptime]. rewrite get_number_year by done.
  change (c_isspace "-") with false. cbn [Ascii.eqb Bool.eqb]. cbn iota.
  cbn [strptime]. rewrite get_number_fmt_02d by lia.
  change (c_isspace "-") with false. cbn [Ascii.eqb Bool.eqb]. cbn iota.
  cbn [strptime]. by rewrite get_number_fmt_02d by lia.
Qed.

(** ** [Time.FromString] reads what [Time.toString] writes *)

Lemma FromString_datetime (t : Time.t) :
  1000 <= Time.year t <= 9999 ->
  Time_FromString (Time.toString "%Y-%m-%d %H:%M:%S" t) "%Y-%m-%d %H:%M:%S" = t.
Proof.
  intros Hy. unfold Time_FromString.
  change "%Y-%m-%d %H:%M:%S"%string with ("%Y-%m-%d" +:+ String " " "%H:%M:%S").
  rewrite toString_datetime by done.
  rewrite strptime_date by done.
  pose proof (hour_range t) as Hh.
  assert (Hs : skip_spaces (String " " (fmt_02d (Time.hour t) +:+ String ":"
                 (fmt_02d (Time.minute t) +:+ String ":" (fmt_02d (Time.second t)))))
               = fmt_02d (Time.hour t) +:+ String ":"
                 (fmt_02d (Time.minute t) +:+ String ":" (fmt_02d (Time.second t)))).
  { rewrite (fmt_02d_digits (Time.hour t)) by lia.
    rewrite !string_app_cons.
    etransitivity; [|apply skip_spaces_digit, digit_char_spec;
                     Z.div_mod_to_equations; lia].
    done. }
  change (strptime (String " " "%H:%M:%S") ?s ?x)
    with (strptime "%H:%M:%S" (skip_spaces s) x).
  rewrite Hs, strptime_time. apply Time_of_fields_of_time.
Qed.

Lemma FromString_date (t : Time.t) :
  1000 <= Time.year t <= 9999 ->
  Time_FromString (Time.toString "%Y-%m-%d" t) "%Y-%m-%d" = midnight t.
Proof.
  intros Hy. unfold Time_FromString. rewrite toString_day.
  rewrite <- (string_app_nil_r (fmt_02d (Time.mday t))).
  rewrite <- (string_app_nil_r "%Y-%m-%d").
  rewrite strptime_date by done. cbn [strptime].
  apply Time_of_fields_midnight.
Qed.

(** ** The patterns of [dateTimeRe] *)

Lemma re_digits_two (k : string -> bool) (a b : ascii) (rest : string) :
  is_digit a = true -> is_digit b = true ->
  re_digits 2 1 k (String a (String b rest)) = k rest || k (String b rest).
Proof.
  intros Ha Hb. cbn [re_digits pred Nat.eqb]. rewrite Ha, Hb.
  cbn [andb]. by rewrite orb_false_r.
Qed.

Lemma re_digits_one (k : string -> bool) (a b : ascii) (rest : string) :
  is_digit a = true -> is_digit b = false ->
  re_digits 2 1 k (String a (String b rest)) = k (String b rest).
Proof.
  intros Ha Hb. cbn [re_digits pred Nat.eqb]. rewrite Ha, Hb.
  cbn [andb orb]. by rewrite orb_false_r.
Qed.

Lemma re_digits_four (k : string -> bool) (a b c d : ascii) (rest : string) :
  is_digit a = true -> is_digit b = true -> is_digit c = true ->
  is_digit d = true ->
  re_digits 4 4 k (String a (String b (String c (String d rest)))) = k rest.
Proof.
  intros Ha Hb Hc Hd. cbn [re_digits pred Nat.eqb]. rewrite Ha, Hb, Hc, Hd.
  cbn [andb]. by rewrite !orb_false_r.
Qed.

(** Fewer than four digits at the start of the text. *)
Lemma re_digits_four_short (k : string -> bool) (s : string) :
  (exists a b c rest,
      s = String a (String b (String c rest))
      /\ (is_digit a = false \/ is_digit b = false \/ is_digit c = false)) ->
  re_digits 4 4 k s = false.
Proof.
  intros (a & b & c & rest & -> & H). cbn [re_digits pred Nat.eqb].
  destruct H as [H|[H|H]]; rewrite H; cbn [andb orb];
    by rewrite ?andb_false_r, ?orb_false_r.
Qed.

Lemma re_year (k : string -> bool) (y : Z) (rest : string) :
  1000 <= y <= 9999 -> re_digits 4 4 k (dec y +:+ rest) = k rest.
Proof.
  intros Hy. rewrite dec_year by done.
  rewrite !string_app_cons, string_app_nil_l.
  apply re_digits_four; apply digit_char_spec; Z.div_mod_to_equations; lia.
Qed.

Lemma re_two (k : string -> bool) (v : Z) (rest : string) :
  0 <= v <= 99 ->
  re_digits 2 1 k (fmt_02d v +:+ rest)
  = k rest || k (String (digit_char (v mod 10)) rest).
Proof.
  intros Hv. rewrite fmt_02d_digits by done.
  rewrite !string_app_cons, string_app_nil_l.
  apply re_digits_two; apply digit_char_spec; Z.div_mod_to_equations; lia.
Qed.

(** A pattern that goes on with a given character does not match a text
    that goes on with a digit. *)
Lemma re_match_char_digit (a : ascii) (p : list re_item) (c : ascii) (s : string) :
  is_digit c = true -> is_digit a = false ->
  re_match (Char a :: p) (String c s) = false.
Proof.
  intros Hc Ha. cbn [re_match].
  destruct (Ascii.eqb_spec c a) as [->|_]; [congruence|done].
Qed.

Lemma re_match_space_digit (p : list re_item) (c : ascii) (s : string) :
  is_digit c = true -> re_match (Whitespace :: p) (String c s) = false.
Proof.
  intros Hc. cbn [re_match]. by destruct (is_digit_spec c Hc) as (_ & -> & _).
Qed.

Lemma re_match_end_digit (c : ascii) (s : string) :
  is_digit c = true -> re_match [] (String c s) = false.
Proof.
  intros Hc. cbn [re_match String.eqb].
  destruct (Ascii.eqb_spec c newline) as [->|_]; [done|done].
Qed.

Lemma re_match_char (a : ascii) (p : list re_item) (s : string) :
  re_match (Char a :: p) (String a s) = re_match p s.
Proof. cbn [re_match]. by rewrite Ascii.eqb_refl. Qed.

Lemma re_match_digits (min max : nat) (p : list re_item) (s : string) :
  re_match (Digits min max :: p) s = re_digits max min (re_match p) s.
Proof. done. Qed.

Lemma digit_low (v : Z) : 0 <= v <= 99 -> is_digit (digit_char (v mod 10)) = true.
Proof. intros H. apply digit_char_spec. Z.div_mod_to_equations. lia. Qed.

(** The time of day, followed by [rest]. *)
Lemma re_match_time (t : Time.t) (rest : string) :
  re_match [] rest = true ->
  re_match time_re
    (fmt_02d (Time.hour t) +:+ String ":"
       (fmt_02d (Time.minute t) +:+ String ":" (fmt_02d (Time.second t) +:+ rest)))
  = true.
Proof.
  intros Hrest.
  pose proof (hour_range t). pose proof (minute_range t).
  pose proof (second_range t).
  unfold time_re.
  rewrite re_match_digits, re_two, re_match_char by lia.
  rewrite re_match_digits, re_two, re_match_char by lia.
  rewrite re_match_digits, re_two by lia.
  by rewrite Hrest.
Qed.

(** The date, followed by [rest], under a pattern that goes on with [p]. *)
Lemma re_match_date (t : Time.t) (p : list re_item) (rest : string) :
  1000 <= Time.year t <= 9999 ->
  re_match (date_re ++ p)
    (dec (Time.year t) +:+ String "-" (fmt_02d (Time.month t) +:+ String "-"
       (fmt_02d (Time.mday t) +:+ rest)))
  = re_match p rest || re_match p (String (digit_char (Time.mday t mod 10)) rest).
Proof.
  intros Hy. destruct (date_range t).
  unfold date_re. cbn [app].
  rewrite re_match_digits, re_year, re_match_char by done.
  rewrite re_match_digits, re_two, re_match_char by lia.
  rewrite (re_match_char_digit "-") by (done || by apply digit_low; lia).
  rewrite orb_false_r.
  by rewrite re_match_digits, re_two by lia.
Qed.

(** ** The characters of a date *)

Lemma date_char_spec (c : ascii) :
  date_char c = true ->
  c <> "%"%char /\ c <> "+"%char /\ c <> "="%char /\ c <> newline
  /\ is_separator c = false.
Proof.
  destruct c as [[] [] [] [] [] [] [] []]; intros H; try discriminate H;
    by split_and!.
Qed.

Lemma occurs_fmt_02d (v : Z) (c : ascii) :
  0 <= v <= 99 -> occurs c (fmt_02d v) -> date_char c = true.
Proof.
  intros Hv. rewrite fmt_02d_digits by done. rewrite !occurs_cons.
  unfold date_char.
  intros [<-|[<-|[]]]; apply orb_true_iff; left; repeat (apply orb_true_iff; left);
    apply digit_char_spec; Z.div_mod_to_equations; lia.
Qed.

Lemma occurs_year (y : Z) (c : ascii) :
  1000 <= y <= 9999 -> occurs c (dec y) -> date_char c = true.
Proof.
  intros Hv. rewrite dec_year by done. rewrite !occurs_cons.
  unfold date_char.
  intros [<-|[<-|[<-|[<-|[]]]]]; repeat (apply orb_true_iff; left);
    apply digit_char_spec; Z.div_mod_to_equations; lia.
Qed.

Lemma occurs_time (t : Time.t) (c : ascii) :
  occurs c (Time.toString "%H:%M:%S" t) -> date_char c = true.
Proof.
  pose proof (hour_range t). pose proof (minute_range t).
  pose proof (second_range t).
  rewrite toString_time, !occurs_app, !occurs_cons, !occurs_app, !occurs_cons.
  intros [Hc|[<-|[Hc|[<-|Hc]]]]; try done; by apply occurs_fmt_02d in Hc; [|lia].
Qed.

Lemma occurs_date (t : Time.t) (c : ascii) :
  1000 <= Time.year t <= 9999 ->
  occurs c (Time.toString "%Y-%m-%d" t) -> date_char c = true.
Proof.
  intros Hy. destruct (date_range t).
  rewrite toString_day, !occurs_app, !occurs_cons, !occurs_app, !occurs_cons.
  intros [Hc|[<-|[Hc|[<-|Hc]]]]; try done.
  - by apply occurs_year in Hc.
  - by apply occurs_fmt_02d in Hc; [|lia].
  - by apply occurs_fmt_02d in Hc; [|lia].
Qed.

Lemma toString_split (sep : ascii) (t : Time.t) :
  sep <> "%"%char ->
  Time.toString ("%Y-%m-%d" +:+ String sep "%H:%M:%S") t
  = Time.toString "%Y-%m-%d" t +:+ String sep (Time.toString "%H:%M:%S" t).
Proof.
  intros Hsep. rewrite toString_datetime, toString_day, toString_time by done.
  by repeat (rewrite string_app_assoc || rewrite string_app_cons).
Qed.

Lemma occurs_datetime (sep : ascii) (t : Time.t) (c : ascii) :
  1000 <= Time.year t <= 9999 -> date_char sep = true ->
  occurs c (Time.toString ("%Y-%m-%d" +:+ String sep "%H:%M:%S") t) ->
  date_char c = true.
Proof.
  intros Hy Hsep.
  rewrite toString_split by (by apply date_char_spec).
  rewrite occurs_app, occurs_cons.
  intros [Hc|[<-|Hc]]; [by apply (occurs_date t)|done|by apply (occurs_time t)].
Qed.

Lemma replace_pct20_plain (s : string) :
  (forall c, occurs c s -> c <> "%"%char) -> replace_pct20 s = s.
Proof.
  induction s as [|a s IH]; intros H; [done|].
  rewrite replace_pct20_cons_ne by (apply H; by left).
  by rewrite IH by (intros c Hc; apply H; by right).
Qed.

Lemma replace_pct3A_plain (s : string) :
  (forall c, occurs c s -> c <> "%"%char) -> replace_pct3A s = s.
Proof.
  induction s as [|a s IH]; intros H; [done|].
  rewrite replace_pct3A_cons_ne by (apply H; by left).
  by rewrite IH by (intros c Hc; apply H; by right).
Qed.

Lemma re_group_plain (s : string) :
  (forall c, occurs c s -> c <> newline) -> re_group s = s.
Proof.
  induction s as [|a s IH]; intros H; [done|].
  assert (Ha : Ascii.eqb a newline = false) by (apply Ascii.eqb_neq, H; by left).
  cbn [re_group]. rewrite Ha, IH by (intros c Hc; apply H; by right).
  by destruct s.
Qed.

(** What [str2date] does with a text of date characters, the decoding and
    the group being the text itself. *)
Lemma str2date_date_chars (now : Z * Z * Z) (line : string) :
  (forall c, occurs c line -> date_char c = true) ->
  str2date now line
  = if re_match datetime_re line
    then Some (Ok (Time_FromString line "%Y-%m-%d %H:%M:%S"))
    else if re_match date_re line
    then Some (Ok (Time_FromString line "%Y-%m-%d"))
    else if re_match time_re line
    then
      let t := split ":" line in
      Some (t0 ← getitem t 0; h ← int_ t0;
            t1 ← getitem t 1; m ← int_ t1;
            t2 ← getitem t 2; s ← int_ t2;
            Ok (Time_of_fields now.1.1 now.1.2 now.2 h m s))
    else None.
Proof.
  intros H. unfold str2date.
  rewrite replace_pct20_plain by (intros c Hc; by apply date_char_spec, H).
  by rewrite re_group_plain by (intros c Hc; by apply date_char_spec, H).
Qed.

Lemma re_match_datetime (t : Time.t) :
  1000 <= Time.year t <= 9999 ->
  re_match datetime_re (Time.toString "%Y-%m-%d %H:%M:%S" t) = true.
Proof.
  intros Hy.
  change "%Y-%m-%d %H:%M:%S"%string with ("%Y-%m-%d" +:+ String " " "%H:%M:%S").
  rewrite toString_datetime by done. unfold datetime_re.
  rewrite re_match_date by done.
  apply orb_true_iff. left.
  change (re_match (Whitespace :: time_re) (String " " ?s))
    with (py_isspace " " && re_match time_re s).
  rewrite <- (string_app_nil_r (fmt_02d (Time.second t))).
  by rewrite re_match_time.
Qed.

Lemma re_match_date_only (t : Time.t) :
  1000 <= Time.year t <= 9999 ->
  re_match datetime_re (Time.toString "%Y-%m-%d" t) = false
  /\ re_match date_re (Time.toString "%Y-%m-%d" t) = true.
Proof.
  intros Hy. destruct (date_range t).
  rewrite toString_day.
  rewrite <- (string_app_nil_r (fmt_02d (Time.mday t))).
  split.
  - unfold datetime_re. rewrite re_match_date by done.
    by rewrite re_match_space_digit by (apply digit_low; lia).
  - rewrite <- (app_nil_r date_re). by rewrite re_match_date by done.
Qed.

(** ** str2date *)

Lemma str2date_datetime (now : Z * Z * Z) (t : Time.t) :
  1000 <= Time.year t <= 9999 ->
  str2date now (Time.toString "%Y-%m-%d %H:%M:%S" t) = Some (Ok t).
Proof.
  intros Hy.
  rewrite str2date_date_chars by (intros c; by apply (occurs_datetime " ")).
  by rewrite re_match_datetime, FromString_datetime by done.
Qed.

Lemma str2date_date (now : Z * Z * Z) (t : Time.t) :
  1000 <= Time.year t <= 9999 ->
  str2date now (Time.toString "%Y-%m-%d" t) = Some (Ok (midnight t)).
Proof.
  intros Hy. destruct (re_match_date_only t Hy) as [H1 H2].
  rewrite str2date_date_chars by (intros c; by apply occurs_date).
  by rewrite H1, H2, FromString_date by done.
Qed.

(** X25: [str2date] reads back what [date2str] writes.  For a time in a
    year of four digits, the text of the mode 'date time' is read as that
    time, also after [link] has written its space as "%20", and the text of
    the mode 'date' is read as the midnight that starts the day. *)
Theorem str2date_reads_back_date2str :
  forall (now : Z * Z * Z) (t : Time.t),
    1000 <= Time.year t <= 9999 ->
    exists s1 s2 : string,
      date2str t "date time" = Some s1
      /\ str2date now s1 = Some (Ok t)
      /\ str2date now (replace_space s1) = Some (Ok t)
      /\ date2str t "date" = Some s2
      /\ str2date now s2 = Some (Ok (midnight t)).
Proof.
  intros now t Hy.
  exists (Time.toString "%Y-%m-%d %H:%M:%S" t), (Time.toString "%Y-%m-%d" t).
  split_and!; [done|by apply str2date_datetime| |done|by apply str2date_date].
  pose proof (str2date_datetime now t Hy) as H.
  unfold str2date in *.
  destruct (decode_replace_space (Time.toString "%Y-%m-%d %H:%M:%S" t)) as [_ Hd].
  { intros c Hc. by apply date_char_spec, (occurs_datetime " " t). }
  rewrite Hd.
  by rewrite replace_pct20_plain in H
    by (intros c Hc; by apply date_char_spec, (occurs_datetime " " t)).
Qed.

Lemma str2date_reads_back_date2str_witness :
  exists s1 s2 : string,
    date2str 1585744496 "date time" = Some s1
    /\ str2date (2026, 11, 3) s1 = Some (Ok 1585744496)
    /\ str2date (2026, 11, 3) (replace_space s1) = Some (Ok 1585744496)
    /\ date2str 1585744496 "date" = Some s2
    /\ str2date (2026, 11, 3) s2 = Some (Ok (midnight 1585744496)).
Proof. apply str2date_reads_back_date2str. by vm_compute. Defined.

(** ** The time of day *)

Lemma split_plain (sep : ascii) (s : string) :
  (forall c, occurs c s -> c <> sep) -> split sep s = [s].
Proof.
  induction s as [|a s IH]; intros H; [done|].
  assert (Ha : Ascii.eqb a sep = false) by (apply Ascii.eqb_neq, H; by left).
  cbn [split]. by rewrite Ha, IH by (intros c Hc; apply H; by right).
Qed.

Lemma split_app (sep : ascii) (a b : string) :
  (forall c, occurs c a -> c <> sep) ->
  split sep (a +:+ String sep b) = a :: split sep b.
Proof.
  induction a as [|x a IH]; intros H.
  - rewrite string_app_nil_l. cbn [split]. by rewrite Ascii.eqb_refl.
  - assert (Hx : Ascii.eqb x sep = false) by (apply Ascii.eqb_neq, H; by left).
    rewrite string_app_cons. cbn [split].
    by rewrite Hx, IH by (intros c Hc; apply H; by right).
Qed.

Lemma fmt_02d_no_colon (v : Z) (c : ascii) :
  0 <= v <= 99 -> occurs c (fmt_02d v) -> c <> ":"%char.
Proof.
  intros Hv. rewrite fmt_02d_digits by done. rewrite !occurs_cons.
  intros [<-|[<-|[]]]; apply is_digit_spec, digit_char_spec;
    Z.div_mod_to_equations; lia.
Qed.

Lemma int_fmt_02d (v : Z) : 0 <= v <= 99 -> int_ (fmt_02d v) = Ok v.
Proof.
  intros Hv. unfold fmt_02d. destruct (Z.ltb_spec v 10) as [Hlt|Hge].
  - replace (0 <=? v) with true by lia. cbn [andb]. by digit_cases v.
  - rewrite andb_false_r. apply int_dec.
Qed.

Lemma re_match_time_only (t : Time.t) :
  re_match datetime_re (Time.toString "%H:%M:%S" t) = false
  /\ re_match date_re (Time.toString "%H:%M:%S" t) = false
  /\ re_match time_re (Time.toString "%H:%M:%S" t) = true.
Proof.
  pose proof (hour_range t) as Hh. rewrite toString_time.
  split_and!.
  - unfold datetime_re, date_re. cbn [app]. rewrite re_match_digits.
    apply re_digits_four_short. rewrite fmt_02d_digits by lia.
    rewrite !string_app_cons, string_app_nil_l. do 4 eexists.
    split; [done|]. by do 2 right.
  - unfold date_re. rewrite re_match_digits.
    apply re_digits_four_short. rewrite fmt_02d_digits by lia.
    rewrite !string_app_cons, string_app_nil_l. do 4 eexists.
    split; [done|]. by do 2 right.
  - rewrite <- (string_app_nil_r (fmt_02d (Time.second t))).
    by apply re_match_time.
Qed.

Lemma str2date_time (now : Z * Z * Z) (t : Time.t) :
  str2date now (Time.toString "%H:%M:%S" t)
  = Some (Ok (days_from_civil now.1.1 now.1.2 now.2 * 86400 + t mod 86400)).
Proof.
  pose proof (hour_range t) as Hh. pose proof (minute_range t) as Hm.
  pose proof (second_range t) as Hs.
  destruct (re_match_time_only t) as (H1 & H2 & H3).
  rewrite str2date_date_chars by (intros c; by apply occurs_time).
  rewrite H1, H2, H3. rewrite toString_time.
  rewrite !split_app by (intros c; apply fmt_02d_no_colon; lia).
  rewrite split_plain by (intros c; apply fmt_02d_no_colon; lia).
  cbn zeta. do 2 f_equal.
  change (getitem [?a; ?b; ?c] 0) with (Ok a).
  change (getitem [?a; ?b; ?c] 1) with (Ok b).
  change (getitem [?a; ?b; ?c] 2) with (Ok c).
  cbn [mbind result_bind]. rewrite !int_fmt_02d by lia.
  cbn [mbind result_bind].
  f_equal. unfold Time_of_fields, Time.hour, Time.minute, Time.second.
  Z.div_mod_to_equations. lia.
Qed.

(** X26: a text that holds a time of day only is read by [str2date] as
    that time of the day of [datetime.now()]: for what [date2str] writes in
    the mode 'time', the midnight of today plus the seconds since midnight of
    the time written, whatever its date was. *)
Theorem str2date_puts_a_time_on_today :
  forall (now : Z * Z * Z) (t : Time.t),
    exists s : string,
      date2str t "time" = Some s
      /\ str2date now s
         = Some (Ok (days_from_civil now.1.1 now.1.2 now.2 * 86400 + t mod 86400)).
Proof.
  intros now t. exists (Time.toString "%H:%M:%S" t).
  split; [done|apply str2date_time].
Qed.

(** ** The query string of the exporter *)

Lemma exporter_query_pairs (startTime endTime : Time.t) :
  exporter_query startTime endTime
  = ("startTime" +:+ String "=" (Time.toString "%Y-%m-%d" startTime))
    +:+ String "&" ("endTime" +:+ String "=" (Time.toString "%Y-%m-%d" endTime)).
Proof.
  unfold exporter_query.
  change (date2str startTime "date") with (Some (Time.toString "%Y-%m-%d" startTime)).
  change (date2str endTime "date") with (Some (Time.toString "%Y-%m-%d" endTime)).
  cbn [default].
  by repeat (rewrite string_app_assoc || rewrite string_app_cons
             || rewrite string_app_nil_l).
Qed.

Lemma wwwApp_args_date (k : string) (t : Time.t) :
  k <> "" ->
  (forall c, occurs c k -> c <> "="%char /\ c <> newline /\ is_separator c = false) ->
  1000 <= Time.year t <= 9999 ->
  wwwApp_args (k +:+ String "=" (Time.toString "%Y-%m-%d" t))
  = {[k := Time.toString "%Y-%m-%d" t]}.
Proof.
  intros Hk Hc Hy.
  assert (Hd : forall c, occurs c (Time.toString "%Y-%m-%d" t) ->
                 c <> "%"%char /\ c <> "+"%char /\ c <> "="%char /\ c <> newline
                 /\ is_separator c = false)
    by (intros c Hc'; by apply date_char_spec, (occurs_date t)).
  rewrite wwwApp_args_pair; [|done..|intros c Hc'; by destruct (Hd c Hc') as (_ & _ & _ & ? & ?)].
  rewrite replace_plus_plain by (intros c Hc'; by apply Hd).
  by rewrite replace_pct3A_plain by (intros c Hc'; by apply Hd).
Qed.

Lemma exporter_args (startTime endTime : Time.t) :
  1000 <= Time.year startTime <= 9999 -> 1000 <= Time.year endTime <= 9999 ->
  wwwApp_args (exporter_query startTime endTime)
  = {["endTime" := Time.toString "%Y-%m-%d" endTime]}
    ∪ {["startTime" := Time.toString "%Y-%m-%d" startTime]}.
Proof.
  intros Hs He. rewrite exporter_query_pairs, wwwApp_args_sequence by done.
  rewrite !wwwApp_args_date; try done.
  - intros c Hc. cbn in Hc. by repeat (destruct Hc as [<-|Hc]; [done|]).
  - intros c Hc. cbn in Hc. by repeat (destruct Hc as [<-|Hc]; [done|]).
Qed.

(** X27: the report the exporter asks for covers whole days.  The query
    string it builds holds two arguments and no other, startTime and
    endTime; for times in years of four digits, [wwwApp] stores their dates
    and [str2date], as [loadRequests] and [printRequestSummary] call it on
    them, gives the midnights that start the days of the two times: the time
    of day of either end is dropped. *)
Theorem exporter_asks_for_whole_days :
  forall (now : Z * Z * Z) (startTime endTime : Time.t),
    1000 <= Time.year startTime <= 9999 ->
    1000 <= Time.year endTime <= 9999 ->
    let args := wwwApp_args (exporter_query startTime endTime) in
    dom args = {["startTime"; "endTime"]}
    /\ (exists a, args !! "startTime" = Some a
                  /\ str2date now a = Some (Ok (midnight startTime)))
    /\ (exists b, args !! "endTime" = Some b
                  /\ str2date now b = Some (Ok (midnight endTime))).
Proof.
  intros now startTime endTime Hs He args. subst args.
  rewrite exporter_args by done. split_and!.
  - rewrite dom_union_L, !dom_singleton_L. set_solver.
  - exists (Time.toString "%Y-%m-%d" startTime). split; [|by apply str2date_date].
    rewrite lookup_union_r by done. apply lookup_singleton_eq.
  - exists (Time.toString "%Y-%m-%d" endTime). split; [|by apply str2date_date].
    apply lookup_union_Some_l, lookup_singleton_eq.
Qed.

Lemma exporter_asks_for_whole_days_witness :
  dom (wwwApp_args (exporter_query 1585744496 1585873943))
  = {["startTime"; "endTime"]}
  /\ (exists a, wwwApp_args (exporter_query 1585744496 1585873943) !! "startTime"
                = Some a
                /\ str2date (2026, 11, 3) a = Some (Ok (midnight 1585744496)))
  /\ (exists b, wwwApp_args (exporter_query 1585744496 1585873943) !! "endTime"
                = Some b
                /\ str2date (2026, 11, 3) b = Some (Ok (midnight 1585873943))).
Proof.
  apply (exporter_asks_for_whole_days (2026, 11, 3) 1585744496 1585873943);
    by vm_compute.
Defined.

(** ** The time range of an export *)

Lemma yesterday_midnight (now start : Z * Z * Z) :
  yesterday now = Some start ->
  Time_of_fields start.1.1 start.1.2 start.2 0 0 0
  = Time_of_fields now.1.1 now.1.2 now.2 0 0 0 - 86400.
Proof.
  unfold yesterday. cbv zeta.
  destruct (_ <? _); [done|]. intros [= <-].
  pose proof (days_from_civil_of_days (days_from_civil now.1.1 now.1.2 now.2 - 1)) as H.
  destruct (Time.civil_from_days _) as [[y m] d]. cbn [fst snd].
  unfold Time_of_fields. rewrite H. lia.
Qed.

Lemma days_midnight (t : Time.t) : Time.days (midnight t) = Time.days t.
Proof. unfold Time.days, midnight. Z.div_mod_to_equations. lia. Qed.

Lemma midnight_idem (t : Time.t) : midnight (midnight t) = midnight t.
Proof. unfold midnight. Z.div_mod_to_equations. lia. Qed.

Lemma year_midnight (t : Time.t) : Time.year (midnight t) = Time.year t.
Proof. unfold Time.year. by rewrite days_midnight. Qed.

(** X28: an export with dates as options reports on the range it was
    asked for.  When the options startTime and endTime are dates as
    [date2str] writes them, of years of four digits, [validateParameters]
    sets the range from the midnight that starts the first to the midnight
    that starts the second, and the two arguments that the query string of
    [exporter] carries to the summary are read by [str2date] as these same
    two times. *)
Theorem export_range_from_the_options :
  forall (now : Z * Z * Z) (t1 t2 : Time.t),
    1000 <= Time.year t1 <= 9999 -> 1000 <= Time.year t2 <= 9999 ->
    exists startTime endTime a b,
      validateParameters_times now (Ok (Time.toString "%Y-%m-%d" t1))
                               (Ok (Time.toString "%Y-%m-%d" t2))
      = Some (startTime, endTime)
      /\ startTime = midnight t1 /\ endTime = midnight t2
      /\ wwwApp_args (exporter_query startTime endTime) !! "startTime" = Some a
      /\ wwwApp_args (exporter_query startTime endTime) !! "endTime" = Some b
      /\ str2date now a = Some (Ok startTime)
      /\ str2date now b = Some (Ok endTime).
Proof.
  intros now t1 t2 H1 H2.
  exists (midnight t1), (midnight t2),
    (Time.toString "%Y-%m-%d" (midnight t1)), (Time.toString "%Y-%m-%d" (midnight t2)).
  assert (H1' : 1000 <= Time.year (midnight t1) <= 9999) by (by rewrite year_midnight).
  assert (H2' : 1000 <= Time.year (midnight t2) <= 9999) by (by rewrite year_midnight).
  rewrite exporter_args by done. split_and!; try done.
  - unfold validateParameters_times. by rewrite !str2date_date by done.
  - by rewrite str2date_date, midnight_idem by done.
  - by rewrite str2date_date, midnight_idem by done.
Qed.

Lemma export_range_from_the_options_witness :
  exists startTime endTime a b,
    validateParameters_times (2026, 11, 3)
      (Ok (Time.toString "%Y-%m-%d" 1585744496))
      (Ok (Time.toString "%Y-%m-%d" 1585873943))
    = Some (startTime, endTime)
    /\ startTime = midnight 1585744496 /\ endTime = midnight 1585873943
    /\ wwwApp_args (exporter_query startTime endTime) !! "startTime" = Some a
    /\ wwwApp_args (exporter_query startTime endTime) !! "endTime" = Some b
    /\ str2date (2026, 11, 3) a = Some (Ok startTime)
    /\ str2date (2026, 11, 3) b = Some (Ok endTime).
Proof.
  apply (export_range_from_the_options (2026, 11, 3) 1585744496 1585873943);
    by vm_compute.
Defined.

(** X29: without usable options an export covers yesterday.  When either
    of the options startTime and endTime is missing or is a text that
    [str2date] does not read into a time, [validateParameters] discards a
    good value of the other option too, and the range is the day before
    today: it ends at today's midnight and starts 86400 seconds earlier
    (today being later than 0001-01-01). *)
Theorem export_covers_yesterday_by_default :
  forall (now : Z * Z * Z) (startOpt endOpt : result string),
    days_from_civil 1 1 1 < days_from_civil now.1.1 now.1.2 now.2 ->
    (forall s t, startOpt = Ok s -> str2date now s <> Some (Ok t))
    \/ (forall e t, endOpt = Ok e -> str2date now e <> Some (Ok t)) ->
    let today := Time_of_fields now.1.1 now.1.2 now.2 0 0 0 in
    validateParameters_times now startOpt endOpt = Some (today - 86400, today).
Proof.
  intros now startOpt endOpt Hnow Hbad today. unfold validateParameters_times.
  assert (Hy : exists start, yesterday now = Some start).
  { unfold yesterday. cbv zeta.
    destruct (Z.ltb_spec (days_from_civil now.1.1 now.1.2 now.2 - 1)
                         (days_from_civil 1 1 1)); [lia|by eexists]. }
  destruct Hy as [start Hy].
  assert (Hfall : match yesterday now with
                  | Some start =>
                    Some (Time_of_fields start.1.1 start.1.2 start.2 0 0 0,
                          Time_of_fields now.1.1 now.1.2 now.2 0 0 0)
                  | None => None
                  end = Some (today - 86400, today))
    by (rewrite Hy; by rewrite (yesterday_midnight now start Hy)).
  destruct startOpt as [s|?]; [|done].
  destruct (str2date now s) as [[a|?]|] eqn:Hs; [|done..].
  destruct endOpt as [e|?]; [|done].
  destruct (str2date now e) as [[b|?]|] eqn:He; [|done..].
  destruct Hbad as [Hbad|Hbad]; [by destruct (Hbad s a)|by destruct (Hbad e b)].
Qed.

Lemma export_covers_yesterday_by_default_witness :
  validateParameters_times (2026, 11, 3) (Ok "2020-04-01") (Ok "2020-4-31x")
  = Some (Time_of_fields 2026 11 3 0 0 0 - 86400, Time_of_fields 2026 11 3 0 0 0).
Proof.
  apply (export_covers_yesterday_by_default (2026, 11, 3) (Ok "2020-04-01")
           (Ok "2020-4-31x")); [by vm_compute|].
  right. intros e t [= <-]. by vm_compute.
Defined.

(** ** A date and time as a form submits it *)

Lemma replace_plus_app (a b : string) :
  replace_plus (a +:+ b) = replace_plus a +:+ replace_plus b.
Proof.
  induction a as [|x a IH]; [by rewrite !string_app_nil_l|].
  rewrite string_app_cons. cbn [replace_plus]. by rewrite IH, string_app_cons.
Qed.

Lemma replace_pct3A_app (a b : string) :
  (forall c, occurs c a -> c <> "%"%char) ->
  replace_pct3A (a +:+ b) = a +:+ replace_pct3A b.
Proof.
  induction a as [|x a IH]; intros H; [by rewrite !string_app_nil_l|].
  rewrite !string_app_cons, replace_pct3A_cons_ne by (apply H; by left).
  by rewrite IH by (intros c Hc; apply H; by right).
Qed.

Lemma fmt_02d_plain (v : Z) (c : ascii) :
  0 <= v <= 99 -> occurs c (fmt_02d v) ->
  c <> "%"%char /\ c <> "+"%char /\ c <> "="%char /\ c <> newline
  /\ is_separator c = false.
Proof. intros Hv Hc. by apply date_char_spec, (occurs_fmt_02d v). Qed.

Lemma decode_sent (D H M S : string) :
  (forall c, occurs c D -> c <> "%"%char /\ c <> "+"%char) ->
  (forall c, occurs c H -> c <> "%"%char /\ c <> "+"%char) ->
  (forall c, occurs c M -> c <> "%"%char /\ c <> "+"%char) ->
  (forall c, occurs c S -> c <> "%"%char /\ c <> "+"%char) ->
  replace_pct3A (replace_plus
    (D +:+ String "+" (H +:+ "%3A" +:+ M +:+ "%3A" +:+ S)))
  = D +:+ String " " (H +:+ String ":" (M +:+ String ":" S)).
Proof.
  intros HD HH HM HS.
  assert (P3 : replace_plus "%3A" = "%3A"%string) by done.
  rewrite replace_plus_app, (replace_plus_plain D) by (intros c Hc; by apply HD).
  change (replace_plus (String "+" ?x)) with (String " " (replace_plus x)).
  rewrite replace_plus_app, (replace_plus_plain H) by (intros c Hc; by apply HH).
  rewrite replace_plus_app, P3.
  rewrite replace_plus_app, (replace_plus_plain M) by (intros c Hc; by apply HM).
  rewrite replace_plus_app, P3, (replace_plus_plain S) by (intros c Hc; by apply HS).
  rewrite replace_pct3A_app by (intros c Hc; by apply HD).
  rewrite replace_pct3A_cons_ne by done.
  rewrite replace_pct3A_app by (intros c Hc; by apply HH).
  rewrite !string_app_cons, string_app_nil_l.
  change (replace_pct3A (String "%" (String "3" (String "A" ?s))))
    with (String ":" (replace_pct3A s)).
  rewrite replace_pct3A_app by (intros c Hc; by apply HM).
  change (replace_pct3A (String "%" (String "3" (String "A" ?s))))
    with (String ":" (replace_pct3A s)).
  by rewrite replace_pct3A_plain by (intros c Hc; by apply HS).
Qed.

(** X30: a date and time comes back from a submitted form.  When the value
    of the argument startTime is what [date2str] writes for a time in a year
    of four digits, with the space sent as "+" and each colon as "%3A",
    [wwwApp] stores the text [date2str] wrote, and [str2date] reads it as
    that time. *)
Theorem form_times_are_read_back :
  forall (now : Z * Z * Z) (t : Time.t),
    1000 <= Time.year t <= 9999 ->
    let sent :=
      Time.toString "%Y-%m-%d" t +:+ String "+" (fmt_02d (Time.hour t) +:+ "%3A"
        +:+ fmt_02d (Time.minute t) +:+ "%3A" +:+ fmt_02d (Time.second t)) in
    exists a,
      wwwApp_args ("startTime" +:+ String "=" sent) = {["startTime" := a]}
      /\ date2str t "date time" = Some a
      /\ str2date now a = Some (Ok t).
Proof.
  intros now t Hy sent.
  pose proof (hour_range t) as Hh. pose proof (minute_range t) as Hm.
  pose proof (second_range t) as Hs.
  exists (Time.toString "%Y-%m-%d %H:%M:%S" t).
  split_and!; [|done|by apply str2date_datetime].
  assert (Hd : forall c, occurs c (Time.toString "%Y-%m-%d" t) ->
                 c <> "%"%char /\ c <> "+"%char /\ c <> "="%char /\ c <> newline
                 /\ is_separator c = false)
    by (intros c Hc; by apply date_char_spec, (occurs_date t)).
  rewrite wwwApp_args_pair; [f_equal|done|..].
  - change "%Y-%m-%d %H:%M:%S"%string with ("%Y-%m-%d" +:+ String " " "%H:%M:%S").
    rewrite toString_split, toString_time by done. subst sent.
    apply decode_sent; intros c Hc.
    + by destruct (Hd c Hc) as (? & ? & _).
    + by apply (fmt_02d_plain _ c) in Hc as (? & ? & _); [|lia].
    + by apply (fmt_02d_plain _ c) in Hc as (? & ? & _); [|lia].
    + by apply (fmt_02d_plain _ c) in Hc as (? & ? & _); [|lia].
  - intros c Hc. cbn in Hc. by repeat (destruct Hc as [<-|Hc]; [done|]).
  - subst sent. intros c.
    rewrite occurs_app, occurs_cons, !occurs_app.
    intros [Hc|[<-|[Hc|[Hc|[Hc|[Hc|Hc]]]]]]; try done.
    + by destruct (Hd c Hc) as (_ & _ & _ & ? & ?).
    + by apply (fmt_02d_plain _ c) in Hc as (_ & _ & _ & ? & ?); [|lia].
    + cbn in Hc. by repeat (destruct Hc as [<-|Hc]; [done|]).
    + by apply (fmt_02d_plain _ c) in Hc as (_ & _ & _ & ? & ?); [|lia].
    + cbn in Hc. by repeat (destruct Hc as [<-|Hc]; [done|]).
    + by apply (fmt_02d_plain _ c) in Hc as (_ & _ & _ & ? & ?); [|lia].
Qed.

Lemma form_times_are_read_back_witness :
  exists a,
    wwwApp_args
      ("startTime" +:+ String "="
         (Time.toString "%Y-%m-%d" 1585744496 +:+ String "+"
            (fmt_02d (Time.hour 1585744496) +:+ "%3A"
             +:+ fmt_02d (Time.minute 1585744496) +:+ "%3A"
             +:+ fmt_02d (Time.second 1585744496))))
    = {["startTime" := a]}
    /\ date2str 1585744496 "date time" = Some a
    /\ str2date (2026, 11, 3) a = Some (Ok 1585744496).
Proof.
  apply (form_times_are_read_back (2026, 11, 3) 1585744496). by vm_compute.
Defined.
